(** * A shallow embedding of [bot.py]: the water / calorie tracking bot

    The development follows the source file top to bottom:
    - Python values the handlers compute with (text, [int], [float]);
    - the process-wide [users] dictionary and the per-chat FSM storage;
    - a small state-and-exception monad in which the handlers are written
      the way the source writes them;
    - the handlers themselves and the dispatcher that routes an incoming
      message to the first handler whose filter matches;
    - the properties of the specification, proved or refuted on these
      definitions. *)

From Stdlib Require Import ZArith Lia Bool List Ascii String.
From Stdlib Require SpecFloat.
From stdpp Require Import base option list gmap.

Local Open Scope Z_scope.

(** ** Text

    A Python [str] is a sequence of Unicode code points. *)

Module PyStr.

Definition codepoint := N.
Definition pystr := list codepoint.

(** An ASCII literal as a Python string. *)
Definition lit (s : string) : pystr :=
  List.map N_of_ascii (list_ascii_of_string s).

(** [str.isspace] for one code point: the characters [str.split()]
    separates on. *)
Definition isspace (c : codepoint) : bool :=
  ((9 <=? c) && (c <=? 13) || (28 <=? c) && (c <=? 32)
   || (c =? 133) || (c =? 160) || (c =? 5760)
   || (8192 <=? c) && (c <=? 8202)
   || (c =? 8232) || (c =? 8233) || (c =? 8239) || (c =? 8287)
   || (c =? 12288))%N.

(** [s.split()]: maximal runs of non-whitespace, in order.  [cur] holds
    the token being read, reversed. *)
Fixpoint split_aux (cur : pystr) (s : pystr) : list pystr :=
  match s with
  | [] => match cur with [] => [] | _ => [rev cur] end
  | c :: s' =>
      if isspace c
      then match cur with
           | [] => split_aux [] s'
           | _ => rev cur :: split_aux [] s'
           end
      else split_aux (c :: cur) s'
  end.

Definition split (s : pystr) : list pystr := split_aux [] s.

(** [" ".join(l)]. *)
Fixpoint join_space (l : list pystr) : pystr :=
  match l with
  | [] => []
  | [x] => x
  | x :: l' => x ++ 32%N :: join_space l'
  end.

(** [l[1:]]. *)
Definition tail_from_1 {A} (l : list A) : list A := drop 1 l.

End PyStr.
Export PyStr.

(** ** Floating point

    A Python [float] is an IEEE 754 binary64 number.  Every finite
    binary64 number is an integer multiple of [2^-1074], so a finite
    non-zero float is kept as its sign and that (positive) multiple.
    Each arithmetic operation returns the exact result rounded to the
    nearest representable number, ties to even, which is how IEEE 754
    defines it. *)

Module Float.

Inductive float :=
| Zero (neg : bool)
| Inf (neg : bool)
| NaN
| Fin (neg : bool) (n : positive).

(** Number of significant bits kept, and the scaling of the units. *)
Definition prec : Z := 53.
Definition scale : Z := 2 ^ 1074.
(** First multiple of [2^-1074] too large for a finite float: [2^1024]. *)
Definition huge : Z := 2 ^ 2098.

(** Number of binary digits of a non-negative integer. *)
Definition bitlen (z : Z) : Z := if z =? 0 then 0 else Z.log2 z + 1.

(** [p / q] rounded to the nearest integer, ties to even ([0 <= p], [0 < q]). *)
Definition round_half_even (p q : Z) : Z :=
  let k := p / q in
  match (2 * (p mod q)) ?= q with
  | Lt => k
  | Gt => k + 1
  | Eq => if Z.even k then k else k + 1
  end.

(** How many low bits a magnitude of [n] units cannot keep. *)
Definition shift_of (n : Z) : Z := Z.max 0 (bitlen n - prec).

Definition round_shift (p q : Z) : Z := shift_of (p / q).

(** [p / q] units rounded to the nearest representable number of units. *)
Definition round_nearest (p q : Z) : Z :=
  let s := round_shift p q in
  round_half_even p (q * 2 ^ s) * 2 ^ s.

(** The float of sign [neg] and magnitude [n] units, [n] already rounded. *)
Definition of_units (neg : bool) (n : Z) : float :=
  if n <=? 0 then Zero neg
  else if huge <=? n then Inf neg
  else Fin neg (Z.to_pos n).

(** The float nearest to [p / q] units, of sign [neg]. *)
Definition round_to (neg : bool) (p q : Z) : float :=
  of_units neg (round_nearest p q).

Definition signed (neg : bool) (n : positive) : Z :=
  if neg then Z.neg n else Z.pos n.

Definition neg (x : float) : float :=
  match x with
  | Zero s => Zero (negb s)
  | Inf s => Inf (negb s)
  | NaN => NaN
  | Fin s n => Fin (negb s) n
  end.

Definition add (x y : float) : float :=
  match x, y with
  | NaN, _ | _, NaN => NaN
  | Inf a, Inf b => if Bool.eqb a b then Inf a else NaN
  | Inf a, _ => Inf a
  | _, Inf b => Inf b
  | Zero a, Zero b => Zero (a && b)
  | Zero _, Fin _ _ => y
  | Fin _ _, Zero _ => x
  | Fin a n, Fin b m =>
      let v := signed a n + signed b m in
      if v =? 0 then Zero false else round_to (v <? 0) (Z.abs v) 1
  end.

Definition sub (x y : float) : float := add x (neg y).

Definition mul (x y : float) : float :=
  match x, y with
  | NaN, _ | _, NaN => NaN
  | Inf _, Zero _ | Zero _, Inf _ => NaN
  | Inf a, Inf b | Inf a, Fin b _ | Fin a _, Inf b => Inf (xorb a b)
  | Zero a, Zero b | Zero a, Fin b _ | Fin a _, Zero b => Zero (xorb a b)
  | Fin a n, Fin b m => round_to (xorb a b) (Z.pos n * Z.pos m) scale
  end.

(** IEEE division; Python raises [ZeroDivisionError] on a zero divisor
    before it gets here (see [py_truediv]). *)
Definition div (x y : float) : float :=
  match x, y with
  | NaN, _ | _, NaN => NaN
  | Inf _, Inf _ | Zero _, Zero _ => NaN
  | Inf a, Zero b | Inf a, Fin b _ | Fin a _, Zero b => Inf (xorb a b)
  | Zero a, Inf b | Zero a, Fin b _ | Fin a _, Inf b => Zero (xorb a b)
  | Fin a n, Fin b m => round_to (xorb a b) (Z.pos n * scale) (Z.pos m)
  end.

(** The quotient of two integers as the nearest float: Python's [a / b]
    on [int]s, and the value of a decimal literal. *)
Definition of_ratio (a b : Z) : float :=
  if a =? 0 then Zero (b <? 0)
  else round_to (xorb (a <? 0) (b <? 0)) (Z.abs a * scale) (Z.abs b).

(** The float nearest to an integer. *)
Definition of_Z (z : Z) : float := of_ratio z 1.

Definition is_finite (x : float) : bool :=
  match x with Zero _ | Fin _ _ => true | _ => false end.

Definition is_nan (x : float) : bool :=
  match x with NaN => true | _ => false end.

(** Exact order.  [cmp x y] is [None] when either side is NaN. *)
Definition cmp (x y : float) : option comparison :=
  match x, y with
  | NaN, _ | _, NaN => None
  | Inf a, Inf b => Some (if a then (if b then Eq else Lt) else (if b then Gt else Eq))
  | Inf a, _ => Some (if a then Lt else Gt)
  | _, Inf b => Some (if b then Gt else Lt)
  | Zero _, Zero _ => Some Eq
  | Zero _, Fin b _ => Some (if b then Gt else Lt)
  | Fin a _, Zero _ => Some (if a then Lt else Gt)
  | Fin a n, Fin b m => Some (signed a n ?= signed b m)
  end.

(** Exact order between a float and an integer (no conversion, hence no
    overflow): Python compares [float] with [int] this way. *)
Definition cmp_Z (x : float) (z : Z) : option comparison :=
  match x with
  | NaN => None
  | Inf a => Some (if a then Lt else Gt)
  | Zero _ => Some (0 ?= z)
  | Fin a n => Some (signed a n ?= z * scale)
  end.

Definition ltb (x y : float) : bool :=
  match cmp x y with Some Lt => true | _ => false end.
Definition leb (x y : float) : bool :=
  match cmp x y with Some Lt | Some Eq => true | _ => false end.
Definition eqb (x y : float) : bool :=
  match cmp x y with Some Eq => true | _ => false end.

(** [round(x, 3)]: the exact value of [x] is rounded to three decimal
    places, ties to even, and the resulting decimal is converted back to
    the nearest float; NaN and the infinities round to themselves. *)
Definition round3 (x : float) : float :=
  match x with
  | Fin s n =>
      let thousandths := round_half_even (Z.pos n * 1000) scale in
      if thousandths =? 0 then Zero s
      else round_to s (thousandths * scale) 1000
  | _ => x
  end.

(** A finite float is well formed when its magnitude is representable:
    below [2^1024] and with no bit under its 53 leading ones. *)
Definition representable (n : Z) : bool :=
  (n <? huge) && (n mod 2 ^ shift_of n =? 0).

Definition wf (x : float) : bool :=
  match x with
  | Fin _ n => representable (Z.pos n)
  | _ => true
  end.

(** [x >= +0] in the sense "not NaN and not below zero". *)
Definition nonneg (x : float) : bool :=
  match x with
  | Zero _ => true
  | Inf s | Fin s _ => negb s
  | NaN => false
  end.

End Float.

(** ** The float model against the Standard Library's IEEE 754 model

    [SpecFloat] is the Standard Library's reference implementation of
    binary floating point (sign, mantissa, exponent).  The two models are
    run side by side on sample values: a negative normal number, a
    subnormal number, the largest float, a zero, an infinity and NaN. *)

Module FloatCheck.
Import Float SpecFloat.

(** The canonical mantissa and exponent of a float. *)
Definition to_spec (x : float) : spec_float :=
  match x with
  | Zero s => S754_zero s
  | Inf s => S754_infinity s
  | NaN => S754_nan
  | Fin s n =>
      let sh := shift_of (Z.pos n) in
      S754_finite s (Z.to_pos (Z.pos n / 2 ^ sh)) (sh - 1074)
  end.

Definition same (x y : spec_float) : bool :=
  match x, y with
  | S754_zero a, S754_zero b | S754_infinity a, S754_infinity b => Bool.eqb a b
  | S754_nan, S754_nan => true
  | S754_finite a m e, S754_finite b m' e' => Bool.eqb a b && (m =? m')%positive && (e =? e')
  | _, _ => false
  end.

Definition samples : list float :=
  Eval vm_compute in
  [ of_ratio (-7) 1000; of_ratio 1 (10 ^ 320); of_Z (2 ^ 1024 - 2 ^ 971);
    Zero true; Inf false; NaN ].

Definition agree (op : float -> float -> float)
    (reference : spec_float -> spec_float -> spec_float) : bool :=
  forallb (fun x => forallb (fun y =>
    same (to_spec (op x y)) (reference (to_spec x) (to_spec y))) samples) samples.

Definition agree_order : bool :=
  forallb (fun x => forallb (fun y =>
    match cmp x y, SFcompare (to_spec x) (to_spec y) with
    | Some Eq, Some Eq | Some Lt, Some Lt | Some Gt, Some Gt | None, None => true
    | _, _ => false
    end) samples) samples.

End FloatCheck.

(** ** Python numbers and exceptions *)

Module Py.
Import Float.

Inductive exn :=
| ValueError
| IndexError
| KeyError
| OverflowError
| ZeroDivisionError
| TypeError.

#[global] Instance exn_eq_dec : EqDecision exn.
Proof. solve_decision. Defined.

(** The outcome of evaluating an expression: a value or a raised exception. *)
Inductive res (A : Type) :=
| Val (a : A)
| Exc (e : exn).
Arguments Val {A} a.
Arguments Exc {A} e.

Definition res_bind {A B} (r : res A) (k : A -> res B) : res B :=
  match r with
  | Val a => k a
  | Exc e => Exc e
  end.

(** A number is an [int] (unbounded) or a [float]. *)
Inductive num :=
| PInt (z : Z)
| PFloat (x : float).

(** Conversion of an operand to [float] in mixed arithmetic: an [int]
    that rounds beyond the largest float raises [OverflowError]. *)
Definition as_float (v : num) : res float :=
  match v with
  | PFloat x => Val x
  | PInt z =>
      let x := of_Z z in
      if is_finite x then Val x else Exc OverflowError
  end.

Definition float_binop (op : float -> float -> float) (a b : num) : res num :=
  res_bind (as_float a) (fun x =>
  res_bind (as_float b) (fun y => Val (PFloat (op x y)))).

(** [a + b], [a - b], [a * b]. *)
Definition py_add (a b : num) : res num :=
  match a, b with
  | PInt x, PInt y => Val (PInt (x + y))
  | _, _ => float_binop add a b
  end.

Definition py_sub (a b : num) : res num :=
  match a, b with
  | PInt x, PInt y => Val (PInt (x - y))
  | _, _ => float_binop sub a b
  end.

Definition py_mul (a b : num) : res num :=
  match a, b with
  | PInt x, PInt y => Val (PInt (x * y))
  | _, _ => float_binop mul a b
  end.

(** [a / b]: true division.  On two [int]s the exact quotient is rounded
    once; a quotient beyond the largest float raises [OverflowError]. *)
Definition py_truediv (a b : num) : res num :=
  match a, b with
  | PInt x, PInt y =>
      if y =? 0 then Exc ZeroDivisionError
      else
        let q := of_ratio x y in
        if is_finite q then Val (PFloat q) else Exc OverflowError
  | _, _ =>
      res_bind (as_float a) (fun x =>
      res_bind (as_float b) (fun y =>
        match y with
        | Zero _ => Exc ZeroDivisionError
        | _ => Val (PFloat (div x y))
        end))
  end.

(** [a // b] and the order on numbers; comparisons between [int] and
    [float] are exact. *)
Definition py_floordiv_int (a b : Z) : Z := a / b.

Definition py_cmp (a b : num) : option comparison :=
  match a, b with
  | PInt x, PInt y => Some (x ?= y)
  | PFloat x, PInt y => cmp_Z x y
  | PInt x, PFloat y => option_map CompOpp (cmp_Z y x)
  | PFloat x, PFloat y => cmp x y
  end.

Definition py_gt (a b : num) : bool :=
  match py_cmp a b with Some Gt => true | _ => false end.
Definition py_ge (a b : num) : bool :=
  match py_cmp a b with Some Gt | Some Eq => true | _ => false end.
Definition py_le (a b : num) : bool :=
  match py_cmp a b with Some Lt | Some Eq => true | _ => false end.
Definition py_eq (a b : num) : bool :=
  match py_cmp a b with Some Eq => true | _ => false end.

(** [max(0, x)]: [x] when [x > 0], else the first argument. *)
Definition py_max0 (x : num) : num :=
  if py_gt x (PInt 0) then x else PInt 0.

(** [round(x, 3)]: an [int] is returned as it is. *)
Definition py_round3 (x : num) : num :=
  match x with
  | PInt z => PInt z
  | PFloat f => PFloat (round3 f)
  end.

(** The literal [6.25]. *)
Definition lit_6_25 : num := PFloat (of_ratio 625 100).

(** Well-formedness and sign of a number. *)
Definition num_wf (v : num) : bool :=
  match v with PInt _ => true | PFloat x => wf x end.

Definition num_nonneg (v : num) : bool := py_ge v (PInt 0).

Definition num_finite (v : num) : bool :=
  match v with PInt _ => true | PFloat x => is_finite x end.

End Py.
Export Py.

(** ** The bot's data *)

Module Bot.
Import Float.

(** An incoming text message: who sent it, in which chat, and its text.
    Only messages that carry text are modelled: for a photo or a sticker
    [message.text] is [None], and what the handlers do with [None] is
    outside this development. *)
Record message := Message {
  from_user : Z;
  chat : Z;
  text : pystr;
}.

(** One entry of the [users] dictionary (the dict built in [set_city]).
    [weight] and [height] come from [float()], [age] and [activity] from
    [int()]; [logged_water] and [burned_calories] start at the [int] 0 and
    only ever have [int]s added; the other numeric entries are results of
    arithmetic and may be [int] or [float]. *)
Record user := User {
  weight : float;
  height : float;
  age : Z;
  activity : Z;
  city : pystr;
  water_goal : num;
  calorie_goal : num;
  logged_water : Z;
  logged_calories : num;
  burned_calories : Z;
}.

Definition with_logged_water (v : Z) (u : user) : user :=
  User (weight u) (height u) (age u) (activity u) (city u) (water_goal u)
       (calorie_goal u) v (logged_calories u) (burned_calories u).
Definition with_logged_calories (v : num) (u : user) : user :=
  User (weight u) (height u) (age u) (activity u) (city u) (water_goal u)
       (calorie_goal u) (logged_water u) v (burned_calories u).
Definition with_burned_calories (v : Z) (u : user) : user :=
  User (weight u) (height u) (age u) (activity u) (city u) (water_goal u)
       (calorie_goal u) (logged_water u) (logged_calories u) v.

(** [ProfileState] and [FoodLoggingState]. *)
Inductive phase :=
| ProfileState_weight
| ProfileState_height
| ProfileState_age
| ProfileState_activity
| ProfileState_city
| FoodLoggingState_waiting_for_quantity.

#[global] Instance phase_eq_dec : EqDecision phase.
Proof. solve_decision. Defined.

(** The FSM data dictionary: the keys the handlers ever write. *)
Record fsm_data := FsmData {
  d_weight : option float;
  d_height : option float;
  d_age : option Z;
  d_activity : option Z;
  d_food_name : option pystr;
  d_calories_per_100g : option num;
}.

Definition no_data : fsm_data := FsmData None None None None None None.

(** What [MemoryStorage] keeps for one (chat, user) key; the state [None]
    is the idle state. *)
Record fsm_ctx := FsmCtx {
  fsm_state : option phase;
  fsm_values : fsm_data;
}.

Definition fresh_ctx : fsm_ctx := FsmCtx None no_data.

(** The messages the bot sends, with the values they display (the
    rendering of the text itself is not modelled). *)
Inductive reply :=
| Greeting
| HelpText
| AskWeight
| AskHeight
| AskAge
| AskActivity
| AskCity
| BadWeight
| BadHeight
| BadAge
| BadActivity
| WeatherFailed
| ProfileConfigured (water_goal : num) (temperature : num) (calorie_goal : num)
| ProfileRequired
| WaterLogged (amount logged : Z) (goal remaining : num)
| WaterUsage
| WorkoutUsage
| WorkoutLogged (workout_type : pystr) (duration burned additional_water : Z)
| BadDuration
| FoodUsage
| FoodPrompt (food_name : pystr) (calories : num)
| FoodNotFound
| FoodApiError
| FoodLogged (food_name : pystr) (total_calories : num) (grams : float)
| BadQuantity
| Progress (logged_water : Z) (water_goal remaining logged_calories
            calorie_goal : num) (burned : Z) (balance : num).

(** The whole mutable state: the global [users], the dispatcher's FSM
    storage, and the messages sent so far (chat, message). *)
Record bot := BotState {
  users : gmap Z user;
  storage : gmap (Z * Z) fsm_ctx;
  outbox : list (Z * reply);
}.

(** The FSM entry of a key; a key never written reads as idle and empty. *)
Definition ctx_of (b : bot) (k : Z * Z) : fsm_ctx :=
  default fresh_ctx (storage b !! k).

(** The FSM key of a message (aiogram's default: user within chat). *)
Definition key_of (msg : message) : Z * Z := (chat msg, from_user msg).

(** The phase a message finds its sender in. *)
Definition phase_of (b : bot) (msg : message) : option phase :=
  fsm_state (ctx_of b (key_of msg)).

Definition draft_of (b : bot) (msg : message) : fsm_data :=
  fsm_values (ctx_of b (key_of msg)).

(** *** What lies outside the source file

    The Python builtins [float], [int] and [str.lower], the two HTTP
    services and aiogram's [Command] filter.  [None] from a parser stands
    for [ValueError]. *)

Record weather_response := WeatherResponse {
  w_status : Z;
  w_main_temp : num;   (* data["main"]["temp"] *)
}.

Record product := Product {
  energy_kcal_100g : option num;   (* nutriments["energy-kcal_100g"], if any *)
}.

Record food_response := FoodResponse {
  f_status : Z;
  f_products : list product;       (* data.get("products", []) *)
}.

Class Externals := {
  py_float : pystr -> option float;
  py_int : pystr -> option Z;
  str_lower : pystr -> pystr;
  weather_http : pystr -> weather_response;
  food_http : pystr -> food_response;
  command_filter : pystr -> pystr -> bool;
}.

(** ** The handler monad: state plus exceptions

    A handler step takes the state and returns the new state with a value
    or a raised exception.  What was written before an exception stays
    written. *)

Definition M (A : Type) : Type := bot -> bot * res A.

Definition ret {A} (a : A) : M A := fun b => (b, Val a).

Definition bind {A B} (m : M A) (k : A -> M B) : M B :=
  fun b =>
    match m b with
    | (b', Val a) => k a b'
    | (b', Exc e) => (b', Exc e)
    end.

Definition raise {A} (e : exn) : M A := fun b => (b, Exc e).

Definition lift {A} (r : res A) : M A := fun b => (b, r).

(** [try: body except (caught...): handler]. *)
Definition try_except {A} (body : M A) (caught : list exn) (handler : M A) : M A :=
  fun b =>
    match body b with
    | (b', Val a) => (b', Val a)
    | (b', Exc e) => if bool_decide (e ∈ caught) then handler b' else (b', Exc e)
    end.

Declare Scope handler_scope.
Delimit Scope handler_scope with handler.
Notation "x <- m ;; k" := (bind m (fun x => k))
  (at level 100, m at next level, right associativity) : handler_scope.
Notation "m ;; k" := (bind m (fun _ => k))
  (at level 100, right associativity) : handler_scope.
Local Open Scope handler_scope.

(** [None] from a parser is [ValueError]; a missing key is [KeyError]. *)
Definition parsed {A} (o : option A) : M A :=
  match o with Some a => ret a | None => raise ValueError end.

Definition item {A} (o : option A) : M A :=
  match o with Some a => ret a | None => raise KeyError end.

(** [l[i]] on a list. *)
Definition index {A} (l : list A) (i : nat) : M A :=
  match l !! i with Some a => ret a | None => raise IndexError end.

(** [await message.answer(...)]. *)
Definition answer (msg : message) (r : reply) : M unit :=
  fun b => (BotState (users b) (storage b) (outbox b ++ [(chat msg, r)]), Val tt).

(** [FSMContext] operations on the message's key. *)
Definition put_ctx (msg : message) (c : fsm_ctx) : M unit :=
  fun b => (BotState (users b) (<[key_of msg := c]> (storage b)) (outbox b), Val tt).

Definition get_data (msg : message) : M fsm_data :=
  fun b => (b, Val (draft_of b msg)).

Definition update_data (msg : message) (f : fsm_data -> fsm_data) : M unit :=
  fun b =>
    let c := ctx_of b (key_of msg) in
    put_ctx msg (FsmCtx (fsm_state c) (f (fsm_values c))) b.

Definition set_state (msg : message) (p : phase) : M unit :=
  fun b =>
    let c := ctx_of b (key_of msg) in
    put_ctx msg (FsmCtx (Some p) (fsm_values c)) b.

(** [state.clear()]: no state and no data. *)
Definition clear (msg : message) : M unit := put_ctx msg fresh_ctx.

(** [users.get(uid)], [users[uid] = u], and access through the reference
    [user_data] that [users.get] returned: the dict is shared with
    [users], so an update is an update of [users]. *)
Definition users_get (uid : Z) : M (option user) :=
  fun b => (b, Val (users b !! uid)).

Definition users_set (uid : Z) (u : user) : M unit :=
  fun b => (BotState (<[uid := u]> (users b)) (storage b) (outbox b), Val tt).

(** Subscripting [None] is a [TypeError]. *)
Definition user_data_read (uid : Z) : M user :=
  fun b => (b, match users b !! uid with Some u => Val u | None => Exc TypeError end).

Definition user_data_write (uid : Z) (f : user -> user) : M unit :=
  u <- user_data_read uid ;; users_set uid (f u).

(** ** The handlers, in the order of the source *)

Section Handlers.
Context `{Externals}.

(** [get_weather]: the temperature on status 200, otherwise [None]. *)
Definition get_weather (city : pystr) : option num :=
  let response := weather_http city in
  if w_status response =? 200 then Some (w_main_temp response) else None.

Definition cmd_start (msg : message) : M unit := answer msg Greeting.

Definition cmd_help (msg : message) : M unit := answer msg HelpText.

Definition cmd_set_profile (msg : message) : M unit :=
  set_state msg ProfileState_weight ;;
  answer msg AskWeight.

Definition set_weight (msg : message) : M unit :=
  try_except
    (weight <- parsed (py_float (text msg)) ;;
     update_data msg (fun d => FsmData (Some weight) (d_height d) (d_age d)
                                 (d_activity d) (d_food_name d) (d_calories_per_100g d)) ;;
     set_state msg ProfileState_height ;;
     answer msg AskHeight)
    [ValueError]
    (answer msg BadWeight).

Definition set_height (msg : message) : M unit :=
  try_except
    (height <- parsed (py_float (text msg)) ;;
     update_data msg (fun d => FsmData (d_weight d) (Some height) (d_age d)
                                 (d_activity d) (d_food_name d) (d_calories_per_100g d)) ;;
     set_state msg ProfileState_age ;;
     answer msg AskAge)
    [ValueError]
    (answer msg BadHeight).

Definition set_age (msg : message) : M unit :=
  try_except
    (age <- parsed (py_int (text msg)) ;;
     update_data msg (fun d => FsmData (d_weight d) (d_height d) (Some age)
                                 (d_activity d) (d_food_name d) (d_calories_per_100g d)) ;;
     set_state msg ProfileState_activity ;;
     answer msg AskActivity)
    [ValueError]
    (answer msg BadAge).

Definition set_activity (msg : message) : M unit :=
  try_except
    (activity <- parsed (py_int (text msg)) ;;
     update_data msg (fun d => FsmData (d_weight d) (d_height d) (d_age d)
                                 (Some activity) (d_food_name d) (d_calories_per_100g d)) ;;
     set_state msg ProfileState_city ;;
     answer msg AskCity)
    [ValueError]
    (answer msg BadActivity).

(** [500 if temperature > 25 else 0]. *)
Definition extra_water (temperature : num) : num :=
  if py_gt temperature (PInt 25) then PInt 500 else PInt 0.

(** [round(data["weight"] * 30 + data["activity"] / 30 * 500 + extra_water, 3)],
    evaluated left to right. *)
Definition water_goal_expr (data : fsm_data) (extra : num) : M num :=
  w <- item (d_weight data) ;;
  t1 <- lift (py_mul (PFloat w) (PInt 30)) ;;
  a <- item (d_activity data) ;;
  q <- lift (py_truediv (PInt a) (PInt 30)) ;;
  t2 <- lift (py_mul q (PInt 500)) ;;
  s <- lift (py_add t1 t2) ;;
  s' <- lift (py_add s extra) ;;
  ret (py_round3 s').

(** [round(10 * data["weight"] + 6.25 * data["height"] - 5 * data["age"], 3)]. *)
Definition calorie_goal_expr (data : fsm_data) : M num :=
  w <- item (d_weight data) ;;
  t1 <- lift (py_mul (PInt 10) (PFloat w)) ;;
  h <- item (d_height data) ;;
  t2 <- lift (py_mul lit_6_25 (PFloat h)) ;;
  s <- lift (py_add t1 t2) ;;
  a <- item (d_age data) ;;
  t3 <- lift (py_mul (PInt 5) (PInt a)) ;;
  d <- lift (py_sub s t3) ;;
  ret (py_round3 d).

Definition set_city (msg : message) : M unit :=
  let city := text msg in
  data <- get_data msg ;;
  match get_weather city with
  | None => answer msg WeatherFailed
  | Some temperature =>
      let extra := extra_water temperature in
      water_goal <- water_goal_expr data extra ;;
      calorie_goal <- calorie_goal_expr data ;;
      w <- item (d_weight data) ;;
      h <- item (d_height data) ;;
      ag <- item (d_age data) ;;
      ac <- item (d_activity data) ;;
      users_set (from_user msg)
        (User w h ag ac city water_goal calorie_goal 0 (PInt 0) 0) ;;
      clear msg ;;
      answer msg (ProfileConfigured water_goal temperature calorie_goal)
  end.

Definition cmd_log_water (msg : message) : M unit :=
  let uid := from_user msg in
  user_data <- users_get uid ;;
  match user_data with
  | None => answer msg ProfileRequired
  | Some _ =>
      try_except
        (tok <- index (split (text msg)) 1 ;;
         amount <- parsed (py_int tok) ;;
         user_data_write uid (fun u => with_logged_water (logged_water u + amount) u) ;;
         u <- user_data_read uid ;;
         difference <- lift (py_sub (water_goal u) (PInt (logged_water u))) ;;
         let remaining := py_max0 difference in
         answer msg (WaterLogged amount (logged_water u) (water_goal u) remaining))
        [ValueError; IndexError]
        (answer msg WaterUsage)
  end.

(** The dict literal of [cmd_log_workout]: бег, плавание, йога, велосипед. *)
Definition key_beg : pystr := [1073; 1077; 1075]%N.
Definition key_plavanie : pystr := [1087; 1083; 1072; 1074; 1072; 1085; 1080; 1077]%N.
Definition key_yoga : pystr := [1081; 1086; 1075; 1072]%N.
Definition key_velosiped : pystr :=
  [1074; 1077; 1083; 1086; 1089; 1080; 1087; 1077; 1076]%N.

Definition calories_per_minute : list (pystr * Z) :=
  [(key_beg, 10); (key_plavanie, 8); (key_yoga, 4); (key_velosiped, 6)].

(** [d.get(k, dflt)] on a dict literal. *)
Fixpoint dict_get (d : list (pystr * Z)) (k : pystr) (dflt : Z) : Z :=
  match d with
  | [] => dflt
  | (k', v) :: d' => if bool_decide (k = k') then v else dict_get d' k dflt
  end.

Definition cmd_log_workout (msg : message) : M unit :=
  let uid := from_user msg in
  user_data <- users_get uid ;;
  match user_data with
  | None => answer msg ProfileRequired
  | Some _ =>
      let workout_data := tail_from_1 (split (text msg)) in
      if bool_decide (length workout_data < 2)%nat then answer msg WorkoutUsage
      else
        try_except
          (workout_type <- index workout_data 0 ;;
           tok <- index workout_data 1 ;;
           duration <- parsed (py_int tok) ;;
           let burned :=
             dict_get calories_per_minute (str_lower workout_type) 5 * duration in
           user_data_write uid
             (fun u => with_burned_calories (burned_calories u + burned) u) ;;
           let additional_water := py_floordiv_int duration 30 * 200 in
           user_data_write uid
             (fun u => with_logged_water (logged_water u + additional_water) u) ;;
           answer msg (WorkoutLogged workout_type duration burned additional_water))
          [ValueError]
          (answer msg BadDuration)
  end.

Definition cmd_log_food (msg : message) : M unit :=
  let uid := from_user msg in
  user_data <- users_get uid ;;
  match user_data with
  | None => answer msg ProfileRequired
  | Some _ =>
      let food_name := join_space (tail_from_1 (split (text msg))) in
      match food_name with
      | [] => answer msg FoodUsage
      | _ =>
          let response := food_http food_name in
          if f_status response =? 200 then
            match f_products response with
            | first_product :: _ =>
                let calories := default (PInt 0) (energy_kcal_100g first_product) in
                update_data msg (fun d => FsmData (d_weight d) (d_height d) (d_age d)
                                            (d_activity d) (Some food_name) (Some calories)) ;;
                answer msg (FoodPrompt food_name calories) ;;
                set_state msg FoodLoggingState_waiting_for_quantity
            | [] => answer msg FoodNotFound
            end
          else answer msg FoodApiError
      end
  end.

Definition process_food_quantity (msg : message) : M unit :=
  try_except
    (grams <- parsed (py_float (text msg)) ;;
     data <- get_data msg ;;
     food_name <- item (d_food_name data) ;;
     calories_per_100g <- item (d_calories_per_100g data) ;;
     per_gram <- lift (py_truediv calories_per_100g (PInt 100)) ;;
     total_calories <- lift (py_mul per_gram (PFloat grams)) ;;
     u <- user_data_read (from_user msg) ;;
     sum <- lift (py_add (logged_calories u) total_calories) ;;
     users_set (from_user msg) (with_logged_calories sum u) ;;
     answer msg (FoodLogged food_name total_calories grams) ;;
     clear msg)
    [ValueError]
    (answer msg BadQuantity).

Definition cmd_check_progress (msg : message) : M unit :=
  user_data <- users_get (from_user msg) ;;
  match user_data with
  | None => answer msg ProfileRequired
  | Some u =>
      difference <- lift (py_sub (water_goal u) (PInt (logged_water u))) ;;
      balance <- lift (py_sub (logged_calories u) (PInt (burned_calories u))) ;;
      answer msg (Progress (logged_water u) (water_goal u) (py_max0 difference)
                    (logged_calories u) (calorie_goal u) (burned_calories u) balance)
  end.

(** ** The dispatcher

    Handlers are tried in the order they were registered; the first one
    whose filter accepts the message handles it and no other runs.  A
    [Command] filter looks at the text only, whatever the FSM state; a
    state filter accepts when the sender's FSM state is that state. *)

Inductive filter :=
| OnCommand (name : string)
| OnState (p : phase).

Definition accepts (f : filter) (msg : message) (b : bot) : bool :=
  match f with
  | OnCommand name => command_filter (lit name) (text msg)
  | OnState p => bool_decide (phase_of b msg = Some p)
  end.

Definition registered : list (filter * (message -> M unit)) :=
  [ (OnCommand "start", cmd_start);
    (OnCommand "help", cmd_help);
    (OnCommand "set_profile", cmd_set_profile);
    (OnState ProfileState_weight, set_weight);
    (OnState ProfileState_height, set_height);
    (OnState ProfileState_age, set_age);
    (OnState ProfileState_activity, set_activity);
    (OnState ProfileState_city, set_city);
    (OnCommand "log_water", cmd_log_water);
    (OnCommand "log_workout", cmd_log_workout);
    (OnCommand "log_food", cmd_log_food);
    (OnState FoodLoggingState_waiting_for_quantity, process_food_quantity);
    (OnCommand "check_progress", cmd_check_progress) ].

Fixpoint first_match (hs : list (filter * (message -> M unit)))
    (msg : message) (b : bot) : option (message -> M unit) :=
  match hs with
  | [] => None
  | (f, h) :: hs' => if accepts f msg b then Some h else first_match hs' msg b
  end.

(** One incoming message: an unhandled message changes nothing. *)
Definition feed (msg : message) : M unit :=
  fun b =>
    match first_match registered msg b with
    | Some h => h msg b
    | None => (b, Val tt)
    end.

End Handlers.

(** The handler that owns a phase. *)
Definition phase_handler `{Externals} (p : phase) : message -> M unit :=
  match p with
  | ProfileState_weight => set_weight
  | ProfileState_height => set_height
  | ProfileState_age => set_age
  | ProfileState_activity => set_activity
  | ProfileState_city => set_city
  | FoodLoggingState_waiting_for_quantity => process_food_quantity
  end.

(** The three commands registered before the state handlers. *)
Definition early_command `{Externals} (s : pystr) : bool :=
  command_filter (lit "start") s || command_filter (lit "help") s
  || command_filter (lit "set_profile") s.

(** Text that none of the seven commands' filters accepts. *)
Definition any_command `{Externals} (s : pystr) : bool :=
  early_command s || command_filter (lit "log_water") s
  || command_filter (lit "log_workout") s || command_filter (lit "log_food") s
  || command_filter (lit "check_progress") s.

(** Messages processed one after the other; an exception that escapes a
    handler ends that message only. *)
Fixpoint feed_all `{Externals} (msgs : list message) (b : bot) : bot :=
  match msgs with
  | [] => b
  | msg :: rest => feed_all rest (feed msg b).1
  end.

End Bot.
Export Bot.

(** ** The ledger and the operations that write to it *)

Module Ledger.
Import Float.

(** The operations of the ledger: the three logging commands, the answer
    to the quantity question of the food dialog, and the progress check. *)
Inductive ledger_op :=
| LogWater (msg : message)
| LogWorkout (msg : message)
| LogFoodStart (msg : message)
| LogFoodQuantity (msg : message)
| CheckProgress (msg : message).

Definition run_op `{Externals} (o : ledger_op) : M unit :=
  match o with
  | LogWater msg => cmd_log_water msg
  | LogWorkout msg => cmd_log_workout msg
  | LogFoodStart msg => cmd_log_food msg
  | LogFoodQuantity msg => process_food_quantity msg
  | CheckProgress msg => cmd_check_progress msg
  end.

Fixpoint run_ops `{Externals} (os : list ledger_op) (b : bot) : bot :=
  match os with
  | [] => b
  | o :: rest => run_ops rest (run_op o b).1
  end.

(** A kcal density or a number of grams that is finite and not negative. *)
Definition density_ok (c : num) : bool :=
  num_wf c && num_nonneg c && num_finite c.

Definition grams_ok (g : float) : bool :=
  wf g && nonneg g && is_finite g.

(** The amount an operation carries, when it has one, is not negative:
    millilitres for water, minutes for a workout, grams for a quantity,
    and for the start of a food dialog the density the food service
    answers with. *)
Definition amount_ok `{Externals} (o : ledger_op) : bool :=
  match o with
  | LogWater msg =>
      match split (text msg) !! 1%nat with
      | Some tok => match py_int tok with Some a => 0 <=? a | None => true end
      | None => true
      end
  | LogWorkout msg =>
      match tail_from_1 (split (text msg)) !! 1%nat with
      | Some tok => match py_int tok with Some d => 0 <=? d | None => true end
      | None => true
      end
  | LogFoodStart msg =>
      match f_products (food_http (join_space (tail_from_1 (split (text msg))))) with
      | first_product :: _ => density_ok (default (PInt 0) (energy_kcal_100g first_product))
      | [] => true
      end
  | LogFoodQuantity msg =>
      match py_float (text msg) with
      | Some g => grams_ok g
      | None => true
      end
  | CheckProgress _ => true
  end.

(** The logged calories are the [int] 0 of a fresh profile or a float
    that is not negative. *)
Definition calories_ok (v : num) : bool :=
  match v with
  | PInt z => z =? 0
  | PFloat x => wf x && nonneg x
  end.

(** The logged calories are the [int] 0 of a fresh profile or a float
    other than NaN. *)
Definition calories_defined (v : num) : bool :=
  match v with
  | PInt z => z =? 0
  | PFloat x => negb (is_nan x)
  end.

(** A kcal density that divides by 100 without overflow: any float, or
    an [int] below [2^1023] in absolute value. *)
Definition density_fits (c : num) : bool :=
  match c with
  | PInt z => Z.abs z <? 2 ^ 1023
  | PFloat _ => true
  end.

(** The logged calories as the code stores them: the [int] 0 that
    [set_city] writes, or the float a food log left. *)
Definition calories_stored (v : num) : bool :=
  match v with
  | PInt z => z =? 0
  | PFloat _ => true
  end.

Definition ledger_ok (u : user) : bool :=
  (0 <=? logged_water u) && (0 <=? burned_calories u) && calories_ok (logged_calories u).

Definition ledgers_ok (b : bot) : Prop :=
  forall uid u, users b !! uid = Some u -> ledger_ok u = true.

(** Every food draft in the FSM storage holds an acceptable density. *)
Definition drafts_ok (b : bot) : Prop :=
  forall k c, d_calories_per_100g (fsm_values (ctx_of b k)) = Some c -> density_ok c = true.

(** No ledger quantity of [u'] is below that of [u]. *)
Definition ledger_le (u u' : user) : Prop :=
  logged_water u <= logged_water u' /\
  burned_calories u <= burned_calories u' /\
  py_le (logged_calories u) (logged_calories u') = true.

(** From [b] to [b'] the dictionary is left alone or one entry is
    replaced by one whose ledger is sound and no smaller. *)
Definition grows (b b' : bot) : Prop :=
  users b' = users b \/
  exists uid u u',
    users b !! uid = Some u /\
    users b' = <[uid := u']> (users b) /\
    (ledger_ok u = true -> ledger_ok u' = true /\ ledger_le u u').

(** The reply a handler adds to the outbox. *)
Definition replied (b : bot) (msg : message) (r : reply) : bot :=
  BotState (users b) (storage b) (outbox b ++ [(chat msg, r)]).

End Ledger.
Export Ledger.

(** ** What one message may touch, and what a dialog holds *)

Module Dialog.

(** The profile part of two dictionary entries is the same. *)
Definition same_profile (u u' : user) : Prop :=
  weight u' = weight u /\ height u' = height u /\ age u' = age u /\
  activity u' = activity u /\ city u' = city u /\
  water_goal u' = water_goal u /\ calorie_goal u' = calorie_goal u.

Definition fresh_ledger (u : user) : Prop :=
  logged_water u = 0 /\ logged_calories u = PInt 0 /\ burned_calories u = 0.

(** [users] is left alone, or the sender's existing entry is replaced by
    one with the same profile. *)
Definition ledger_effect (msg : message) (b b' : bot) : Prop :=
  users b' = users b \/
  exists u u',
    users b !! from_user msg = Some u /\
    users b' = <[from_user msg := u']> (users b) /\
    same_profile u u'.

(** The sender's entry is written anew with an empty ledger and the
    sender's FSM entry is cleared. *)
Definition commit_effect (msg : message) (b b' : bot) : Prop :=
  exists u',
    users b' = <[from_user msg := u']> (users b) /\
    fresh_ledger u' /\ city u' = text msg /\
    storage b' = <[key_of msg := fresh_ctx]> (storage b).

(** The FSM storage is left alone or the sender's entry is written. *)
Definition storage_effect (msg : message) (b b' : bot) : Prop :=
  storage b' = storage b \/
  exists c, storage b' = <[key_of msg := c]> (storage b).

(** A handler that returns has sent exactly one message, to the chat the
    message came from; a handler that raises has sent none. *)
Definition outbox_effect (msg : message) (b : bot) (out : bot * res unit) : Prop :=
  match out.2 with
  | Val _ => exists r, outbox out.1 = outbox b ++ [(chat msg, r)]
  | Exc _ => outbox out.1 = outbox b
  end.

(** What a handler other than [set_city] may do. *)
Definition plain_footprint (msg : message) (b : bot) (out : bot * res unit) : Prop :=
  ledger_effect msg b out.1 /\ storage_effect msg b out.1 /\ outbox_effect msg b out.

(** What an FSM entry must hold for its state: the answers of the
    earlier steps of the profile dialog, or the food draft together with
    a profile of that user. *)
Definition ctx_ok (us : gmap Z user) (k : Z * Z) (c : fsm_ctx) : Prop :=
  let d := fsm_values c in
  match fsm_state c with
  | None | Some ProfileState_weight => True
  | Some ProfileState_height => is_Some (d_weight d)
  | Some ProfileState_age => is_Some (d_weight d) /\ is_Some (d_height d)
  | Some ProfileState_activity =>
      is_Some (d_weight d) /\ is_Some (d_height d) /\ is_Some (d_age d)
  | Some ProfileState_city =>
      is_Some (d_weight d) /\ is_Some (d_height d) /\ is_Some (d_age d) /\
      is_Some (d_activity d)
  | Some FoodLoggingState_waiting_for_quantity =>
      is_Some (d_food_name d) /\ is_Some (d_calories_per_100g d) /\
      is_Some (us !! k.2)
  end.

Definition dialog_inv (b : bot) : Prop :=
  forall k, ctx_ok (users b) k (ctx_of b k).

(** The only exception a result may carry is [OverflowError]. *)
Definition only_overflow (r : res unit) : Prop :=
  match r with
  | Val _ => True
  | Exc e => e = OverflowError
  end.

(** A result is safe: the dialog invariant holds after it and nothing
    but [OverflowError] escapes. *)
Definition safe (out : bot * res unit) : Prop :=
  dialog_inv out.1 /\ only_overflow out.2.

(** The state reached from an empty bot by a sequence of messages. *)
Definition reached `{Externals} (msgs : list message) : bot :=
  feed_all msgs (BotState ∅ ∅ []).

(** The remaining amount of water a reply displays: the answer to
    /log_water and the progress report show one, no other reply does. *)
Definition remaining_of (r : reply) : option num :=
  match r with
  | WaterLogged _ _ _ remaining => Some remaining
  | Progress _ _ remaining _ _ _ _ => Some remaining
  | _ => None
  end.

(** A handler whose reply, when it shows a remaining amount, shows one
    that is not below zero. *)
Definition shows_nonneg (h : message -> M unit) : Prop :=
  forall msg b c r remaining,
    outbox (h msg b).1 = outbox b ++ [(c, r)] ->
    remaining_of r = Some remaining ->
    py_ge remaining (PInt 0) = true.

(** A token of [str.split()]: not empty and free of whitespace. *)
Definition token (t : pystr) : Prop :=
  t <> [] /\ Forall (fun c => isspace c = false) t.

End Dialog.
Export Dialog.

(** ** The formulas of the specification

    Written from the specification's words, to be compared with what
    [set_city] stores and what [cmd_log_workout] adds. *)

Module Spec.
Import Float.

(** waterGoalMl = weightKg * 30 + (activityMinutes / 30) * 500
    + (temperatureC > 25 ? 500 : 0), rounded to 3 decimal places. *)
Definition waterGoalMl (weightKg : float) (activityMinutes : Z) (temperatureC : num)
  : res num :=
  res_bind (py_mul (PFloat weightKg) (PInt 30)) (fun base =>
  res_bind (py_truediv (PInt activityMinutes) (PInt 30)) (fun halfHours =>
  res_bind (py_mul halfHours (PInt 500)) (fun forActivity =>
  res_bind (py_add base forActivity) (fun subtotal =>
  res_bind (py_add subtotal (if py_gt temperatureC (PInt 25) then PInt 500 else PInt 0))
    (fun total => Val (py_round3 total)))))).

(** calorieGoalKcal = 10*weightKg + 6.25*heightCm - 5*ageYears, rounded to
    3 decimal places. *)
Definition calorieGoalKcal (weightKg heightCm : float) (ageYears : Z) : res num :=
  res_bind (py_mul (PInt 10) (PFloat weightKg)) (fun a =>
  res_bind (py_mul lit_6_25 (PFloat heightCm)) (fun b =>
  res_bind (py_add a b) (fun ab =>
  res_bind (py_mul (PInt 5) (PInt ageYears)) (fun c =>
  res_bind (py_sub ab c) (fun total => Val (py_round3 total)))))).

(** totalKcal = caloriesPer100g / 100 * grams. *)
Definition totalKcal (caloriesPer100g : num) (grams : float) : res num :=
  res_bind (py_truediv caloriesPer100g (PInt 100)) (fun perGram =>
  py_mul perGram (PFloat grams)).

(** caloriesPerMinute(type, default = 5) with the table of the source:
    бег 10, плавание 8, йога 4, велосипед 6. *)
Definition caloriesPerMinute (type : pystr) : Z :=
  if bool_decide (type = key_beg) then 10
  else if bool_decide (type = key_plavanie) then 8
  else if bool_decide (type = key_yoga) then 4
  else if bool_decide (type = key_velosiped) then 6
  else 5.

End Spec.

(** ** A concrete environment

    Stand-ins for the builtins and services, used to run the handlers on
    concrete messages.  The parsers read plain ASCII decimal literals (an
    optional sign, digits, for [float] an optional fraction, and [inf] /
    [nan]), on which they return what Python returns; [str.lower] covers
    Basic Latin and the Cyrillic block; the [Command] filter compares the
    first word of the text with ["/" + name]. *)

Module Sample.
Import Float.

Definition digit (c : codepoint) : option Z :=
  if ((48 <=? c) && (c <=? 57))%N then Some (Z.of_N c - 48) else None.

Fixpoint digits (acc : Z) (s : pystr) : option Z :=
  match s with
  | [] => Some acc
  | c :: s' =>
      match digit c with
      | Some d => digits (10 * acc + d) s'
      | None => None
      end
  end.

Definition natural (s : pystr) : option Z :=
  match s with [] => None | _ => digits 0 s end.

Definition sign_and_rest (s : pystr) : bool * pystr :=
  match s with
  | 45%N :: r => (true, r)
  | 43%N :: r => (false, r)
  | _ => (false, s)
  end.

Definition int_literal (s : pystr) : option Z :=
  let '(negative, r) := sign_and_rest s in
  match natural r with
  | Some n => Some (if negative then - n else n)
  | None => None
  end.

(** The part before the first ['.'] and the part after it, if any. *)
Fixpoint cut_at_dot (s : pystr) : pystr * option pystr :=
  match s with
  | [] => ([], None)
  | c :: s' =>
      if (c =? 46)%N then ([], Some s')
      else let '(a, b) := cut_at_dot s' in (c :: a, b)
  end.

Definition float_literal (s : pystr) : option float :=
  let '(negative, r) := sign_and_rest s in
  if bool_decide (r = lit "inf") then Some (Inf negative)
  else if bool_decide (r = lit "nan") then Some NaN
  else
    let '(whole, fraction) := cut_at_dot r in
    match natural whole, fraction with
    | Some w, None => Some (if w =? 0 then Zero negative
                            else of_ratio (if negative then - w else w) 1)
    | Some w, Some fr =>
        match natural fr with
        | Some f =>
            let den := 10 ^ Z.of_nat (length fr) in
            let n := w * den + f in
            Some (if n =? 0 then Zero negative
                  else of_ratio (if negative then - n else n) den)
        | None => None
        end
    | None, _ => None
    end.

Definition lower_char (c : codepoint) : codepoint :=
  (if (65 <=? c) && (c <=? 90) then c + 32
   else if (1040 <=? c) && (c <=? 1071) then c + 32
   else if (1024 <=? c) && (c <=? 1039) then c + 80
   else c)%N.

Definition lower (s : pystr) : pystr := List.map lower_char s.

(** A weather service that knows two cities. *)
Definition weather (city : pystr) : weather_response :=
  if bool_decide (city = lit "Cairo") then WeatherResponse 200 (PInt 30)
  else if bool_decide (city = lit "Oslo") then WeatherResponse 200 (PFloat (of_ratio 105 10))
  else WeatherResponse 404 (PInt 0).

(** A food service: [apple] has 52 kcal per 100 g, the first match for
    [water] carries no energy value, [stone] has no match, [plasma] is
    listed with an absurd energy value, and anything else fails. *)
Definition food (name : pystr) : food_response :=
  if bool_decide (name = lit "apple") then FoodResponse 200 [Product (Some (PInt 52))]
  else if bool_decide (name = lit "water") then FoodResponse 200 [Product None]
  else if bool_decide (name = lit "stone") then FoodResponse 200 []
  else if bool_decide (name = lit "plasma") then FoodResponse 200 [Product (Some (PInt (10 ^ 400)))]
  else FoodResponse 500 [].

Definition is_command (name text : pystr) : bool :=
  match split text with
  | first :: _ => bool_decide (first = 47%N :: name)
  | [] => false
  end.

#[export] Instance env : Externals := {|
  py_float := float_literal;
  py_int := int_literal;
  str_lower := lower;
  weather_http := weather;
  food_http := food;
  command_filter := is_command;
|}.

(** A user in a private chat: the chat id is the user id. *)
Definition says (uid : Z) (s : string) : message := Message uid uid (lit s).
Definition says_text (uid : Z) (s : pystr) : message := Message uid uid s.

Definition nobody : bot := BotState ∅ ∅ [].

(** The floats 70.0, 175.0, 150.0, 78.0, 2500.0. *)
Definition f70 : float := of_Z 70.
Definition f175 : float := of_Z 175.
Definition f150 : float := of_Z 150.
Definition f78 : float := of_Z 78.

(** The decimal digits of [10^400]. *)
Definition googol_digits : pystr := 49%N :: repeat 48%N 400.

(** User 1 after a complete profile dialog in Cairo (30 degrees). *)
Definition profile_dialog : list message :=
  [says 1 "/set_profile"; says 1 "70"; says 1 "175"; says 1 "25"; says 1 "60";
   says 1 "Cairo"].

Definition after_profile : bot := Eval vm_compute in feed_all profile_dialog nobody.

(** The same dialog just before the city is entered. *)
Definition before_city : bot :=
  Eval vm_compute in feed_all (take 5 profile_dialog) nobody.

(** The same dialog with the age [10^400], before the city is entered. *)
Definition before_city_huge_age : bot :=
  Eval vm_compute in
    feed_all [says 1 "/set_profile"; says 1 "70"; says 1 "175";
              says_text 1 googol_digits; says 1 "60"] nobody.

(** User 1 right after [/set_profile], and after the weight was given. *)
Definition awaiting_weight : bot :=
  Eval vm_compute in feed_all [says 1 "/set_profile"] nobody.

Definition awaiting_height : bot :=
  Eval vm_compute in feed_all [says 1 "/set_profile"; says 1 "70"] nobody.

(** A profile with a 2500 ml water goal, as a dictionary entry. *)
Definition user_2500 : user :=
  User f70 f175 25 0 (lit "Oslo") (PFloat (of_Z 2500)) (PFloat (of_Z 1668)) 0 (PInt 0) 0.

Definition with_user_2500 : bot := BotState {[ 1 := user_2500 ]} ∅ [].

(** That user after asking to log apple, water (no energy value) and
    plasma (absurd energy value). *)
Definition asked_apple : bot :=
  Eval vm_compute in feed_all [says 1 "/log_food apple"] with_user_2500.

Definition asked_water : bot :=
  Eval vm_compute in feed_all [says 1 "/log_food water"] with_user_2500.

Definition asked_plasma : bot :=
  Eval vm_compute in feed_all [says 1 "/log_food plasma"] with_user_2500.

(** A day of that user: water, a run, an apple, a look at the progress. *)
Definition day : list ledger_op :=
  [LogWater (says 1 "/log_water 500");
   LogWorkout (says_text 1 (lit "/log_workout " ++ key_beg ++ lit " 45"));
   LogFoodStart (says 1 "/log_food apple");
   LogFoodQuantity (says 1 "150");
   CheckProgress (says 1 "/check_progress")].

End Sample.

(** * Properties *)

(** ** Rounding

    The rounding of the float model is monotone around representable
    numbers and lands on representable numbers; this is what lets sums of
    non-negative floats be compared with their summands. *)

Module FloatFacts.
Import Float.

Lemma bitlen_nonneg z : 0 <= bitlen z.
Proof. unfold bitlen. destruct (z =? 0); [lia|]. pose proof (Z.log2_nonneg z). lia. Qed.

Lemma bitlen_bounds z : 0 < z -> 2 ^ (bitlen z - 1) <= z < 2 ^ bitlen z.
Proof.
  intros Hz. unfold bitlen. destruct (Z.eqb_spec z 0); [lia|].
  replace (Z.log2 z + 1 - 1) with (Z.log2 z) by lia.
  replace (Z.log2 z + 1) with (Z.succ (Z.log2 z)) by lia.
  apply Z.log2_spec; lia.
Qed.

Lemma bitlen_pos z : 0 < z -> 1 <= bitlen z.
Proof.
  intros Hz. unfold bitlen. destruct (Z.eqb_spec z 0); [lia|].
  pose proof (Z.log2_nonneg z). lia.
Qed.

Lemma bitlen_le_of_lt_pow z k : 0 <= k -> 0 <= z < 2 ^ k -> bitlen z <= k.
Proof.
  intros Hk [Hz Hlt]. destruct (Z.eq_dec z 0) as [->|Hne].
  - unfold bitlen; simpl; lia.
  - destruct (bitlen_bounds z) as [Hlo _]; [lia|].
    destruct (Z.le_gt_cases (bitlen z) k) as [|Hgt]; [lia|].
    assert (2 ^ k <= 2 ^ (bitlen z - 1)) by (apply Z.pow_le_mono_r; lia). lia.
Qed.

Lemma bitlen_gt_of_ge_pow z k : 0 <= k -> 2 ^ k <= z -> k < bitlen z.
Proof.
  intros Hk Hle. assert (0 < z) by (pose proof (Z.pow_pos_nonneg 2 k); lia).
  destruct (bitlen_bounds z) as [_ Hhi]; [lia|].
  destruct (Z.lt_ge_cases k (bitlen z)) as [|Hge]; [lia|].
  assert (2 ^ bitlen z <= 2 ^ k) by (apply Z.pow_le_mono_r; lia). lia.
Qed.

Lemma bitlen_mono a b : 0 <= a <= b -> bitlen a <= bitlen b.
Proof.
  intros [Ha Hab]. destruct (Z.eq_dec a 0) as [->|Hne].
  - unfold bitlen at 1; simpl. apply bitlen_nonneg.
  - destruct (bitlen_bounds b) as [_ Hhi]; [lia|].
    apply bitlen_le_of_lt_pow; [apply bitlen_nonneg | lia].
Qed.

Lemma round_half_even_lower p q k : 0 < q -> k * q <= p -> k <= round_half_even p q.
Proof.
  intros Hq Hk. assert (k <= p / q) by (apply Z.div_le_lower_bound; lia).
  unfold round_half_even; cbv zeta. destruct (2 * (p mod q) ?= q); [destruct (Z.even (p / q))| |]; lia.
Qed.

Lemma round_half_even_upper p q k : 0 < q -> p <= k * q -> round_half_even p q <= k.
Proof.
  intros Hq Hk. unfold round_half_even; cbv zeta.
  destruct (Z.eq_dec p (k * q)) as [->|Hne].
  - rewrite Z.mod_mul, Z.div_mul by lia. rewrite Z.mul_0_r.
    destruct (Z.compare_spec 0 q); lia.
  - assert (p / q < k) by (apply Z.div_lt_upper_bound; lia).
    destruct (2 * (p mod q) ?= q); [destruct (Z.even (p / q))| |]; lia.
Qed.

Lemma round_half_even_nonneg p q : 0 < q -> 0 <= p -> 0 <= round_half_even p q.
Proof. intros. apply round_half_even_lower; lia. Qed.


(** A representable [x] below the exact value stays below the rounded one. *)
Lemma round_nearest_lower p q x :
  0 < q -> 0 <= x -> x mod 2 ^ shift_of x = 0 -> x * q <= p ->
  x <= round_nearest p q.
Proof.
  intros Hq Hx Hrep Hle.
  assert (Hxf : x <= p / q) by (apply Z.div_le_lower_bound; lia).
  unfold round_nearest, round_shift, shift_of. set (f := p / q) in *.
  set (s := Z.max 0 (bitlen f - prec)).
  assert (Hs : 0 <= s) by lia.
  assert (Hpow : 0 < 2 ^ s) by (apply Z.pow_pos_nonneg; lia).
  assert (Hbl : bitlen x <= bitlen f) by (apply bitlen_mono; lia).
  destruct (Z.eq_dec (bitlen x) (bitlen f)) as [Heq|Hne].
  - (* same binade *)
    unfold shift_of in Hrep. rewrite Heq in Hrep. fold s in Hrep.
    apply Z.mod_divide in Hrep; [|lia]. destruct Hrep as [kx ->].
    apply Z.mul_le_mono_nonneg_r; [lia|].
    apply round_half_even_lower; [nia|]. nia.
  - (* x lies in a lower binade *)
    assert (Hfpos : 0 < f).
    { destruct (Z.eq_dec f 0) as [Hf0|]; [|lia]. assert (x = 0) by lia. subst x. rewrite Hf0 in Hne. lia. }
    destruct (bitlen_bounds f Hfpos) as [Hflo _].
    assert (Hxlt : x < 2 ^ (bitlen f - 1)).
    { destruct (Z.eq_dec x 0) as [->|Hx0]; [apply Z.pow_pos_nonneg; [lia|]; pose proof (bitlen_pos f Hfpos); lia|].
      destruct (bitlen_bounds x) as [_ Hxhi]; [lia|].
      assert (2 ^ bitlen x <= 2 ^ (bitlen f - 1)) by (apply Z.pow_le_mono_r; [lia|lia]). lia. }
    assert (Hds : s <= bitlen f - 1).
    { unfold s, prec. pose proof (bitlen_pos f Hfpos). lia. }
    assert (Hsplit : 2 ^ (bitlen f - 1) = 2 ^ (bitlen f - 1 - s) * 2 ^ s).
    { rewrite <- Z.pow_add_r by lia. f_equal. lia. }
    assert (Hk : 2 ^ (bitlen f - 1 - s) <= round_half_even p (q * 2 ^ s)).
    { apply round_half_even_lower; [nia|].
      assert (f * q <= p) by (unfold f; rewrite Z.mul_comm; apply Z.mul_div_le; lia).
      nia. }
    nia.
Qed.

Lemma round_nearest_upper p q x :
  0 < q -> 0 <= p -> 0 <= x -> x mod 2 ^ shift_of x = 0 -> p <= x * q ->
  round_nearest p q <= x.
Proof.
  intros Hq Hp Hx Hrep Hle.
  assert (Hf0 : 0 <= p / q) by (apply Z.div_pos; lia).
  assert (Hxf : p / q <= x) by (apply Z.div_le_upper_bound; lia).
  unfold round_nearest, round_shift, shift_of. set (f := p / q) in *.
  set (s := Z.max 0 (bitlen f - prec)).
  assert (Hs : 0 <= s) by lia.
  assert (Hpow : 0 < 2 ^ s) by (apply Z.pow_pos_nonneg; lia).
  assert (Hbl : bitlen f <= bitlen x) by (apply bitlen_mono; lia).
  destruct (Z.eq_dec (bitlen x) (bitlen f)) as [Heq|Hne].
  - unfold shift_of in Hrep. rewrite Heq in Hrep. fold s in Hrep.
    apply Z.mod_divide in Hrep; [|lia]. destruct Hrep as [kx ->].
    apply Z.mul_le_mono_nonneg_r; [lia|].
    apply round_half_even_upper; [nia|]. nia.
  - assert (Hxpos : 0 < x).
    { destruct (Z.eq_dec x 0) as [Hx0|]; [|lia]. assert (f = 0) by lia. rewrite Hx0 in Hne. replace f with 0 in Hne. lia. }
    destruct (bitlen_bounds x Hxpos) as [Hxlo _].
    assert (Hds : s <= bitlen f).
    { unfold s, prec. pose proof (bitlen_nonneg f). lia. }
    assert (Hflt : f < 2 ^ bitlen f).
    { destruct (Z.eq_dec f 0) as [Hf|Hf]; [rewrite Hf; unfold bitlen; simpl; lia|].
      apply bitlen_bounds; lia. }
    assert (Hsplit : 2 ^ bitlen f = 2 ^ (bitlen f - s) * 2 ^ s).
    { rewrite <- Z.pow_add_r by lia. f_equal. lia. }
    assert (2 ^ bitlen f <= 2 ^ (bitlen x - 1)) by (apply Z.pow_le_mono_r; lia).
    assert (Hk : round_half_even p (q * 2 ^ s) <= 2 ^ (bitlen f - s)).
    { apply round_half_even_upper; [nia|].
      assert (p < (f + 1) * q).
      { unfold f. pose proof (Z.mod_pos_bound p q Hq). pose proof (Z.div_mod p q). nia. }
      assert (f + 1 <= 2 ^ (bitlen f - s) * 2 ^ s) by lia.
      nia. }
    nia.
Qed.

Lemma bitlen_pow2 n : 0 <= n -> bitlen (2 ^ n) = n + 1.
Proof.
  intros Hn. unfold bitlen. pose proof (Z.pow_pos_nonneg 2 n).
  destruct (Z.eqb_spec (2 ^ n) 0); [lia|]. rewrite Z.log2_pow2; lia.
Qed.

Lemma scaled_representable k s :
  0 <= s -> 0 <= k <= 2 ^ prec -> (k * 2 ^ s) mod 2 ^ shift_of (k * 2 ^ s) = 0.
Proof.
  intros Hs [Hk0 Hk]. unfold prec in *.
  assert (Hpow : 0 < 2 ^ s) by (apply Z.pow_pos_nonneg; lia).
  destruct (Z.eq_dec k (2 ^ 53)) as [->|Hne].
  - rewrite <- Z.pow_add_r by lia. unfold shift_of, prec.
    rewrite bitlen_pow2 by lia.
    replace (Z.max 0 (53 + s + 1 - 53)) with (s + 1) by lia.
    replace (53 + s) with (52 + (s + 1)) by lia.
    rewrite Z.pow_add_r by lia. apply Z.mod_mul.
    pose proof (Z.pow_pos_nonneg 2 (s + 1)). lia.
  - assert (Hlt : k * 2 ^ s < 2 ^ (53 + s)) by (rewrite Z.pow_add_r by lia; nia).
    assert (Hbl : bitlen (k * 2 ^ s) <= 53 + s) by (apply bitlen_le_of_lt_pow; nia).
    unfold shift_of, prec. set (sh := Z.max 0 (bitlen (k * 2 ^ s) - 53)).
    assert (0 <= sh <= s) by lia.
    replace s with ((s - sh) + sh) at 1 by lia.
    rewrite Z.pow_add_r by lia. rewrite Z.mul_assoc. apply Z.mod_mul.
    pose proof (Z.pow_pos_nonneg 2 sh). lia.
Qed.

Lemma round_nearest_nonneg p q : 0 < q -> 0 <= p -> 0 <= round_nearest p q.
Proof.
  intros Hq Hp. unfold round_nearest.
  assert (0 <= round_shift p q) by (unfold round_shift, shift_of; lia).
  assert (0 < 2 ^ round_shift p q) by (apply Z.pow_pos_nonneg; lia).
  assert (0 <= round_half_even p (q * 2 ^ round_shift p q)) by (apply round_half_even_nonneg; nia).
  nia.
Qed.

Lemma round_nearest_representable p q :
  0 < q -> 0 <= p ->
  round_nearest p q mod 2 ^ shift_of (round_nearest p q) = 0.
Proof.
  intros Hq Hp. unfold round_nearest, round_shift.
  assert (Hf0 : 0 <= p / q) by (apply Z.div_pos; lia).
  set (f := p / q) in *. set (s := shift_of f).
  assert (Hs : 0 <= s) by (unfold s, shift_of; lia).
  assert (Hpow : 0 < 2 ^ s) by (apply Z.pow_pos_nonneg; lia).
  apply scaled_representable; [lia|]. split.
  - apply round_half_even_nonneg; nia.
  - apply round_half_even_upper; [nia|].
    assert (Hp' : p < (f + 1) * q).
    { unfold f. pose proof (Z.mod_pos_bound p q Hq). pose proof (Z.div_mod p q). nia. }
    assert (Hflt : f < 2 ^ (prec + s)).
    { destruct (Z.eq_dec f 0) as [->|Hne]; [apply Z.pow_pos_nonneg; unfold prec; lia|].
      destruct (bitlen_bounds f) as [_ Hhi]; [lia|].
      assert (2 ^ bitlen f <= 2 ^ (prec + s)) by (apply Z.pow_le_mono_r; [lia | unfold s, shift_of; lia]).
      lia. }
    rewrite Z.pow_add_r in Hflt by (unfold prec; lia). nia.
Qed.

Lemma wf_of_units s n : n mod 2 ^ shift_of n = 0 -> wf (of_units s n) = true.
Proof.
  intros Hrep. unfold of_units.
  destruct (Z.leb_spec n 0); [reflexivity|].
  destruct (Z.leb_spec huge n); [reflexivity|].
  simpl. rewrite Z2Pos.id by lia. unfold representable.
  apply andb_true_intro; split; [apply Z.ltb_lt; lia | apply Z.eqb_eq; exact Hrep].
Qed.

Lemma wf_round_to s p q : 0 < q -> 0 <= p -> wf (round_to s p q) = true.
Proof. intros. apply wf_of_units, round_nearest_representable; lia. Qed.

Lemma nonneg_of_units n : nonneg (of_units false n) = true.
Proof. unfold of_units. destruct (n <=? 0); [reflexivity|]. destruct (huge <=? n); reflexivity. Qed.

Lemma wf_repr s n : wf (Fin s n) = true -> Z.pos n < huge /\ Z.pos n mod 2 ^ shift_of (Z.pos n) = 0.
Proof.
  simpl. unfold representable. intros H. apply andb_prop in H as [H1 H2].
  apply Z.ltb_lt in H1. apply Z.eqb_eq in H2. auto.
Qed.

(** [x + y >= x] when [y] is not negative. *)
Lemma add_nonneg_r_ge x y :
  wf x = true -> nonneg x = true -> nonneg y = true ->
  leb x (add x y) = true /\ nonneg (add x y) = true.
Proof.
  intros Hwf Hx Hy.
  destruct x as [a|a| |a n], y as [b|b| |b m]; simpl in Hx, Hy; try discriminate;
    try (apply negb_true_iff in Hx; subst a); try (apply negb_true_iff in Hy; subst b);
    try (split; reflexivity); try (destruct a; split; reflexivity).
  - (* finite + zero *) simpl. unfold leb, cmp, signed. rewrite Z.compare_refl. split; reflexivity.
  - (* finite + finite *)
    apply wf_repr in Hwf as [_ Hrep].
    unfold add, signed. 
    destruct (Z.eqb_spec (Z.pos n + Z.pos m) 0); [lia|].
    replace (Z.pos n + Z.pos m <? 0) with false by (symmetry; apply Z.ltb_ge; lia).
    rewrite Z.abs_eq by lia. unfold round_to.
    assert (Hge : Z.pos n <= round_nearest (Z.pos n + Z.pos m) 1)
      by (apply round_nearest_lower; [lia | lia | exact Hrep | lia]).
    split; [|apply nonneg_of_units].
    unfold of_units. destruct (Z.leb_spec (round_nearest (Z.pos n + Z.pos m) 1) 0); [lia|].
    destruct (Z.leb_spec huge (round_nearest (Z.pos n + Z.pos m) 1)); [reflexivity|].
    unfold leb, cmp, signed. rewrite Z2Pos.id by lia.
    destruct (Z.compare_spec (Z.pos n) (round_nearest (Z.pos n + Z.pos m) 1)); try reflexivity; lia.
Qed.

Lemma wf_add x y : wf x = true -> wf y = true -> wf (add x y) = true.
Proof.
  intros Hx Hy. destruct x as [a|a| |a n], y as [b|b| |b m]; simpl; try reflexivity; try assumption.
  - destruct (Bool.eqb a b); reflexivity.
  - destruct (signed a n + signed b m =? 0); [reflexivity|]. apply wf_round_to; lia.
Qed.

Lemma wf_mul x y : wf (mul x y) = true.
Proof.
  destruct x as [a|a| |a n], y as [b|b| |b m]; simpl; try reflexivity.
  apply wf_round_to; unfold scale; [apply Z.pow_pos_nonneg|]; lia.
Qed.

(** On the samples the model computes what [SpecFloat] computes. *)
Example float_model_agrees_with_stdlib :
  FloatCheck.agree add (SpecFloat.SFadd 53 1024) = true /\
  FloatCheck.agree sub (SpecFloat.SFsub 53 1024) = true /\
  FloatCheck.agree mul (SpecFloat.SFmul 53 1024) = true /\
  FloatCheck.agree div (SpecFloat.SFdiv 53 1024) = true /\
  FloatCheck.agree_order = true.
Proof. vm_compute. repeat split; reflexivity. Qed.

(** [round(x, 3)] on values whose Python results are known: 2.675 stays
    2.675, 0.0005 (just above the tie) gives 0.001, the tie 0.0625 goes to
    the even 0.062, 0.1875 to 0.188, and -0.0001 gives -0.0. *)
Example round3_samples :
  round3 (of_ratio 2675 1000) = of_ratio 2675 1000 /\
  round3 (of_ratio 5 10000) = of_ratio 1 1000 /\
  round3 (of_ratio 1 16) = of_ratio 62 1000 /\
  round3 (of_ratio 3 16) = of_ratio 188 1000 /\
  round3 (of_ratio (-1) 10000) = Zero true.
Proof. vm_compute. repeat split; reflexivity. Qed.

End FloatFacts.

(** ** Arithmetic on numbers: which exceptions it can raise *)

Lemma as_float_exn (v : num) (e : exn) : as_float v = Exc e -> e = OverflowError.
Proof.
  destruct v as [z|x]; simpl; [|discriminate].
  destruct (Float.is_finite (Float.of_Z z)); congruence.
Qed.

Lemma float_binop_exn op (a b : num) (e : exn) :
  float_binop op a b = Exc e -> e = OverflowError.
Proof.
  unfold float_binop, res_bind.
  destruct (as_float a) eqn:Ha; [|intros [= <-]; eauto using as_float_exn].
  destruct (as_float b) eqn:Hb; [discriminate|intros [= <-]; eauto using as_float_exn].
Qed.

Lemma py_add_exn a b e : py_add a b = Exc e -> e = OverflowError.
Proof. destruct a, b; simpl; try discriminate; apply float_binop_exn. Qed.

Lemma py_sub_exn a b e : py_sub a b = Exc e -> e = OverflowError.
Proof. destruct a, b; simpl; try discriminate; apply float_binop_exn. Qed.

Lemma py_mul_exn a b e : py_mul a b = Exc e -> e = OverflowError.
Proof. destruct a, b; simpl; try discriminate; apply float_binop_exn. Qed.

(** ** Running a handler symbolically *)

Ltac unfold_monad :=
  repeat progress
    (unfold bind, ret, raise, lift, try_except, parsed, item, index, answer,
       put_ctx, get_data, update_data, set_state, clear, users_get, users_set,
       user_data_read, user_data_write, replied;
     cbn [users storage outbox fst snd];
     cbv beta iota zeta).

Ltac step H := rewrite H; unfold_monad.

(** ** C8: the ledger commands before any profile exists *)

(** C8.  For a user with no entry in [users], each of [cmd_log_water],
    [cmd_log_workout], [cmd_log_food] and [cmd_check_progress] answers
    with the "profile required" guidance and does nothing else: [users]
    and the FSM storage are unchanged (no dialog is started) and no
    exception is raised. *)
Theorem profile_required_before_setup `{Externals} (msg : message) (b : bot) :
  users b !! from_user msg = None ->
  let guided := (replied b msg ProfileRequired, Val tt) in
  cmd_log_water msg b = guided /\ cmd_log_workout msg b = guided /\
  cmd_log_food msg b = guided /\ cmd_check_progress msg b = guided.
Proof.
  intros Hnone guided. subst guided.
  unfold cmd_log_water, cmd_log_workout, cmd_log_food, cmd_check_progress.
  unfold_monad. step Hnone. auto.
Qed.

Lemma profile_required_before_setup_witness :
  let msg := Sample.says 7 "/log_water 500" in
  let guided := (replied Sample.after_profile msg ProfileRequired, Val tt) in
  @cmd_log_water Sample.env msg Sample.after_profile = guided /\
  @cmd_log_workout Sample.env msg Sample.after_profile = guided /\
  @cmd_log_food Sample.env msg Sample.after_profile = guided /\
  cmd_check_progress msg Sample.after_profile = guided.
Proof.
  apply (@profile_required_before_setup Sample.env
           (Sample.says 7 "/log_water 500") Sample.after_profile).
  reflexivity.
Defined.

(** ** C7: logging water *)

(** What [cmd_log_water] does with a well-formed amount: the amount is
    added first, then the remaining quantity is computed and reported;
    if that subtraction raises, the addition stays and nothing is sent. *)
Lemma cmd_log_water_amount `{Externals} (msg : message) (b : bot) u tok a :
  users b !! from_user msg = Some u ->
  split (text msg) !! 1%nat = Some tok ->
  py_int tok = Some a ->
  let u' := with_logged_water (logged_water u + a) u in
  let b' := BotState (<[from_user msg := u']> (users b)) (storage b) (outbox b) in
  cmd_log_water msg b =
    match py_sub (water_goal u) (PInt (logged_water u + a)) with
    | Val difference =>
        (replied b' msg
           (WaterLogged a (logged_water u + a) (water_goal u) (py_max0 difference)),
         Val tt)
    | Exc e => (b', Exc e)
    end.
Proof.
  intros Hu Htok Ha u' b'.
  unfold cmd_log_water. unfold_monad. step Hu. step Htok. step Ha. step Hu.
  step (lookup_insert_eq (users b) (from_user msg)).
  simpl.
  destruct (py_sub (water_goal u) (PInt (logged_water u + a))) as [d|e] eqn:Hd.
  - reflexivity.
  - apply py_sub_exn in Hd as ->. reflexivity.
Qed.

(** A missing or malformed amount: the usage text, and nothing changes. *)
Lemma cmd_log_water_malformed `{Externals} (msg : message) (b : bot) u :
  users b !! from_user msg = Some u ->
  match split (text msg) !! 1%nat with
  | Some tok => py_int tok = None
  | None => True
  end ->
  cmd_log_water msg b = (replied b msg WaterUsage, Val tt).
Proof.
  intros Hu Hbad. unfold cmd_log_water. unfold_monad. step Hu.
  destruct (split (text msg) !! 1%nat) as [tok|]; unfold_monad; [step Hbad|]; reflexivity.
Qed.

(** Logging 3000 ml against a 2500 ml goal reports 0 remaining. *)
Example log_3000_against_2500 :
  @cmd_log_water Sample.env (Sample.says 1 "/log_water 3000") Sample.with_user_2500 =
  (BotState {[ 1 := with_logged_water 3000 Sample.user_2500 ]} ∅
     [(1, WaterLogged 3000 3000 (PFloat (Float.of_Z 2500)) (PInt 0))], Val tt).
Proof. vm_compute. reflexivity. Qed.

(** C7.  On the amount [10^400] the ledger is updated but the handler
    ends in an [OverflowError] that it does not catch, so no remaining
    quantity is reported at all. *)
Theorem log_water_huge_amount_escapes :
  let msg := Sample.says_text 1 (lit "/log_water " ++ Sample.googol_digits) in
  let run := @feed Sample.env msg Sample.with_user_2500 in
  @py_int Sample.env Sample.googol_digits = Some (10 ^ 400) /\
  run.2 = Exc OverflowError /\
  outbox run.1 = [] /\
  users run.1 = {[ 1 := with_logged_water (10 ^ 400) Sample.user_2500 ]}.
Proof. vm_compute. repeat split; reflexivity. Qed.

(** ** C1: the goals stored at commit *)

(** C1.  Whenever [set_city] completes with the weather service having
    answered [temperatureC] for the entered city, the draft held a weight,
    height, age and activity, and the entry written to [users] carries as
    goals the value of the specification's two formulas on these inputs
    and that temperature, each rounded to three decimals. *)
Theorem committed_goals_are_the_spec_formulas `{Externals}
    (msg : message) (b b' : bot) (temperatureC : num) :
  get_weather (text msg) = Some temperatureC ->
  set_city msg b = (b', Val tt) ->
  exists weightKg heightCm ageYears activityMinutes u,
    d_weight (draft_of b msg) = Some weightKg /\
    d_height (draft_of b msg) = Some heightCm /\
    d_age (draft_of b msg) = Some ageYears /\
    d_activity (draft_of b msg) = Some activityMinutes /\
    users b' !! from_user msg = Some u /\
    Spec.waterGoalMl weightKg activityMinutes temperatureC = Val (water_goal u) /\
    Spec.calorieGoalKcal weightKg heightCm ageYears = Val (calorie_goal u).
Proof.
  intros Hweather. unfold set_city. unfold_monad. step Hweather.
  unfold water_goal_expr, calorie_goal_expr,
    Spec.waterGoalMl, Spec.calorieGoalKcal, res_bind.
  unfold_monad.
  destruct (d_weight (draft_of b msg)) as [w|]; unfold_monad; [|discriminate].
  destruct (py_mul (PFloat w) (PInt 30)) as [t1|] eqn:E1; unfold_monad; [|discriminate].
  destruct (d_activity (draft_of b msg)) as [m|]; unfold_monad; [|discriminate].
  destruct (py_truediv (PInt m) (PInt 30)) as [q|] eqn:E2; unfold_monad; [|discriminate].
  destruct (py_mul q (PInt 500)) as [t2|] eqn:E3; unfold_monad; [|discriminate].
  destruct (py_add t1 t2) as [s|] eqn:E4; unfold_monad; [|discriminate].
  destruct (py_add s _) as [s'|] eqn:E5; unfold_monad; [|discriminate].
  destruct (py_mul (PInt 10) (PFloat w)) as [c1|] eqn:E6; unfold_monad; [|discriminate].
  destruct (d_height (draft_of b msg)) as [h|]; unfold_monad; [|discriminate].
  destruct (py_mul lit_6_25 (PFloat h)) as [c2|] eqn:E7; unfold_monad; [|discriminate].
  destruct (py_add c1 c2) as [c12|] eqn:E8; unfold_monad; [|discriminate].
  destruct (d_age (draft_of b msg)) as [a|]; unfold_monad; [|discriminate].
  destruct (py_mul (PInt 5) (PInt a)) as [c3|] eqn:E9; unfold_monad; [|discriminate].
  destruct (py_sub c12 c3) as [c|] eqn:E10; unfold_monad; [|discriminate].
  intros [= <-]. cbn [users].
  eexists w, h, a, m, _. rewrite lookup_insert_eq.
  unfold extra_water in *.
  rewrite E1, E2, E3, E4, E5, E6, E7, E8, E9, E10.
  repeat split; reflexivity.
Qed.

Lemma committed_goals_are_the_spec_formulas_witness :
  exists weightKg heightCm ageYears activityMinutes u,
    d_weight (draft_of Sample.before_city (Sample.says 1 "Cairo")) = Some weightKg /\
    d_height (draft_of Sample.before_city (Sample.says 1 "Cairo")) = Some heightCm /\
    d_age (draft_of Sample.before_city (Sample.says 1 "Cairo")) = Some ageYears /\
    d_activity (draft_of Sample.before_city (Sample.says 1 "Cairo")) = Some activityMinutes /\
    users Sample.after_profile !! from_user (Sample.says 1 "Cairo") = Some u /\
    Spec.waterGoalMl weightKg activityMinutes (PInt 30) = Val (water_goal u) /\
    Spec.calorieGoalKcal weightKg heightCm ageYears = Val (calorie_goal u).
Proof.
  apply (@committed_goals_are_the_spec_formulas Sample.env
           (Sample.says 1 "Cairo") Sample.before_city Sample.after_profile (PInt 30)).
  - vm_compute. reflexivity.
  - vm_compute. reflexivity.
Defined.

(** The two worked examples of the specification: 70 kg, 60 minutes and
    30 degrees give 3600.0 ml; 70 kg, 175 cm and 25 years give 1668.75 kcal. *)
Example water_goal_70_60_30 :
  Spec.waterGoalMl (Float.of_Z 70) 60 (PInt 30) = Val (PFloat (Float.of_Z 3600)).
Proof. vm_compute. reflexivity. Qed.

Example calorie_goal_70_175_25 :
  Spec.calorieGoalKcal (Float.of_Z 70) (Float.of_Z 175) 25
  = Val (PFloat (Float.of_ratio 166875 100)).
Proof. vm_compute. reflexivity. Qed.

(** ** C5: the city step *)

(** No temperature for the city: the failure message, and nothing else
    changes, so the phase stays [ProfileState_city] and the draft is kept. *)
Lemma set_city_weather_unavailable `{Externals} (msg : message) (b : bot) :
  get_weather (text msg) = None ->
  set_city msg b = (replied b msg WeatherFailed, Val tt).
Proof. intros Hw. unfold set_city. unfold_monad. step Hw. reflexivity. Qed.

(** A temperature, a complete draft and goals that can be computed: the
    entry of the user is replaced by a new one with a zero ledger, the FSM
    entry is cleared and the confirmation is sent. *)
Lemma set_city_commits `{Externals} (msg : message) (b : bot)
    (t : num) (w h : Float.float) (a m : Z) (wg cg : num) :
  get_weather (text msg) = Some t ->
  draft_of b msg = FsmData (Some w) (Some h) (Some a) (Some m)
                     (d_food_name (draft_of b msg))
                     (d_calories_per_100g (draft_of b msg)) ->
  Spec.waterGoalMl w m t = Val wg ->
  Spec.calorieGoalKcal w h a = Val cg ->
  set_city msg b =
    (BotState (<[from_user msg := User w h a m (text msg) wg cg 0 (PInt 0) 0]> (users b))
              (<[key_of msg := fresh_ctx]> (storage b))
              (outbox b ++ [(chat msg, ProfileConfigured wg t cg)]),
     Val tt).
Proof.
  intros Hw Hd Hwg Hcg. unfold set_city. unfold_monad. step Hw.
  unfold water_goal_expr, calorie_goal_expr. unfold_monad.
  rewrite Hd. cbn [d_weight d_height d_age d_activity]. unfold_monad.
  revert Hwg Hcg. unfold Spec.waterGoalMl, Spec.calorieGoalKcal, res_bind, extra_water.
  destruct (py_mul (PFloat w) (PInt 30)) as [t1|]; unfold_monad; [|intros [=]].
  destruct (py_truediv (PInt m) (PInt 30)) as [q|]; unfold_monad; [|intros [=]].
  destruct (py_mul q (PInt 500)) as [t2|]; unfold_monad; [|intros [=]].
  destruct (py_add t1 t2) as [s|]; unfold_monad; [|intros [=]].
  destruct (py_add s _) as [s'|]; unfold_monad; [|intros [=]].
  intros [= <-].
  destruct (py_mul (PInt 10) (PFloat w)) as [c1|]; unfold_monad; [|intros [=]].
  destruct (py_mul lit_6_25 (PFloat h)) as [c2|]; unfold_monad; [|intros [=]].
  destruct (py_add c1 c2) as [c12|]; unfold_monad; [|intros [=]].
  destruct (py_mul (PInt 5) (PInt a)) as [c3|]; unfold_monad; [|intros [=]].
  destruct (py_sub c12 c3) as [c|]; unfold_monad; [|intros [=]].
  intros [= <-]. reflexivity.
Qed.

(** C5.  With the age [10^400] in the draft and the weather service
    answering 30 degrees for the city, [set_city] raises [OverflowError]
    while computing the calorie goal: nothing is committed, nothing is
    sent, and the session stays in [ProfileState_city]. *)
Theorem set_city_huge_age_escapes :
  let b := Sample.before_city_huge_age in
  let msg := Sample.says 1 "Cairo" in
  phase_of b msg = Some ProfileState_city /\
  d_age (draft_of b msg) = Some (10 ^ 400) /\
  @get_weather Sample.env (text msg) = Some (PInt 30) /\
  @feed Sample.env msg b = (b, Exc OverflowError) /\
  users b !! 1 = None.
Proof. vm_compute. repeat split; reflexivity. Qed.

(** ** C4: the weight step *)

(** In a profile phase, text that is none of the early commands goes to
    the handler of the phase. *)
Lemma feed_profile_phase `{Externals} (msg : message) (b : bot) (p : phase) :
  phase_of b msg = Some p ->
  p <> FoodLoggingState_waiting_for_quantity ->
  early_command (text msg) = false ->
  feed msg b = phase_handler p msg b.
Proof.
  intros Hp Hne Hearly. unfold early_command in Hearly.
  apply orb_false_elim in Hearly as [Hearly Hsp].
  apply orb_false_elim in Hearly as [Hst Hhe].
  unfold feed, registered, first_match, accepts.
  rewrite Hst, Hhe, Hsp, Hp.
  destruct p; try congruence; reflexivity.
Qed.

(** C4 (amended).  In phase [ProfileState_weight], text that is not one of
    the commands /start, /help, /set_profile moves the session to
    [ProfileState_height] with the parsed value as draft weight exactly
    when [float()] accepts it, whatever the value; otherwise nothing
    changes and the re-prompt is sent. *)
Theorem weight_step_accepts_any_float `{Externals} (msg : message) (b : bot) :
  phase_of b msg = Some ProfileState_weight ->
  early_command (text msg) = false ->
  feed msg b =
    match py_float (text msg) with
    | Some w =>
        let d := draft_of b msg in
        (BotState (users b)
           (<[key_of msg :=
                FsmCtx (Some ProfileState_height)
                  (FsmData (Some w) (d_height d) (d_age d) (d_activity d)
                     (d_food_name d) (d_calories_per_100g d))]> (storage b))
           (outbox b ++ [(chat msg, AskHeight)]),
         Val tt)
    | None => (replied b msg BadWeight, Val tt)
    end.
Proof.
  intros Hp Hearly.
  rewrite (feed_profile_phase msg b ProfileState_weight) by (done || congruence).
  unfold phase_handler, set_weight. unfold_monad.
  destruct (py_float (text msg)) as [w|]; unfold_monad; [|reflexivity].
  unfold ctx_of at 1. cbn [storage]. rewrite lookup_insert_eq. cbn [default fsm_values fsm_state].
  rewrite insert_insert_eq. reflexivity.
Qed.

Lemma weight_step_accepts_any_float_witness :
  @feed Sample.env (Sample.says 1 "70") Sample.awaiting_weight =
    match @py_float Sample.env (text (Sample.says 1 "70")) with
    | Some w =>
        let d := draft_of Sample.awaiting_weight (Sample.says 1 "70") in
        (BotState (users Sample.awaiting_weight)
           (<[key_of (Sample.says 1 "70") :=
                FsmCtx (Some ProfileState_height)
                  (FsmData (Some w) (d_height d) (d_age d) (d_activity d)
                     (d_food_name d) (d_calories_per_100g d))]>
              (storage Sample.awaiting_weight))
           (outbox Sample.awaiting_weight ++ [(chat (Sample.says 1 "70"), AskHeight)]),
         Val tt)
    | None => (replied Sample.awaiting_weight (Sample.says 1 "70") BadWeight, Val tt)
    end.
Proof.
  apply (@weight_step_accepts_any_float Sample.env
           (Sample.says 1 "70") Sample.awaiting_weight).
  - vm_compute. reflexivity.
  - vm_compute. reflexivity.
Defined.

(** C4 as stated fails twice.  The text [-5] is not a positive real, yet
    it moves the session to [ProfileState_height] with draft weight -5.0.
    The text [/start] is not a number, yet what is sent is the greeting,
    not the re-prompt. *)
Lemma weight_step_takes_minus_five :
  let b := Sample.awaiting_weight in
  phase_of b (Sample.says 1 "-5") = Some ProfileState_weight /\
  (let b' := (@feed Sample.env (Sample.says 1 "-5") b).1 in
   phase_of b' (Sample.says 1 "-5") = Some ProfileState_height /\
   d_weight (draft_of b' (Sample.says 1 "-5")) = Some (Float.of_Z (-5)) /\
   Float.ltb (Float.of_Z (-5)) (Float.Zero false) = true) /\
  @py_float Sample.env (lit "/start") = None /\
  @feed Sample.env (Sample.says 1 "/start") b = (replied b (Sample.says 1 "/start") Greeting, Val tt) /\
  Greeting <> BadWeight.
Proof. vm_compute. repeat split; try reflexivity. discriminate. Qed.

(** ** C9: commands in the middle of a dialog *)

(** C9 (amended).  While a dialog is in progress, /start and /help are
    answered by their own handlers and /set_profile by [cmd_set_profile],
    which puts the session in [ProfileState_weight] and keeps the draft.
    Any other text, /log_water, /log_workout, /log_food and
    /check_progress included, goes to the handler of the current profile
    phase; in the food phase the three logging commands must be excluded
    too for the text to reach [process_food_quantity]. *)
Theorem commands_during_a_dialog `{Externals} (msg : message) (b : bot) (p : phase) :
  phase_of b msg = Some p ->
  (command_filter (lit "start") (text msg) = true ->
     feed msg b = (replied b msg Greeting, Val tt)) /\
  (command_filter (lit "start") (text msg) = false ->
   command_filter (lit "help") (text msg) = true ->
     feed msg b = (replied b msg HelpText, Val tt)) /\
  (command_filter (lit "start") (text msg) = false ->
   command_filter (lit "help") (text msg) = false ->
   command_filter (lit "set_profile") (text msg) = true ->
     feed msg b = cmd_set_profile msg b /\
     phase_of (feed msg b).1 msg = Some ProfileState_weight /\
     draft_of (feed msg b).1 msg = draft_of b msg) /\
  (early_command (text msg) = false ->
   p <> FoodLoggingState_waiting_for_quantity ->
     feed msg b = phase_handler p msg b) /\
  (early_command (text msg) = false ->
   p = FoodLoggingState_waiting_for_quantity ->
   command_filter (lit "log_water") (text msg) = false ->
   command_filter (lit "log_workout") (text msg) = false ->
   command_filter (lit "log_food") (text msg) = false ->
     feed msg b = process_food_quantity msg b).
Proof.
  intros Hp. repeat split.
  - intros Hst. unfold feed, registered, first_match, accepts. rewrite Hst. reflexivity.
  - intros Hst Hhe. unfold feed, registered, first_match, accepts. rewrite Hst, Hhe. reflexivity.
  - unfold feed, registered, first_match, accepts. rewrite H0, H1, H2. reflexivity.
  - unfold feed, registered, first_match, accepts. rewrite H0, H1, H2.
    unfold cmd_set_profile. unfold_monad. unfold phase_of, ctx_of. cbn [storage].
    rewrite lookup_insert_eq. reflexivity.
  - unfold feed, registered, first_match, accepts. rewrite H0, H1, H2.
    unfold cmd_set_profile. unfold_monad. unfold draft_of, ctx_of at 1. cbn [storage].
    rewrite lookup_insert_eq. reflexivity.
  - intros. apply feed_profile_phase; assumption.
  - intros Hearly -> Hw Hk Hf. unfold early_command in Hearly.
    apply orb_false_elim in Hearly as [Hearly Hsp].
    apply orb_false_elim in Hearly as [Hst Hhe].
    unfold feed, registered, first_match, accepts.
    rewrite Hst, Hhe, Hsp, Hw, Hk, Hf, Hp. reflexivity.
Qed.

Lemma commands_during_a_dialog_witness :
  let msg := Sample.says 1 "/set_profile" in
  let b := Sample.awaiting_height in
  (@command_filter Sample.env (lit "start") (text msg) = true ->
     @feed Sample.env msg b = (replied b msg Greeting, Val tt)) /\
  (@command_filter Sample.env (lit "start") (text msg) = false ->
   @command_filter Sample.env (lit "help") (text msg) = true ->
     @feed Sample.env msg b = (replied b msg HelpText, Val tt)) /\
  (@command_filter Sample.env (lit "start") (text msg) = false ->
   @command_filter Sample.env (lit "help") (text msg) = false ->
   @command_filter Sample.env (lit "set_profile") (text msg) = true ->
     @feed Sample.env msg b = cmd_set_profile msg b /\
     phase_of (@feed Sample.env msg b).1 msg = Some ProfileState_weight /\
     draft_of (@feed Sample.env msg b).1 msg = draft_of b msg) /\
  (@early_command Sample.env (text msg) = false ->
   ProfileState_height <> FoodLoggingState_waiting_for_quantity ->
     @feed Sample.env msg b = @phase_handler Sample.env ProfileState_height msg b) /\
  (@early_command Sample.env (text msg) = false ->
   ProfileState_height = FoodLoggingState_waiting_for_quantity ->
   @command_filter Sample.env (lit "log_water") (text msg) = false ->
   @command_filter Sample.env (lit "log_workout") (text msg) = false ->
   @command_filter Sample.env (lit "log_food") (text msg) = false ->
     @feed Sample.env msg b = @process_food_quantity Sample.env msg b).
Proof.
  apply (@commands_during_a_dialog Sample.env
           (Sample.says 1 "/set_profile") Sample.awaiting_height ProfileState_height).
  vm_compute. reflexivity.
Defined.

(** C9 as stated fails: in [ProfileState_height], with the weight already
    in the draft, /set_profile is not left to [set_height]; it replaces the
    phase by [ProfileState_weight]. *)
Lemma set_profile_replaces_the_phase :
  let msg := Sample.says 1 "/set_profile" in
  let b := Sample.awaiting_height in
  phase_of b msg = Some ProfileState_height /\
  d_weight (draft_of b msg) = Some Sample.f70 /\
  phase_of (@feed Sample.env msg b).1 msg = Some ProfileState_weight /\
  @feed Sample.env msg b <> @set_height Sample.env msg b.
Proof. vm_compute. repeat split; try reflexivity. discriminate. Qed.

(** ** The quantity step of the food dialog *)

(** A quantity that parses, with the draft of the food dialog in place
    and the arithmetic defined: the product is added to the logged
    calories, the FSM entry is cleared, and nothing else in the user's
    entry changes. *)
Lemma food_quantity_logged `{Externals} (msg : message) (b : bot)
    (g : Float.float) (name : pystr) (c : num) (u : user) (q total sum : num) :
  py_float (text msg) = Some g ->
  d_food_name (draft_of b msg) = Some name ->
  d_calories_per_100g (draft_of b msg) = Some c ->
  users b !! from_user msg = Some u ->
  py_truediv c (PInt 100) = Val q ->
  py_mul q (PFloat g) = Val total ->
  py_add (logged_calories u) total = Val sum ->
  process_food_quantity msg b =
    (BotState (<[from_user msg := with_logged_calories sum u]> (users b))
              (<[key_of msg := fresh_ctx]> (storage b))
              (outbox b ++ [(chat msg, FoodLogged name total g)]),
     Val tt).
Proof.
  intros Hg Hname Hc Hu Hq Htotal Hsum.
  unfold process_food_quantity. unfold_monad.
  step Hg. step Hname. step Hc. step Hq. step Htotal. step Hu. step Hsum.
  reflexivity.
Qed.

(** The worked example: apple at 52 kcal per 100 g, 150 g eaten, logs
    exactly 78.0 kcal and leaves the rest of the entry as it was. *)
Example apple_150_grams :
  @feed Sample.env (Sample.says 1 "150") Sample.asked_apple =
    (BotState {[ 1 := with_logged_calories (PFloat (Float.of_Z 78)) Sample.user_2500 ]}
       {[ (1, 1) := fresh_ctx ]}
       [(1, FoodPrompt (lit "apple") (PInt 52));
        (1, FoodLogged (lit "apple") (PFloat (Float.of_Z 78)) (Float.of_Z 150))],
     Val tt).
Proof. vm_compute. reflexivity. Qed.

(** An [int] density too large for a float, [10^400], which the food
    service would have to answer with as a 401-digit integer: the division
    by 100 raises [OverflowError], which [process_food_quantity] does not
    catch. *)
Example food_quantity_huge_density_escapes :
  let b := Sample.asked_plasma in
  let msg := Sample.says 1 "1" in
  phase_of b msg = Some FoodLoggingState_waiting_for_quantity /\
  d_calories_per_100g (draft_of b msg) = Some (PInt (10 ^ 400)) /\
  @py_float Sample.env (text msg) = Some (Float.of_Z 1) /\
  @feed Sample.env msg b = (b, Exc OverflowError).
Proof. vm_compute. repeat split; reflexivity. Qed.

(** ** C10: a first match without an energy value *)

Lemma add_zero_keeps_value (x : Float.float) (s : bool) :
  Float.is_nan x = false -> Float.eqb (Float.add x (Float.Zero s)) x = true.
Proof.
  destruct x as [a|a| |a n]; simpl; try discriminate; intros _; try reflexivity.
  - destruct a; reflexivity.
  - unfold Float.eqb, Float.cmp. rewrite Z.compare_refl. reflexivity.
Qed.

Lemma zero_times_finite (g : Float.float) :
  Float.is_finite g = true -> exists s, Float.mul (Float.Zero false) g = Float.Zero s.
Proof. destruct g; simpl; try discriminate; eauto. Qed.

(** C10 (amended).  When the food service answers with products of which
    the first has no energy value, the dialog is started with the density
    0, and the answer to the quantity question, for any finite number of
    grams, leaves the logged calories numerically unchanged. *)
Theorem missing_energy_value_logs_zero `{Externals}
    (start quantity : message) (b : bot) (u : user) (g : Float.float)
    (rest : list product) :
  users b !! from_user start = Some u ->
  calories_defined (logged_calories u) = true ->
  join_space (tail_from_1 (split (text start))) <> [] ->
  f_status (food_http (join_space (tail_from_1 (split (text start))))) = 200 ->
  f_products (food_http (join_space (tail_from_1 (split (text start)))))
    = Product None :: rest ->
  key_of quantity = key_of start ->
  py_float (text quantity) = Some g ->
  Float.is_finite g = true ->
  let food_name := join_space (tail_from_1 (split (text start))) in
  let b1 := (cmd_log_food start b).1 in
  let b2 := (process_food_quantity quantity b1).1 in
  outbox b1 = outbox b ++ [(chat start, FoodPrompt food_name (PInt 0))] /\
  phase_of b1 start = Some FoodLoggingState_waiting_for_quantity /\
  d_calories_per_100g (draft_of b1 start) = Some (PInt 0) /\
  (process_food_quantity quantity b1).2 = Val tt /\
  exists u',
    users b2 !! from_user start = Some u' /\
    py_eq (logged_calories u') (logged_calories u) = true /\
    u' = with_logged_calories (logged_calories u') u.
Proof.
  intros Hu Hdef Hname Hstatus Hproducts Hkey Hg Hfin food_name b1 b2.
  subst food_name b1 b2.
  remember (join_space (tail_from_1 (split (text start)))) as food_name eqn:Hfn.
  assert (Hfrom : from_user quantity = from_user start)
    by (unfold key_of in Hkey; congruence).
  assert (Hb1 : cmd_log_food start b =
    (BotState (users b)
       (<[key_of start :=
            FsmCtx (Some FoodLoggingState_waiting_for_quantity)
              (FsmData (d_weight (draft_of b start)) (d_height (draft_of b start))
                 (d_age (draft_of b start)) (d_activity (draft_of b start))
                 (Some food_name) (Some (PInt 0)))]> (storage b))
       (outbox b ++ [(chat start, FoodPrompt food_name (PInt 0))]), Val tt)).
  { unfold cmd_log_food. unfold_monad. step Hu. rewrite <- Hfn.
    destruct food_name as [|c0 name']; [congruence|].
    rewrite Hstatus, Hproducts. cbn [Z.eqb Pos.eqb energy_kcal_100g default].
    unfold_monad. unfold ctx_of at 1. cbn [storage]. rewrite lookup_insert_eq.
    cbn [default fsm_values fsm_state]. rewrite insert_insert_eq. reflexivity. }
  rewrite Hb1. cbn [fst].
  split; [reflexivity|].
  split; [unfold phase_of, ctx_of; cbn [storage]; rewrite lookup_insert_eq; reflexivity|].
  split; [unfold draft_of, ctx_of; cbn [storage]; rewrite lookup_insert_eq; reflexivity|].
  destruct (zero_times_finite g Hfin) as [s Hs].
  set (b1 := BotState _ _ _).
  assert (Hsum : exists sum, py_add (logged_calories u) (PFloat (Float.Zero s)) = Val sum /\
                             py_eq sum (logged_calories u) = true).
  { destruct (logged_calories u) as [z|x]; simpl in Hdef.
    - apply Z.eqb_eq in Hdef as ->. exists (PFloat (Float.Zero false)).
      split; [|reflexivity]. vm_compute. reflexivity.
    - exists (PFloat (Float.add x (Float.Zero s))). split; [reflexivity|].
      apply negb_true_iff in Hdef. apply (add_zero_keeps_value x s Hdef). }
  destruct Hsum as (sum & Hsum & Heq).
  rewrite (food_quantity_logged quantity b1 g food_name (PInt 0) u
             (PFloat (Float.Zero false)) (PFloat (Float.Zero s)) sum); try assumption.
  - cbn [fst snd users]. split; [reflexivity|].
    exists (with_logged_calories sum u). rewrite Hfrom, lookup_insert_eq.
    repeat split; assumption.
  - unfold draft_of, ctx_of, b1. cbn [storage]. rewrite Hkey, lookup_insert_eq. reflexivity.
  - unfold draft_of, ctx_of, b1. cbn [storage]. rewrite Hkey, lookup_insert_eq. reflexivity.
  - rewrite Hfrom. exact Hu.
  - vm_compute. reflexivity.
  - unfold py_mul, float_binop, as_float, res_bind. rewrite Hs. reflexivity.
Qed.

Lemma missing_energy_value_logs_zero_witness :
  let start := Sample.says 1 "/log_food water" in
  let quantity := Sample.says 1 "250" in
  let food_name := join_space (tail_from_1 (split (text start))) in
  let b1 := (@cmd_log_food Sample.env start Sample.with_user_2500).1 in
  let b2 := (@process_food_quantity Sample.env quantity b1).1 in
  outbox b1 = outbox Sample.with_user_2500 ++ [(chat start, FoodPrompt food_name (PInt 0))] /\
  phase_of b1 start = Some FoodLoggingState_waiting_for_quantity /\
  d_calories_per_100g (draft_of b1 start) = Some (PInt 0) /\
  (@process_food_quantity Sample.env quantity b1).2 = Val tt /\
  exists u',
    users b2 !! from_user start = Some u' /\
    py_eq (logged_calories u') (logged_calories Sample.user_2500) = true /\
    u' = with_logged_calories (logged_calories u') Sample.user_2500.
Proof.
  apply (@missing_energy_value_logs_zero Sample.env
           (Sample.says 1 "/log_food water") (Sample.says 1 "250")
           Sample.with_user_2500 Sample.user_2500 (Float.of_Z 250) []).
  - reflexivity.
  - reflexivity.
  - vm_compute. discriminate.
  - vm_compute. reflexivity.
  - vm_compute. reflexivity.
  - reflexivity.
  - vm_compute. reflexivity.
  - vm_compute. reflexivity.
Defined.

(** C10 as stated fails on grams that are not finite: with the density 0
    in the draft, the quantity [inf] turns the logged calories into NaN,
    which is not what they were. *)
Lemma zero_density_times_inf_is_nan :
  let b := Sample.asked_water in
  let msg := Sample.says 1 "inf" in
  d_calories_per_100g (draft_of b msg) = Some (PInt 0) /\
  @py_float Sample.env (text msg) = Some (Float.Inf false) /\
  logged_calories <$> users b !! 1 = Some (PInt 0) /\
  logged_calories <$> users (@feed Sample.env msg b).1 !! 1 = Some (PFloat Float.NaN) /\
  py_eq (PFloat Float.NaN) (PInt 0) = false.
Proof. vm_compute. repeat split; reflexivity. Qed.

(** ** C2: logging a workout *)

Lemma dict_get_calories_per_minute (t : pystr) :
  dict_get calories_per_minute t 5 = Spec.caloriesPerMinute t.
Proof.
  unfold calories_per_minute, dict_get, Spec.caloriesPerMinute.
  repeat case_bool_decide; reflexivity.
Qed.

(** C2 (amended).  With a profile, a type word [t] and a duration word
    that [int()] reads as [d], [cmd_log_workout] adds
    [caloriesPerMinute(lower(t)) * d] to the burned calories and
    [d // 30 * 200] to the logged water and changes nothing else; the
    table is keyed by the words бег, плавание, йога, велосипед, so the
    word бег with 45 minutes burns 450 and adds 200 ml, and a word outside
    the table with 10 minutes burns 50 and adds none. *)
Theorem workout_adds_rate_times_duration `{Externals}
    (msg : message) (b : bot) (u : user)
    (command t duration_word : pystr) (more : list pystr) (d : Z) :
  users b !! from_user msg = Some u ->
  split (text msg) = command :: t :: duration_word :: more ->
  py_int duration_word = Some d ->
  let burned := Spec.caloriesPerMinute (str_lower t) * d in
  let water := d / 30 * 200 in
  cmd_log_workout msg b =
    (BotState
       (<[from_user msg :=
            with_logged_water (logged_water u + water)
              (with_burned_calories (burned_calories u + burned) u)]> (users b))
       (storage b)
       (outbox b ++ [(chat msg, WorkoutLogged t d burned water)]),
     Val tt)
  /\ Spec.caloriesPerMinute key_beg * 45 = 450 /\ 45 / 30 * 200 = 200
  /\ (forall other, other <> key_beg -> other <> key_plavanie -> other <> key_yoga ->
        other <> key_velosiped -> Spec.caloriesPerMinute other * 10 = 50)
  /\ 10 / 30 * 200 = 0.
Proof.
  intros Hu Hsplit Hd burned water. split; [|split; [reflexivity|split; [reflexivity|split; [|reflexivity]]]].
  - unfold cmd_log_workout. unfold_monad. step Hu. rewrite Hsplit.
    unfold tail_from_1. cbn [drop length]. 
    rewrite bool_decide_eq_false_2 by (simpl; lia).
    unfold_monad. cbn [lookup list_lookup]. unfold_monad. step Hd. step Hu.
    step (lookup_insert_eq (users b) (from_user msg)).
    rewrite insert_insert_eq. rewrite dict_get_calories_per_minute.
    unfold py_floordiv_int. reflexivity.
  - intros other H1 H2 H3 H4. unfold Spec.caloriesPerMinute.
    rewrite !bool_decide_eq_false_2 by assumption. reflexivity.
Qed.

Lemma workout_adds_rate_times_duration_witness :
  let msg := Sample.says_text 1 (lit "/log_workout " ++ [1041; 1045; 1043]%N ++ lit " 45") in
  let burned := Spec.caloriesPerMinute (@str_lower Sample.env [1041; 1045; 1043]%N) * 45 in
  let water := 45 / 30 * 200 in
  (@cmd_log_workout Sample.env msg Sample.with_user_2500 =
    (BotState
       (<[from_user msg :=
            with_logged_water (logged_water Sample.user_2500 + water)
              (with_burned_calories (burned_calories Sample.user_2500 + burned)
                 Sample.user_2500)]> (users Sample.with_user_2500))
       (storage Sample.with_user_2500)
       (outbox Sample.with_user_2500
          ++ [(chat msg, WorkoutLogged [1041; 1045; 1043]%N 45 burned water)]),
     Val tt)
  /\ Spec.caloriesPerMinute key_beg * 45 = 450 /\ 45 / 30 * 200 = 200
  /\ (forall other, other <> key_beg -> other <> key_plavanie -> other <> key_yoga ->
        other <> key_velosiped -> Spec.caloriesPerMinute other * 10 = 50)
  /\ 10 / 30 * 200 = 0)
  /\ burned = 450.
Proof.
  split.
  - apply (@workout_adds_rate_times_duration Sample.env
             (Sample.says_text 1 (lit "/log_workout " ++ [1041; 1045; 1043]%N ++ lit " 45"))
             Sample.with_user_2500 Sample.user_2500
             (lit "/log_workout") [1041; 1045; 1043]%N (lit "45") [] 45).
    + reflexivity.
    + vm_compute. reflexivity.
    + vm_compute. reflexivity.
  - vm_compute. reflexivity.
Defined.

(** C2 as stated fails on its own example: the word [running] is not a
    key of the table, so 45 minutes of it burn 5 * 45 = 225, not 450. *)
Lemma running_is_not_in_the_table :
  let msg := Sample.says 1 "/log_workout running 45" in
  let b' := (@feed Sample.env msg Sample.with_user_2500).1 in
  split (text msg) = [lit "/log_workout"; lit "running"; lit "45"] /\
  burned_calories <$> users Sample.with_user_2500 !! 1 = Some 0 /\
  burned_calories <$> users b' !! 1 = Some 225 /\
  outbox b' = [(1, WorkoutLogged (lit "running") 45 225 200)] /\
  225 <> 450.
Proof. vm_compute. repeat split; try reflexivity. discriminate. Qed.

(** ** C3: the ledger under the logging operations *)

Module LedgerFacts.
Import Float FloatFacts.

Lemma cmp_refl_defined (x : float) : is_nan x = false -> cmp x x = Some Eq.
Proof.
  destruct x as [a|a| |a n]; simpl; try discriminate; intros _; try reflexivity.
  - destruct a; reflexivity.
  - rewrite Z.compare_refl. reflexivity.
Qed.

Lemma nonneg_not_nan (x : float) : nonneg x = true -> is_nan x = false.
Proof. destruct x; simpl; congruence. Qed.

Lemma py_le_refl (v : num) : calories_ok v = true -> py_le v v = true.
Proof.
  destruct v as [z|x]; simpl; intros Hok.
  - unfold py_le, py_cmp. rewrite Z.compare_refl. reflexivity.
  - apply andb_prop in Hok as [_ Hn]. unfold py_le, py_cmp.
    rewrite cmp_refl_defined by (apply nonneg_not_nan; exact Hn). reflexivity.
Qed.

Lemma ledger_le_refl (u : user) : ledger_ok u = true -> ledger_le u u.
Proof.
  unfold ledger_ok, ledger_le. intros Hok.
  apply andb_prop in Hok as [_ Hc]. repeat split; try lia. apply py_le_refl, Hc.
Qed.

(** The float 100.0 the divisor [100] converts to. *)
Lemma as_float_100 :
  exists p, as_float (PInt 100) = Val (Fin false p) /\ Z.pos p = 100 * scale.
Proof. exists (Z.to_pos (100 * scale)). split; vm_compute; reflexivity. Qed.

Lemma as_float_0 : as_float (PInt 0) = Val (Zero false).
Proof. vm_compute. reflexivity. Qed.

(** A density divided by 100 is a finite float that is not negative. *)
Lemma density_per_gram (c q : num) :
  density_ok c = true -> py_truediv c (PInt 100) = Val q ->
  exists x, q = PFloat x /\ is_finite x = true /\ nonneg x = true.
Proof.
  unfold density_ok. intros Hok. apply andb_prop in Hok as [Hok Hfin].
  apply andb_prop in Hok as [Hwf Hnn].
  destruct c as [z|x].
  - unfold py_truediv. change (100 =? 0) with false. cbv iota.
    destruct (is_finite (of_ratio z 100)) eqn:Hf; [|discriminate].
    intros [= <-]. eexists; split; [reflexivity|]. split; [exact Hf|].
    unfold num_nonneg, py_ge, py_cmp in Hnn.
    assert (0 <= z) by (destruct (Z.compare_spec z 0); (lia || discriminate)).
    unfold of_ratio. destruct (z =? 0); [reflexivity|].
    replace (z <? 0) with false by (symmetry; apply Z.ltb_ge; lia).
    apply nonneg_of_units.
  - destruct as_float_100 as (p100 & H100 & Hp100).
    unfold py_truediv, res_bind. rewrite H100. clear H100. cbn [as_float]. cbv iota beta.
    intros [= <-]. eexists; split; [reflexivity|].
    simpl in Hfin, Hwf.
    destruct x as [a|a| |a n]; simpl in Hfin; try discriminate Hfin.
    + split; reflexivity.
    + unfold num_nonneg, py_ge, py_cmp, cmp_Z, signed in Hnn.
      destruct a; [simpl in Hnn; discriminate|].
      apply wf_repr in Hwf as [Hlt Hrep].
      unfold div, xorb, round_to.
      assert (Hs : 0 < scale) by (unfold scale; apply Z.pow_pos_nonneg; lia).
      rewrite Hp100.
      assert (Hle : round_nearest (Z.pos n * scale) (100 * scale) <= Z.pos n)
        by (apply round_nearest_upper; [lia | lia | lia | exact Hrep | nia]).
      split; [|apply nonneg_of_units].
      unfold of_units.
      destruct (round_nearest (Z.pos n * scale) (100 * scale) <=? 0); [reflexivity|].
      destruct (Z.leb_spec huge (round_nearest (Z.pos n * scale) (100 * scale))); [lia|reflexivity].
Qed.

(** The calories of a quantity: a well-formed float that is not negative. *)
Lemma quantity_calories (x g : float) :
  is_finite x = true -> nonneg x = true -> grams_ok g = true ->
  wf (mul x g) = true /\ nonneg (mul x g) = true.
Proof.
  unfold grams_ok. intros Hfx Hnx Hg. apply andb_prop in Hg as [Hg Hfg].
  apply andb_prop in Hg as [_ Hng]. split; [apply wf_mul|].
  destruct x as [a|a| |a n], g as [b|b| |b m]; simpl in *; try discriminate; try reflexivity.
  apply negb_true_iff in Hnx, Hng. subst a b. apply nonneg_of_units.
Qed.

(** Adding such calories to sound logged calories keeps them sound and
    does not make them smaller. *)
Lemma logged_calories_grow (v : num) (t : float) (sum : num) :
  calories_ok v = true -> wf t = true -> nonneg t = true ->
  py_add v (PFloat t) = Val sum ->
  calories_ok sum = true /\ py_le v sum = true.
Proof.
  intros Hv Hwt Hnt. destruct v as [z|x]; simpl in Hv.
  - apply Z.eqb_eq in Hv as ->. unfold py_add, float_binop, res_bind.
    rewrite as_float_0. cbn [as_float]. intros [= <-].
    destruct t as [b|b| |b m]; simpl in Hnt; try discriminate.
    + split; reflexivity.
    + apply negb_true_iff in Hnt as ->. split; reflexivity.
    + apply negb_true_iff in Hnt as ->. split; [|reflexivity].
      simpl. simpl in Hwt. rewrite Hwt. reflexivity.
  - apply andb_prop in Hv as [Hwx Hnx].
    unfold py_add, float_binop, res_bind. cbn [as_float]. intros [= <-].
    destruct (add_nonneg_r_ge x t Hwx Hnx Hnt) as [Hle Hnn].
    split.
    + simpl. rewrite wf_add by assumption. rewrite Hnn. reflexivity.
    + exact Hle.
Qed.

Lemma caloriesPerMinute_nonneg (t : pystr) : 0 <= Spec.caloriesPerMinute t.
Proof. unfold Spec.caloriesPerMinute. repeat case_bool_decide; lia. Qed.

(** *** The invariants along one operation *)

Lemma grows_same (b b' : bot) : users b' = users b -> grows b b'.
Proof. intros. left. assumption. Qed.

Lemma grows_sound (b b' : bot) :
  grows b b' -> ledgers_ok b ->
  ledgers_ok b' /\
  forall uid u, users b !! uid = Some u ->
    exists u', users b' !! uid = Some u' /\ ledger_le u u'.
Proof.
  intros [Hsame | (uid0 & u0 & u1 & Hu0 & Hins & Hstep)] Hok.
  - split.
    + intros uid u Hu. rewrite Hsame in Hu. eauto.
    + intros uid u Hu. exists u. rewrite Hsame. split; [exact Hu|].
      apply ledger_le_refl. eauto.
  - destruct (Hstep (Hok _ _ Hu0)) as [Hok1 Hle]. split.
    + intros uid u Hu. rewrite Hins in Hu.
      destruct (decide (uid0 = uid)) as [->|Hne].
      * rewrite lookup_insert_eq in Hu. congruence.
      * rewrite lookup_insert_ne in Hu by exact Hne. eauto.
    + intros uid u Hu. rewrite Hins.
      destruct (decide (uid0 = uid)) as [->|Hne].
      * rewrite lookup_insert_eq. exists u1. split; [reflexivity|]. congruence.
      * rewrite lookup_insert_ne by exact Hne. exists u. split; [exact Hu|].
        apply ledger_le_refl. eauto.
Qed.

Lemma drafts_ok_same (b b' : bot) : storage b' = storage b -> drafts_ok b -> drafts_ok b'.
Proof. unfold drafts_ok, ctx_of. intros ->. auto. Qed.

Lemma drafts_ok_put (b b' : bot) (k : Z * Z) (c : fsm_ctx) :
  storage b' = <[k := c]> (storage b) ->
  (forall d, d_calories_per_100g (fsm_values c) = Some d -> density_ok d = true) ->
  drafts_ok b -> drafts_ok b'.
Proof.
  unfold drafts_ok, ctx_of. intros -> Hc Hb k' d.
  destruct (decide (k = k')) as [->|Hne].
  - rewrite lookup_insert_eq. simpl. apply Hc.
  - rewrite lookup_insert_ne by exact Hne. apply Hb.
Qed.

End LedgerFacts.

(** ** C6: the quantity step of the food dialog *)

(** In the food phase, text that is none of the commands registered
    before the quantity handler reaches that handler. *)
Lemma feed_food_phase `{Externals} (msg : message) (b : bot) :
  phase_of b msg = Some FoodLoggingState_waiting_for_quantity ->
  early_command (text msg) = false ->
  command_filter (lit "log_water") (text msg) = false ->
  command_filter (lit "log_workout") (text msg) = false ->
  command_filter (lit "log_food") (text msg) = false ->
  feed msg b = process_food_quantity msg b.
Proof.
  intros Hp Hearly Hw Hk Hf. unfold early_command in Hearly.
  apply orb_false_elim in Hearly as [Hearly Hsp].
  apply orb_false_elim in Hearly as [Hst Hhe].
  unfold feed, registered, first_match, accepts.
  rewrite Hst, Hhe, Hsp, Hw, Hk, Hf, Hp. reflexivity.
Qed.

(** The quotient by 100 of an [int] below [2^1023] is a finite float. *)
Lemma int_density_per_gram (z : Z) :
  Z.abs z < 2 ^ 1023 -> Float.is_finite (Float.of_ratio z 100) = true.
Proof.
  intros Hz. unfold Float.of_ratio. destruct (z =? 0); [reflexivity|].
  change (Z.abs 100) with 100. unfold Float.round_to.
  assert (Hs : 0 < Float.scale) by (unfold Float.scale; apply Z.pow_pos_nonneg; lia).
  assert (Htop : 2 ^ 2097 = 2 ^ 1023 * Float.scale).
  { unfold Float.scale. rewrite <- Z.pow_add_r by lia. reflexivity. }
  assert (Hhuge : Float.huge = 2 * 2 ^ 2097).
  { unfold Float.huge. rewrite <- Z.pow_succ_r by lia. reflexivity. }
  assert (Hrep : 2 ^ 2097 mod 2 ^ Float.shift_of (2 ^ 2097) = 0).
  { rewrite <- (Z.mul_1_l (2 ^ 2097)).
    apply FloatFacts.scaled_representable; [lia|].
    split; [lia|]. apply Z.lt_le_incl, Z.pow_gt_1; unfold Float.prec; lia. }
  assert (Hpos : 0 < 2 ^ 1023) by (apply Z.pow_pos_nonneg; lia).
  revert Htop Hhuge Hrep Hz Hpos.
  generalize (2 ^ 2097) (2 ^ 1023). intros top a Htop Hhuge Hrep Hz Hpos.
  assert (Hle : Float.round_nearest (Z.abs z * Float.scale) 100 <= top)
    by (apply FloatFacts.round_nearest_upper; [lia | nia | nia | exact Hrep | nia]).
  unfold Float.of_units.
  destruct (Float.round_nearest (Z.abs z * Float.scale) 100 <=? 0); [reflexivity|].
  destruct (Z.leb_spec Float.huge (Float.round_nearest (Z.abs z * Float.scale) 100));
    [exfalso; nia | reflexivity].
Qed.

(** The arithmetic of the quantity step is defined on a density that
    fits and on the logged calories as they are stored. *)
Lemma quantity_arithmetic_defined (c logged : num) (g : Float.float) :
  density_fits c = true -> calories_stored logged = true ->
  exists q sum,
    py_truediv c (PInt 100) = Val (PFloat q) /\
    py_mul (PFloat q) (PFloat g) = Val (PFloat (Float.mul q g)) /\
    py_add logged (PFloat (Float.mul q g)) = Val (PFloat sum).
Proof.
  intros Hc Hl.
  assert (Hq : exists q, py_truediv c (PInt 100) = Val (PFloat q)).
  { destruct c as [z|x].
    - unfold density_fits in Hc. apply Z.ltb_lt in Hc.
      unfold py_truediv. change (100 =? 0) with false. cbv iota.
      rewrite (int_density_per_gram z Hc). eexists. reflexivity.
    - destruct LedgerFacts.as_float_100 as (p100 & H100 & _).
      unfold py_truediv, res_bind. rewrite H100. cbn [as_float]. cbv iota beta.
      eexists. reflexivity. }
  destruct Hq as (q & Hq). exists q.
  destruct logged as [z|x].
  - unfold calories_stored in Hl. apply Z.eqb_eq in Hl. subst z.
    eexists. split; [exact Hq|]. split; [reflexivity|].
    unfold py_add, float_binop, res_bind. rewrite LedgerFacts.as_float_0.
    cbn [as_float]. reflexivity.
  - eexists. split; [exact Hq|]. split; reflexivity.
Qed.

(** C6.  In the food phase, with a food draft of density [c] (a float, or
    an int that fits a float) and a profile whose logged calories are the
    initial 0 or a float, text that [float()] reads as [g] grams (and that
    is hence none of the commands registered before the quantity handler)
    adds [totalKcal = c / 100 * g] to the logged calories, clears the
    session back to idle, sends the confirmation and leaves the logged
    water, the burned calories, the goals and the profile fields as they
    were.  With [c = 52] and [g = 150] the total is exactly 78.0, and a
    ledger at 0 goes to exactly 78.0. *)
Theorem food_quantity_adds_density_times_grams `{Externals} (msg : message) (b : bot)
    (g : Float.float) (name : pystr) (c : num) (u : user) :
  phase_of b msg = Some FoodLoggingState_waiting_for_quantity ->
  early_command (text msg) = false ->
  command_filter (lit "log_water") (text msg) = false ->
  command_filter (lit "log_workout") (text msg) = false ->
  command_filter (lit "log_food") (text msg) = false ->
  py_float (text msg) = Some g ->
  d_food_name (draft_of b msg) = Some name ->
  d_calories_per_100g (draft_of b msg) = Some c ->
  users b !! from_user msg = Some u ->
  density_fits c = true ->
  calories_stored (logged_calories u) = true ->
  (exists total sum u',
     Spec.totalKcal c g = Val total /\
     py_add (logged_calories u) total = Val sum /\
     feed msg b =
       (BotState (<[from_user msg := u']> (users b))
                 (<[key_of msg := fresh_ctx]> (storage b))
                 (outbox b ++ [(chat msg, FoodLogged name total g)]),
        Val tt) /\
     phase_of (feed msg b).1 msg = None /\
     logged_calories u' = sum /\
     logged_water u' = logged_water u /\
     burned_calories u' = burned_calories u /\
     same_profile u u') /\
  Spec.totalKcal (PInt 52) (Float.of_Z 150) = Val (PFloat (Float.of_Z 78)) /\
  py_add (PInt 0) (PFloat (Float.of_Z 78)) = Val (PFloat (Float.of_Z 78)).
Proof.
  intros Hp Hearly Hw Hk Hf Hg Hname Hc Hu Hfits Hstored.
  split; [|split; vm_compute; reflexivity].
  destruct (quantity_arithmetic_defined c (logged_calories u) g Hfits Hstored)
    as (q & sum & Hq & Hmul & Hsum).
  exists (PFloat (Float.mul q g)), (PFloat sum),
    (with_logged_calories (PFloat sum) u).
  assert (Hrun : feed msg b =
    (BotState (<[from_user msg := with_logged_calories (PFloat sum) u]> (users b))
              (<[key_of msg := fresh_ctx]> (storage b))
              (outbox b ++ [(chat msg, FoodLogged name (PFloat (Float.mul q g)) g)]),
     Val tt)).
  { rewrite (feed_food_phase msg b Hp Hearly Hw Hk Hf).
    exact (food_quantity_logged msg b g name c u (PFloat q) (PFloat (Float.mul q g))
             (PFloat sum) Hg Hname Hc Hu Hq Hmul Hsum). }
  split. { unfold Spec.totalKcal, res_bind. rewrite Hq. exact Hmul. }
  split; [exact Hsum|]. split; [exact Hrun|]. split.
  { rewrite Hrun. unfold phase_of, ctx_of. cbn [fst storage].
    rewrite lookup_insert_eq. reflexivity. }
  repeat split; reflexivity.
Qed.

Lemma food_quantity_adds_density_times_grams_witness :
  let msg := Sample.says 1 "150" in
  let b := Sample.asked_apple in
  let u := Sample.user_2500 in
  (exists total sum u',
     Spec.totalKcal (PInt 52) (Float.of_Z 150) = Val total /\
     py_add (logged_calories u) total = Val sum /\
     @feed Sample.env msg b =
       (BotState (<[from_user msg := u']> (users b))
                 (<[key_of msg := fresh_ctx]> (storage b))
                 (outbox b ++ [(chat msg, FoodLogged (lit "apple") total (Float.of_Z 150))]),
        Val tt) /\
     phase_of (@feed Sample.env msg b).1 msg = None /\
     logged_calories u' = sum /\
     logged_water u' = logged_water u /\
     burned_calories u' = burned_calories u /\
     same_profile u u') /\
  Spec.totalKcal (PInt 52) (Float.of_Z 150) = Val (PFloat (Float.of_Z 78)) /\
  py_add (PInt 0) (PFloat (Float.of_Z 78)) = Val (PFloat (Float.of_Z 78)).
Proof.
  apply (@food_quantity_adds_density_times_grams Sample.env (Sample.says 1 "150")
           Sample.asked_apple (Float.of_Z 150) (lit "apple") (PInt 52) Sample.user_2500);
    vm_compute; reflexivity.
Defined.

Module LedgerSteps.
Import Float FloatFacts LedgerFacts.

(** Decide which exceptions an [except] clause catches. *)
Ltac decide_caught :=
  repeat match goal with
  | |- context [bool_decide (?e ∈ ?l)] =>
      let v := eval vm_compute in (bool_decide (e ∈ l)) in
      lazymatch v with
      | true => change (bool_decide (e ∈ l)) with true
      | false => change (bool_decide (e ∈ l)) with false
      end; cbv iota
  end.

Lemma water_update_ok (u : user) (a : Z) :
  0 <= a -> ledger_ok u = true ->
  ledger_ok (with_logged_water (logged_water u + a) u) = true /\
  ledger_le u (with_logged_water (logged_water u + a) u).
Proof.
  unfold ledger_ok, ledger_le, with_logged_water. cbn [logged_water burned_calories logged_calories].
  intros Ha Hok. apply andb_prop in Hok as [Hok Hc]. apply andb_prop in Hok as [Hw Hb].
  apply Z.leb_le in Hw, Hb. split.
  - rewrite Hc. rewrite !andb_true_r. apply andb_true_intro; split; apply Z.leb_le; lia.
  - repeat split; try lia. apply py_le_refl, Hc.
Qed.

Lemma workout_update_ok (u : user) (burned water : Z) :
  0 <= burned -> 0 <= water -> ledger_ok u = true ->
  let u1 := with_burned_calories (burned_calories u + burned) u in
  let u' := with_logged_water (logged_water u1 + water) u1 in
  ledger_ok u' = true /\ ledger_le u u'.
Proof.
  unfold ledger_ok, ledger_le, with_logged_water, with_burned_calories.
  cbn [logged_water burned_calories logged_calories].
  intros Hb Hw Hok. apply andb_prop in Hok as [Hok Hc]. apply andb_prop in Hok as [Hw0 Hb0].
  apply Z.leb_le in Hw0, Hb0. split.
  - rewrite Hc. rewrite !andb_true_r. apply andb_true_intro; split; apply Z.leb_le; lia.
  - repeat split; try lia. apply py_le_refl, Hc.
Qed.

Lemma calories_update_ok (u : user) (sum : num) :
  calories_ok sum = true -> py_le (logged_calories u) sum = true ->
  ledger_ok u = true ->
  ledger_ok (with_logged_calories sum u) = true /\
  ledger_le u (with_logged_calories sum u).
Proof.
  unfold ledger_ok, ledger_le, with_logged_calories.
  cbn [logged_water burned_calories logged_calories].
  intros Hs Hle Hok. apply andb_prop in Hok as [Hok Hc]. apply andb_prop in Hok as [Hw Hb].
  split.
  - rewrite Hw, Hb, Hs. reflexivity.
  - repeat split; try lia. exact Hle.
Qed.

Section Steps.
Context `{Externals}.

Lemma log_water_step (msg : message) (b : bot) :
  amount_ok (LogWater msg) = true ->
  grows b (cmd_log_water msg b).1 /\ storage (cmd_log_water msg b).1 = storage b.
Proof.
  unfold amount_ok. intros Hok. unfold cmd_log_water. unfold_monad.
  destruct (users b !! from_user msg) as [u|] eqn:Hu; unfold_monad;
    [|split; [left|]; reflexivity].
  destruct (split (text msg) !! 1%nat) as [tok|]; unfold_monad; decide_caught;
    [|split; [left|]; reflexivity].
  destruct (py_int tok) as [a|]; unfold_monad; decide_caught;
    [|split; [left|]; reflexivity].
  apply Z.leb_le in Hok.
  rewrite Hu. unfold_monad. rewrite lookup_insert_eq. unfold_monad.
  destruct (py_sub _ _) as [d|e] eqn:Hd; unfold_monad.
  - split; [|reflexivity]. right. eexists (from_user msg), u, _.
    split; [exact Hu|]. split; [reflexivity|]. apply water_update_ok; assumption.
  - apply py_sub_exn in Hd as ->. decide_caught. cbn [fst users storage].
    split; [|reflexivity]. right. eexists (from_user msg), u, _.
    split; [exact Hu|]. split; [reflexivity|]. apply water_update_ok; assumption.
Qed.

Lemma log_workout_step (msg : message) (b : bot) :
  amount_ok (LogWorkout msg) = true ->
  grows b (cmd_log_workout msg b).1 /\ storage (cmd_log_workout msg b).1 = storage b.
Proof.
  unfold amount_ok. intros Hok. unfold cmd_log_workout. unfold_monad.
  destruct (users b !! from_user msg) as [u|] eqn:Hu; unfold_monad;
    [|split; [left|]; reflexivity].
  case_bool_decide; unfold_monad; [split; [left|]; reflexivity|].
  destruct (tail_from_1 (split (text msg)) !! 0%nat) as [t|]; unfold_monad; decide_caught;
    [|split; [left|]; reflexivity].
  destruct (tail_from_1 (split (text msg)) !! 1%nat) as [tok|]; unfold_monad; decide_caught;
    [|split; [left|]; reflexivity].
  destruct (py_int tok) as [d|]; unfold_monad; decide_caught;
    [|split; [left|]; reflexivity].
  apply Z.leb_le in Hok.
  rewrite Hu. unfold_monad. rewrite lookup_insert_eq. unfold_monad.
  rewrite insert_insert_eq. split; [|reflexivity].
  right. eexists (from_user msg), u, _.
  split; [exact Hu|]. split; [reflexivity|].
  apply workout_update_ok.
  - rewrite dict_get_calories_per_minute.
    pose proof (caloriesPerMinute_nonneg (str_lower t)). nia.
  - unfold py_floordiv_int. assert (0 <= d / 30) by (apply Z.div_pos; lia). lia.
Qed.

Lemma log_food_step (msg : message) (b : bot) :
  amount_ok (LogFoodStart msg) = true ->
  drafts_ok b ->
  users (cmd_log_food msg b).1 = users b /\ drafts_ok (cmd_log_food msg b).1.
Proof.
  unfold amount_ok. intros Hok Hd. unfold cmd_log_food. unfold_monad.
  destruct (users b !! from_user msg) as [u|]; unfold_monad;
    [|split; [reflexivity|exact Hd]].
  destruct (join_space (tail_from_1 (split (text msg)))) as [|c0 name] eqn:Hname;
    unfold_monad; [split; [reflexivity|exact Hd]|].
  destruct (f_status (food_http (c0 :: name)) =? 200); unfold_monad;
    [|split; [reflexivity|exact Hd]].
  destruct (f_products (food_http (c0 :: name))) as [|first_product others]; unfold_monad;
    [split; [reflexivity|exact Hd]|].
  split; [reflexivity|].
  unfold ctx_of at 1. cbn [storage]. rewrite lookup_insert_eq. cbn [default fsm_values fsm_state].
  rewrite insert_insert_eq.
  eapply drafts_ok_put; [reflexivity| |exact Hd].
  cbn [fsm_values d_calories_per_100g]. intros d [= <-]. exact Hok.
Qed.

Lemma food_quantity_step (msg : message) (b : bot) :
  amount_ok (LogFoodQuantity msg) = true ->
  drafts_ok b ->
  grows b (process_food_quantity msg b).1 /\ drafts_ok (process_food_quantity msg b).1.
Proof.
  unfold amount_ok. intros Hok Hd. unfold process_food_quantity. unfold_monad.
  destruct (py_float (text msg)) as [g|]; unfold_monad; decide_caught;
    [|split; [left; reflexivity|exact Hd]].
  destruct (d_food_name (draft_of b msg)) as [name|]; unfold_monad; decide_caught;
    [|split; [left; reflexivity|exact Hd]].
  destruct (d_calories_per_100g (draft_of b msg)) as [c|] eqn:Hc; unfold_monad; decide_caught;
    [|split; [left; reflexivity|exact Hd]].
  assert (Hdens : density_ok c = true) by (eapply Hd; exact Hc).
  destruct (py_truediv c (PInt 100)) as [q|e] eqn:Hq; unfold_monad.
  2: { destruct (bool_decide _); unfold_monad; (split; [left; reflexivity|exact Hd]). }
  destruct (density_per_gram c q Hdens Hq) as (x & -> & Hfx & Hnx).
  destruct (quantity_calories x g Hfx Hnx Hok) as [Hwt Hnt].
  change (py_mul (PFloat x) (PFloat g)) with (Val (PFloat (mul x g))). unfold_monad.
  destruct (users b !! from_user msg) as [u|] eqn:Hu; unfold_monad; decide_caught;
    [|split; [left; reflexivity|exact Hd]].
  destruct (py_add (logged_calories u) (PFloat (mul x g))) as [sum|e] eqn:Hsum; unfold_monad.
  2: { destruct (bool_decide _); unfold_monad; (split; [left; reflexivity|exact Hd]). }
  split.
  - right. eexists (from_user msg), u, _. split; [exact Hu|]. split; [reflexivity|].
    intros Hok_u. assert (Hcal : calories_ok (logged_calories u) = true).
    { unfold ledger_ok in Hok_u. apply andb_prop in Hok_u as [_ Hcal]. exact Hcal. }
    destruct (logged_calories_grow _ _ _ Hcal Hwt Hnt Hsum) as [Hs Hle].
    apply calories_update_ok; assumption.
  - eapply drafts_ok_put; [reflexivity| |exact Hd].
    cbn [fresh_ctx fsm_values no_data d_calories_per_100g]. intros d [=].
Qed.

Lemma check_progress_step (msg : message) (b : bot) :
  users (cmd_check_progress msg b).1 = users b /\
  storage (cmd_check_progress msg b).1 = storage b.
Proof.
  unfold cmd_check_progress. unfold_monad.
  destruct (users b !! from_user msg) as [u|]; unfold_monad; [|split; reflexivity].
  destruct (py_sub (water_goal u) _); unfold_monad; [|split; reflexivity].
  destruct (py_sub (logged_calories u) _); unfold_monad; split; reflexivity.
Qed.

(** One operation with an acceptable amount: every ledger stays sound,
    none gets smaller, and the drafts stay acceptable. *)
Lemma run_op_step (o : ledger_op) (b : bot) :
  amount_ok o = true -> drafts_ok b ->
  grows b (run_op o b).1 /\ drafts_ok (run_op o b).1.
Proof.
  intros Hok Hd. destruct o as [msg|msg|msg|msg|msg]; unfold run_op.
  - destruct (log_water_step msg b Hok) as [Hg Hs]. split; [exact Hg|].
    eapply drafts_ok_same; eassumption.
  - destruct (log_workout_step msg b Hok) as [Hg Hs]. split; [exact Hg|].
    eapply drafts_ok_same; eassumption.
  - destruct (log_food_step msg b Hok Hd) as [Hu Hs]. split; [left; exact Hu|exact Hs].
  - apply food_quantity_step; assumption.
  - destruct (check_progress_step msg b) as [Hu Hs]. split; [left; exact Hu|].
    eapply drafts_ok_same; eassumption.
Qed.

Lemma run_ops_invariant (os : list ledger_op) (b : bot) :
  forallb amount_ok os = true -> ledgers_ok b -> drafts_ok b ->
  ledgers_ok (run_ops os b) /\ drafts_ok (run_ops os b).
Proof.
  revert b. induction os as [|o os IH]; intros b Hall Hl Hd; [split; assumption|].
  cbn [forallb] in Hall. apply andb_prop in Hall as [Ho Hall].
  destruct (run_op_step o b Ho Hd) as [Hg Hd'].
  cbn [run_ops]. apply IH; [exact Hall| |exact Hd'].
  apply (grows_sound b _ Hg Hl).
Qed.

Lemma forallb_take {A} (f : A -> bool) (n : nat) (l : list A) :
  forallb f l = true -> forallb f (take n l) = true.
Proof.
  revert n. induction l as [|x l IH]; intros [|n] Hall; try reflexivity.
  cbn [forallb] in Hall. apply andb_prop in Hall as [Hx Hall].
  cbn [take forallb]. rewrite Hx. apply IH, Hall.
Qed.

Lemma forallb_lookup {A} (f : A -> bool) (n : nat) (l : list A) (x : A) :
  forallb f l = true -> l !! n = Some x -> f x = true.
Proof.
  revert n. induction l as [|y l IH]; intros [|n] Hall Hx; try discriminate Hx.
  - cbn [forallb] in Hall. apply andb_prop in Hall as [Hy _]. simpl in Hx. congruence.
  - cbn [forallb] in Hall. apply andb_prop in Hall as [_ Hall]. eapply IH; eassumption.
Qed.

End Steps.
End LedgerSteps.

(** C3 (amended).  Start from a state in which every ledger is sound
    (logged water and burned calories not negative, logged calories the
    initial 0 or a float that is not negative) and run any sequence of
    ledger operations whose amounts are not negative: millilitres,
    minutes, and finite grams and densities.  Then before and after each
    operation of the sequence every ledger is sound, and the operation
    leaves no ledger quantity of any user below its previous value. *)
Theorem ledger_never_decreases `{Externals} (os : list ledger_op) (b : bot)
    (n : nat) (o : ledger_op) :
  ledgers_ok b -> drafts_ok b ->
  forallb amount_ok os = true ->
  os !! n = Some o ->
  let before := run_ops (take n os) b in
  let after := (run_op o before).1 in
  ledgers_ok before /\ ledgers_ok after /\
  forall uid u, users before !! uid = Some u ->
    exists u', users after !! uid = Some u' /\ ledger_le u u'.
Proof.
  intros Hl Hd Hall Ho before after.
  destruct (LedgerSteps.run_ops_invariant (take n os) b
              (LedgerSteps.forallb_take _ n os Hall) Hl Hd) as [Hl' Hd'].
  fold before in Hl', Hd'.
  destruct (LedgerSteps.run_op_step o before
              (LedgerSteps.forallb_lookup _ n os o Hall Ho) Hd') as [Hg _].
  destruct (LedgerFacts.grows_sound before after Hg Hl') as [Hl'' Hmono].
  auto.
Qed.

Lemma ledger_never_decreases_witness :
  let before := @run_ops Sample.env (take 3 Sample.day) Sample.with_user_2500 in
  let after := (@run_op Sample.env (LogFoodQuantity (Sample.says 1 "150")) before).1 in
  ledgers_ok before /\ ledgers_ok after /\
  forall uid u, users before !! uid = Some u ->
    exists u', users after !! uid = Some u' /\ ledger_le u u'.
Proof.
  apply (@ledger_never_decreases Sample.env Sample.day Sample.with_user_2500 3
           (LogFoodQuantity (Sample.says 1 "150"))).
  - intros uid u Hu. unfold Sample.with_user_2500 in Hu. cbn [users] in Hu.
    apply lookup_singleton_Some in Hu as [_ <-]. vm_compute. reflexivity.
  - intros k c. unfold ctx_of, Sample.with_user_2500. cbn [storage].
    rewrite lookup_empty. cbn [default fresh_ctx fsm_values no_data d_calories_per_100g].
    intros [=].
  - vm_compute. reflexivity.
  - reflexivity.
Defined.

(** C3 as stated fails: nothing stops a negative amount.  Logging -500 ml
    on a fresh ledger takes the logged water from 0 to -500. *)
Lemma negative_amount_decreases_water :
  let b := Sample.with_user_2500 in
  let b' := (@feed Sample.env (Sample.says 1 "/log_water -500") b).1 in
  logged_water <$> users b !! 1 = Some 0 /\
  logged_water <$> users b' !! 1 = Some (-500) /\
  -500 < 0.
Proof. vm_compute. repeat split; reflexivity. Qed.

(** The ledger a completed profile dialog writes is sound, so the
    invariant above holds from the commit on. *)
Lemma committed_ledger_is_sound (w h : Float.float) (a m : Z) (c : pystr) (wg cg : num) :
  ledger_ok (User w h a m c wg cg 0 (PInt 0) 0) = true.
Proof. reflexivity. Qed.

(** * Beyond the claims: what every message does *)

Module Footprint.
Import LedgerSteps.

Lemma ctx_of_put (us : gmap Z user) (st : gmap (Z * Z) fsm_ctx)
    (ob : list (Z * reply)) (k : Z * Z) (c : fsm_ctx) :
  ctx_of (BotState us (<[k := c]> st) ob) k = c.
Proof. unfold ctx_of. cbn [storage]. rewrite lookup_insert_eq. reflexivity. Qed.

(** Run a handler through all its branches: reduce, read back what was
    just written, and split on the innermost undecided test. *)
Ltac exec_step :=
  first
  [ progress unfold_monad
  | progress unfold draft_of, phase_of
  | rewrite ctx_of_put
  | rewrite lookup_insert_eq
  | rewrite insert_insert_eq
  | progress cbn [fsm_state fsm_values default]
  | match goal with
    | |- context [match ?x with _ => _ end] =>
        lazymatch x with
        | context [match _ with _ => _ end] => fail
        | _ => destruct x eqn:?
        end
    end ].
Ltac exec := repeat exec_step.

Ltac same_profile_ok :=
  unfold same_profile, with_logged_water, with_logged_calories, with_burned_calories;
  cbn [weight height age activity city water_goal calorie_goal];
  repeat split; reflexivity.

Ltac ledger_ok_tac :=
  unfold ledger_effect; cbn [users];
  first [ left; reflexivity
        | right; eexists _, _; split; [eassumption|]; split; [reflexivity|same_profile_ok] ].

Ltac storage_ok_tac :=
  unfold storage_effect; cbn [storage];
  first [ reflexivity | left; reflexivity | right; eexists; reflexivity ].

Ltac outbox_ok_tac :=
  unfold outbox_effect; cbn [fst snd outbox];
  first [ reflexivity | eexists; reflexivity ].

Ltac footprint_tac :=
  exec; (split; [ledger_ok_tac | split; [storage_ok_tac | outbox_ok_tac]]).

Section Handlers.
Context `{Externals}.

Lemma cmd_start_footprint msg b : plain_footprint msg b (cmd_start msg b).
Proof. unfold plain_footprint, cmd_start. footprint_tac. Qed.

Lemma cmd_help_footprint msg b : plain_footprint msg b (cmd_help msg b).
Proof. unfold plain_footprint, cmd_help. footprint_tac. Qed.

Lemma cmd_set_profile_footprint msg b : plain_footprint msg b (cmd_set_profile msg b).
Proof. unfold plain_footprint, cmd_set_profile. footprint_tac. Qed.

Lemma set_weight_footprint msg b : plain_footprint msg b (set_weight msg b).
Proof. unfold plain_footprint, set_weight. footprint_tac. Qed.

Lemma set_height_footprint msg b : plain_footprint msg b (set_height msg b).
Proof. unfold plain_footprint, set_height. footprint_tac. Qed.

Lemma set_age_footprint msg b : plain_footprint msg b (set_age msg b).
Proof. unfold plain_footprint, set_age. footprint_tac. Qed.

Lemma set_activity_footprint msg b : plain_footprint msg b (set_activity msg b).
Proof. unfold plain_footprint, set_activity. footprint_tac. Qed.

Lemma cmd_log_water_footprint msg b : plain_footprint msg b (cmd_log_water msg b).
Proof. unfold plain_footprint, cmd_log_water. footprint_tac. Qed.

Lemma cmd_log_workout_footprint msg b : plain_footprint msg b (cmd_log_workout msg b).
Proof. unfold plain_footprint, cmd_log_workout. footprint_tac. Qed.

Lemma cmd_log_food_footprint msg b : plain_footprint msg b (cmd_log_food msg b).
Proof. unfold plain_footprint, cmd_log_food. footprint_tac. Qed.

Lemma process_food_quantity_footprint msg b :
  plain_footprint msg b (process_food_quantity msg b).
Proof. unfold plain_footprint, process_food_quantity. footprint_tac. Qed.

Lemma cmd_check_progress_footprint msg b :
  plain_footprint msg b (cmd_check_progress msg b).
Proof. unfold plain_footprint, cmd_check_progress. footprint_tac. Qed.

Lemma set_city_footprint msg b :
  (users (set_city msg b).1 = users b /\ storage (set_city msg b).1 = storage b
   \/ commit_effect msg b (set_city msg b).1) /\
  outbox_effect msg b (set_city msg b).
Proof.
  unfold set_city, water_goal_expr, calorie_goal_expr. exec.
  all: split; [|outbox_ok_tac].
  all: first [ left; split; reflexivity
             | right; unfold commit_effect; cbn [users storage];
               eexists; repeat split; reflexivity ].
Qed.

(** Which handler a message reaches. *)
Lemma feed_dispatch (msg : message) (b : bot) :
  (first_match registered msg b = None /\ feed msg b = (b, Val tt)) \/
  exists h,
    first_match registered msg b = Some h /\ feed msg b = h msg b /\
    (h = cmd_start \/ h = cmd_help \/ h = cmd_set_profile \/
     (exists p, phase_of b msg = Some p /\ h = phase_handler p) \/
     h = cmd_log_water \/ h = cmd_log_workout \/ h = cmd_log_food \/
     h = cmd_check_progress).
Proof.
  unfold feed, registered, first_match, accepts.
  repeat match goal with
  | |- context [if command_filter ?n ?t then _ else _] =>
      destruct (command_filter n t);
      [right; eexists; split; [reflexivity|]; split; [reflexivity|]; tauto|]
  | |- context [bool_decide (phase_of b msg = Some ?p)] =>
      case_bool_decide;
      [right; eexists; split; [reflexivity|]; split; [reflexivity|];
       do 3 right; left; exists p; split; [assumption|reflexivity]|]
  end.
  left. split; reflexivity.
Qed.

Lemma phase_handler_footprint (p : phase) (msg : message) (b : bot) :
  p <> ProfileState_city -> plain_footprint msg b (phase_handler p msg b).
Proof.
  intros Hp. destruct p; cbn [phase_handler];
    auto using set_weight_footprint, set_height_footprint, set_age_footprint,
      set_activity_footprint, process_food_quantity_footprint.
  congruence.
Qed.

(** Every message: [users] is left alone, or the sender's ledger is
    updated, or (in the city phase only) the sender's profile is
    committed; the FSM storage changes at most at the sender's key. *)
Lemma feed_footprint (msg : message) (b : bot) :
  (ledger_effect msg b (feed msg b).1 \/
   phase_of b msg = Some ProfileState_city /\ commit_effect msg b (feed msg b).1) /\
  storage_effect msg b (feed msg b).1.
Proof.
  destruct (feed_dispatch msg b) as [[_ ->] | (h & _ & -> & Hh)].
  { split; [left; left; reflexivity | left; reflexivity]. }
  assert (Hplain : forall out, plain_footprint msg b out ->
            (ledger_effect msg b out.1 \/
             phase_of b msg = Some ProfileState_city /\ commit_effect msg b out.1) /\
            storage_effect msg b out.1).
  { intros out (Hl & Hs & _). auto. }
  destruct Hh as [->|[->|[->|[(p & Hp & ->)|[->|[->|[->| ->]]]]]]];
    auto using cmd_start_footprint, cmd_help_footprint, cmd_set_profile_footprint,
      cmd_log_water_footprint, cmd_log_workout_footprint, cmd_log_food_footprint,
      cmd_check_progress_footprint.
  destruct (decide (p = ProfileState_city)) as [->|Hne].
  - cbn [phase_handler]. destruct (set_city_footprint msg b) as [[[Hu Hs] | Hc] _].
    + split; [left; left; exact Hu | left; exact Hs].
    + split; [right; split; assumption|].
      destruct Hc as (u' & _ & _ & _ & Hs). right. eexists. exact Hs.
  - apply Hplain, phase_handler_footprint, Hne.
Qed.

End Handlers.
End Footprint.

(** ** One reply per message *)

(** X1.  A message that no handler accepts changes nothing and is not
    answered.  A message that a handler accepts is answered by exactly
    one message, sent to the chat it came from, when the handler returns,
    and by none when the handler raises. *)
Theorem one_reply_per_message `{Externals} (msg : message) (b : bot) :
  match first_match registered msg b with
  | None => feed msg b = (b, Val tt)
  | Some _ => outbox_effect msg b (feed msg b)
  end.
Proof.
  destruct (Footprint.feed_dispatch msg b) as [[-> ->] | (h & -> & -> & Hh)];
    [reflexivity|].
  destruct Hh as [->|[->|[->|[(p & Hp & ->)|[->|[->|[->| ->]]]]]]].
  - apply Footprint.cmd_start_footprint.
  - apply Footprint.cmd_help_footprint.
  - apply Footprint.cmd_set_profile_footprint.
  - destruct (decide (p = ProfileState_city)) as [->|Hne].
    + apply Footprint.set_city_footprint.
    + apply Footprint.phase_handler_footprint, Hne.
  - apply Footprint.cmd_log_water_footprint.
  - apply Footprint.cmd_log_workout_footprint.
  - apply Footprint.cmd_log_food_footprint.
  - apply Footprint.cmd_check_progress_footprint.
Qed.

(** ** Users do not interfere *)

(** X2.  A message changes no dictionary entry and no FSM entry other than
    its sender's. *)
Theorem other_users_untouched `{Externals} (msg : message) (b : bot)
    (uid : Z) (k : Z * Z) :
  uid <> from_user msg -> k <> key_of msg ->
  users (feed msg b).1 !! uid = users b !! uid /\
  ctx_of (feed msg b).1 k = ctx_of b k.
Proof.
  intros Huid Hk. destruct (Footprint.feed_footprint msg b) as [Hu Hs]. split.
  - destruct Hu as [[-> | (u & u' & _ & -> & _)] | [_ (u' & -> & _)]];
      [reflexivity| |]; apply lookup_insert_ne; congruence.
  - unfold ctx_of. destruct Hs as [-> | (c & ->)]; [reflexivity|].
    rewrite lookup_insert_ne by congruence. reflexivity.
Qed.

Lemma other_users_untouched_witness :
  users (@feed Sample.env (Sample.says 2 "/set_profile") Sample.asked_apple).1 !! 1
    = users Sample.asked_apple !! 1 /\
  ctx_of (@feed Sample.env (Sample.says 2 "/set_profile") Sample.asked_apple).1 (1, 1)
    = ctx_of Sample.asked_apple (1, 1).
Proof.
  apply (@other_users_untouched Sample.env (Sample.says 2 "/set_profile")
           Sample.asked_apple 1 (1, 1)).
  - cbn. lia.
  - cbn. intros [=].
Defined.

(** ** Profiles come from the city step only *)

(** X3.  A user gets a dictionary entry only by the city step of the
    profile dialog: if a message creates an entry, the entry is the
    sender's, the sender was in the city phase, the new ledger is empty
    and the sender's dialog is over. *)
Theorem profile_created_by_city_step `{Externals} (msg : message) (b : bot)
    (uid : Z) (u : user) :
  users b !! uid = None ->
  users (feed msg b).1 !! uid = Some u ->
  uid = from_user msg /\ phase_of b msg = Some ProfileState_city /\
  fresh_ledger u /\ city u = text msg /\
  ctx_of (feed msg b).1 (key_of msg) = fresh_ctx.
Proof.
  intros Hnone Hsome. destruct (Footprint.feed_footprint msg b) as [Hu _].
  destruct Hu as [[Hsame | (u0 & u' & Hu0 & Hins & _)] | [Hp (u' & Hins & Hf & Hc & Hst)]].
  - rewrite Hsame in Hsome. congruence.
  - rewrite Hins in Hsome. destruct (decide (from_user msg = uid)) as [<-|Hne].
    + congruence.
    + rewrite lookup_insert_ne in Hsome by exact Hne. congruence.
  - rewrite Hins in Hsome. destruct (decide (from_user msg = uid)) as [<-|Hne].
    + rewrite lookup_insert_eq in Hsome. injection Hsome as <-.
      repeat split; try assumption; try apply Hf.
      unfold ctx_of. rewrite Hst, lookup_insert_eq. reflexivity.
    + rewrite lookup_insert_ne in Hsome by exact Hne. congruence.
Qed.

Lemma profile_created_by_city_step_witness :
  exists u,
    users Sample.after_profile !! 1 = Some u /\
    (1 = from_user (Sample.says 1 "Cairo") /\
     phase_of Sample.before_city (Sample.says 1 "Cairo") = Some ProfileState_city /\
     fresh_ledger u /\ city u = text (Sample.says 1 "Cairo") /\
     ctx_of (@feed Sample.env (Sample.says 1 "Cairo") Sample.before_city).1
            (key_of (Sample.says 1 "Cairo")) = fresh_ctx).
Proof.
  assert (Hrun : (@feed Sample.env (Sample.says 1 "Cairo") Sample.before_city).1
                 = Sample.after_profile) by (vm_compute; reflexivity).
  destruct (users Sample.after_profile !! 1) as [u|] eqn:Hu.
  - exists u. split; [reflexivity|].
    apply (@profile_created_by_city_step Sample.env (Sample.says 1 "Cairo")
             Sample.before_city 1 u).
    + reflexivity.
    + rewrite Hrun. exact Hu.
  - exfalso. revert Hu. vm_compute. intros [=].
Defined.

(** X4.  No message removes a dictionary entry, and only the city step
    changes the profile part of one, and only of its sender's: after any
    message an entry that existed is still there, and unless the message
    comes from that entry's own user while that user is in the city phase,
    its weight, height, age, activity, city and goals are the same. *)
Theorem profile_kept_outside_city_step `{Externals} (msg : message) (b : bot)
    (uid : Z) (u : user) :
  users b !! uid = Some u ->
  exists u',
    users (feed msg b).1 !! uid = Some u' /\
    (~ (uid = from_user msg /\ phase_of b msg = Some ProfileState_city) ->
     same_profile u u').
Proof.
  intros Hu. destruct (Footprint.feed_footprint msg b) as [Hf _].
  assert (Hrefl : same_profile u u) by (unfold same_profile; tauto).
  destruct Hf as [[Hsame | (u0 & u' & Hu0 & Hins & Hsp)] | [Hp (u' & Hins & _)]].
  - exists u. rewrite Hsame. auto.
  - rewrite Hins. destruct (decide (from_user msg = uid)) as [<-|Hne].
    + exists u'. rewrite lookup_insert_eq. split; [reflexivity|]. intros _. congruence.
    + exists u. rewrite lookup_insert_ne by exact Hne. auto.
  - rewrite Hins. destruct (decide (from_user msg = uid)) as [<-|Hne].
    + exists u'. rewrite lookup_insert_eq. split; [reflexivity|].
      intros Hnot. exfalso. apply Hnot. split; [reflexivity | exact Hp].
    + exists u. rewrite lookup_insert_ne by exact Hne. auto.
Qed.

Lemma profile_kept_outside_city_step_witness :
  let b := @feed_all Sample.env
             [Sample.says 2 "/set_profile"; Sample.says 2 "80"; Sample.says 2 "180";
              Sample.says 2 "30"; Sample.says 2 "45"] Sample.with_user_2500 in
  let msg := Sample.says 2 "Cairo" in
  phase_of b msg = Some ProfileState_city /\
  exists u',
    users (@feed Sample.env msg b).1 !! 1 = Some u' /\ same_profile Sample.user_2500 u'.
Proof.
  split; [vm_compute; reflexivity|].
  destruct (@profile_kept_outside_city_step Sample.env (Sample.says 2 "Cairo")
              (@feed_all Sample.env
                 [Sample.says 2 "/set_profile"; Sample.says 2 "80"; Sample.says 2 "180";
                  Sample.says 2 "30"; Sample.says 2 "45"] Sample.with_user_2500)
              1 Sample.user_2500) as (u' & Hu' & Hsame).
  - vm_compute. reflexivity.
  - exists u'. split; [exact Hu'|]. apply Hsame. intros [E _]. discriminate E.
Defined.

(** ** The dialog invariant, and which exceptions can escape *)

Module Safety.
Import LedgerSteps Footprint.

Lemma py_truediv_100_exn (c : num) (e : exn) :
  py_truediv c (PInt 100) = Exc e -> e = OverflowError.
Proof.
  destruct c as [z|x].
  - unfold py_truediv. change (100 =? 0) with false. cbv iota.
    destruct (Float.is_finite _); congruence.
  - destruct LedgerFacts.as_float_100 as (p & Hp & _).
    unfold py_truediv, res_bind. rewrite Hp. cbn [as_float]. discriminate.
Qed.

Lemma py_truediv_30_exn (a : Z) (e : exn) :
  py_truediv (PInt a) (PInt 30) = Exc e -> e = OverflowError.
Proof.
  unfold py_truediv. change (30 =? 0) with false. cbv iota.
  destruct (Float.is_finite _); congruence.
Qed.

Lemma ctx_ok_mono (us us' : gmap Z user) (k : Z * Z) (c : fsm_ctx) :
  (forall uid, is_Some (us !! uid) -> is_Some (us' !! uid)) ->
  ctx_ok us k c -> ctx_ok us' k c.
Proof.
  intros Hdom. unfold ctx_ok. destruct (fsm_state c) as [[]|]; try tauto.
  intros (? & ? & ?). auto.
Qed.

Lemma inv_after (msg : message) (b b' : bot) :
  dialog_inv b ->
  (forall uid, is_Some (users b !! uid) -> is_Some (users b' !! uid)) ->
  (storage b' = storage b \/
   exists c, storage b' = <[key_of msg := c]> (storage b) /\
             ctx_ok (users b') (key_of msg) c) ->
  dialog_inv b'.
Proof.
  intros Hinv Hdom Hst k. unfold ctx_of.
  destruct Hst as [-> | (c & -> & Hc)].
  - eapply ctx_ok_mono; [exact Hdom | apply Hinv].
  - destruct (decide (key_of msg = k)) as [<-|Hne].
    + rewrite lookup_insert_eq. exact Hc.
    + rewrite lookup_insert_ne by exact Hne.
      eapply ctx_ok_mono; [exact Hdom | apply Hinv].
Qed.

(** As [exec], and decide what each [except] clause catches. *)
Ltac exec_safe_step :=
  first
  [ progress decide_caught
  | match goal with
    | E : py_add _ _ = Exc ?e |- _ => is_var e; apply py_add_exn in E as ->
    | E : py_sub _ _ = Exc ?e |- _ => is_var e; apply py_sub_exn in E as ->
    | E : py_mul _ _ = Exc ?e |- _ => is_var e; apply py_mul_exn in E as ->
    | E : py_truediv _ (PInt 100) = Exc ?e |- _ =>
        is_var e; apply py_truediv_100_exn in E as ->
    | E : py_truediv _ (PInt 30) = Exc ?e |- _ =>
        is_var e; apply py_truediv_30_exn in E as ->
    end
  | exec_step ].
Ltac exec_safe := repeat exec_safe_step.

Ltac dom_tac :=
  cbn [users]; intros ? ?;
  first [ assumption
        | rewrite lookup_insert; match goal with |- context [decide (?i = ?j)] => destruct (decide (i = j)) end; [eexists; reflexivity | assumption] ].

Ltac by_inv :=
  match goal with
  | Hs : is_Some None |- _ => exfalso; destruct Hs as [? Hs]; discriminate Hs
  | Hs : is_Some ?x, E : ?x = None |- _ =>
      exfalso; rewrite E in Hs; destruct Hs as [? Hs]; discriminate Hs
  end.

Ltac ctx_tac :=
  unfold ctx_ok; cbn [fsm_state fsm_values d_weight d_height d_age d_activity
                        d_food_name d_calories_per_100g key_of snd users];
  repeat split;
  first [ exact I | eexists; reflexivity | assumption
        | rewrite lookup_insert; match goal with |- context [decide (?i = ?j)] => destruct (decide (i = j)) end; [eexists; reflexivity | assumption]
        | eauto ].

Ltac absurd_lookup :=
  match goal with
  | E : None = Some _ |- _ => discriminate E
  | E : Some _ = None |- _ => discriminate E
  end.

Ltac leaf_main :=
  split;
  [ first
      [ assumption
      | match goal with m : message |- _ => eapply (inv_after m) end;
        [ eassumption | dom_tac
        | cbn [storage];
          first [ left; reflexivity
                | right; eexists; split; [reflexivity | ctx_tac] ] ] ]
  | unfold only_overflow; cbn [snd]; first [ exact I | reflexivity ] ].

Ltac short_list :=
  match goal with
  | L : bool_decide (length ?l < 2)%nat = false, E : ?l !! _ = None |- _ =>
      exfalso; apply bool_decide_eq_false in L; apply lookup_ge_None in E; lia
  end.

Ltac leaf := first [ absurd_lookup | by_inv | short_list | leaf_main ].

Section Handlers.
Context `{Externals}.

Lemma cmd_start_safe msg b : dialog_inv b -> safe (cmd_start msg b).
Proof. intros Hinv. unfold safe, cmd_start. exec_safe. leaf. Qed.

Lemma cmd_help_safe msg b : dialog_inv b -> safe (cmd_help msg b).
Proof. intros Hinv. unfold safe, cmd_help. exec_safe. leaf. Qed.

Lemma cmd_set_profile_safe msg b : dialog_inv b -> safe (cmd_set_profile msg b).
Proof. intros Hinv. unfold safe, cmd_set_profile. exec_safe. leaf. Qed.

Lemma cmd_log_water_safe msg b : dialog_inv b -> safe (cmd_log_water msg b).
Proof. intros Hinv. unfold safe, cmd_log_water. exec_safe. all: leaf. Qed.

Lemma cmd_log_workout_safe msg b : dialog_inv b -> safe (cmd_log_workout msg b).
Proof. intros Hinv. unfold safe, cmd_log_workout. exec_safe. all: leaf. Qed.

Lemma cmd_check_progress_safe msg b : dialog_inv b -> safe (cmd_check_progress msg b).
Proof. intros Hinv. unfold safe, cmd_check_progress. exec_safe. all: leaf. Qed.

Lemma cmd_log_food_safe msg b : dialog_inv b -> safe (cmd_log_food msg b).
Proof.
  intros Hinv. unfold safe, cmd_log_food. exec_safe. all: leaf.
Qed.

Lemma phase_handler_safe (p : phase) msg b :
  phase_of b msg = Some p -> dialog_inv b -> safe (phase_handler p msg b).
Proof.
  intros Hp Hinv. pose proof (Hinv (key_of msg)) as Hk.
  unfold ctx_ok in Hk. unfold phase_of in Hp. rewrite Hp in Hk.
  cbv zeta in Hk. cbn [key_of snd] in Hk.
  destruct p; cbv iota in Hk; destruct_and?; cbn [phase_handler];
    unfold safe, set_weight, set_height, set_age, set_activity, set_city,
      water_goal_expr, calorie_goal_expr, process_food_quantity;
    exec_safe; leaf.
Qed.

Lemma feed_safe msg b : dialog_inv b -> safe (feed msg b).
Proof.
  intros Hinv.
  destruct (feed_dispatch msg b) as [[_ ->] | (h & _ & -> & Hh)].
  { split; [exact Hinv | exact I]. }
  destruct Hh as [->|[->|[->|[(p & Hp & ->)|[->|[->|[->| ->]]]]]]];
    auto using cmd_start_safe, cmd_help_safe, cmd_set_profile_safe,
      phase_handler_safe, cmd_log_water_safe, cmd_log_workout_safe,
      cmd_log_food_safe, cmd_check_progress_safe.
Qed.

Lemma feed_all_inv msgs b : dialog_inv b -> dialog_inv (feed_all msgs b).
Proof.
  revert b. induction msgs as [|msg msgs IH]; intros b Hinv; [exact Hinv|].
  cbn [feed_all]. apply IH, feed_safe, Hinv.
Qed.

Lemma reached_inv msgs : dialog_inv (reached msgs).
Proof.
  apply feed_all_inv. intros k. unfold ctx_of. cbn [storage].
  rewrite lookup_empty. exact I.
Qed.

End Handlers.
End Safety.

(** X5.  In every state the bot can reach from an empty start, a session
    holds what its phase needs: in the height, age, activity and city
    phases the answers of all earlier steps, and in the food phase the
    food name, its density and a profile of that user. *)
Theorem reachable_dialogs_are_complete `{Externals} (msgs : list message) (k : Z * Z) :
  ctx_ok (users (reached msgs)) k (ctx_of (reached msgs) k).
Proof. apply Safety.reached_inv. Qed.

(** X6.  For text messages, and with the two services answering as
    [Externals] describes them (a status, a numeric temperature, products
    whose energy value is a number or missing): in every state the bot can
    reach from an empty start, whatever text message comes next, the
    handler returns or raises [OverflowError].  The handlers' own lookups
    never fail: no [KeyError] from the draft, no [TypeError] from a missing
    [users] entry, no [IndexError], [ValueError] or [ZeroDivisionError]
    escapes.  Messages without text are not covered: on those [float()],
    [int()] and [split] fail in ways no handler catches. *)
Theorem text_messages_raise_only_overflow `{Externals}
    (msgs : list message) (msg : message) :
  only_overflow (feed msg (reached msgs)).2.
Proof. apply Safety.feed_safe, Safety.reached_inv. Qed.

(** ** The steps of the profile dialog *)

(** X7.  In the idle state, text that is not a command reaches no handler:
    nothing changes and nothing is answered. *)
Theorem idle_text_is_ignored `{Externals} (msg : message) (b : bot) :
  phase_of b msg = None ->
  any_command (text msg) = false ->
  feed msg b = (b, Val tt).
Proof.
  intros Hp Hc. unfold any_command, early_command in Hc.
  repeat (apply orb_false_elim in Hc as [Hc ?]).
  unfold feed, registered, first_match, accepts.
  repeat match goal with E : command_filter _ _ = false |- _ => rewrite E; clear E end.
  rewrite Hp. reflexivity.
Qed.

Lemma idle_text_is_ignored_witness :
  @feed Sample.env (Sample.says 1 "hello there") Sample.with_user_2500
  = (Sample.with_user_2500, Val tt).
Proof.
  apply (@idle_text_is_ignored Sample.env (Sample.says 1 "hello there")
           Sample.with_user_2500).
  - reflexivity.
  - vm_compute. reflexivity.
Defined.

(** X8.  The height, age and activity steps work like the weight step:
    text other than /start, /help and /set_profile moves the session to
    the next phase and stores the value exactly when [float()] (height)
    or [int()] (age, activity) accepts it; otherwise the re-prompt of that
    step is sent and nothing changes. *)
Theorem profile_steps_accept_what_parses `{Externals} (msg : message) (b : bot) :
  early_command (text msg) = false ->
  let d := draft_of b msg in
  let moved p d' r :=
    (BotState (users b) (<[key_of msg := FsmCtx (Some p) d']> (storage b))
       (outbox b ++ [(chat msg, r)]), Val tt) in
  (phase_of b msg = Some ProfileState_height ->
     feed msg b =
       match py_float (text msg) with
       | Some h => moved ProfileState_age
           (FsmData (d_weight d) (Some h) (d_age d) (d_activity d)
              (d_food_name d) (d_calories_per_100g d)) AskAge
       | None => (replied b msg BadHeight, Val tt)
       end) /\
  (phase_of b msg = Some ProfileState_age ->
     feed msg b =
       match py_int (text msg) with
       | Some a => moved ProfileState_activity
           (FsmData (d_weight d) (d_height d) (Some a) (d_activity d)
              (d_food_name d) (d_calories_per_100g d)) AskActivity
       | None => (replied b msg BadAge, Val tt)
       end) /\
  (phase_of b msg = Some ProfileState_activity ->
     feed msg b =
       match py_int (text msg) with
       | Some m => moved ProfileState_city
           (FsmData (d_weight d) (d_height d) (d_age d) (Some m)
              (d_food_name d) (d_calories_per_100g d)) AskCity
       | None => (replied b msg BadActivity, Val tt)
       end).
Proof.
  intros Hearly d moved. subst d moved. repeat split; intros Hp.
  - rewrite (feed_profile_phase msg b ProfileState_height) by (assumption || discriminate).
    cbn [phase_handler]. unfold set_height. Safety.exec_safe; reflexivity.
  - rewrite (feed_profile_phase msg b ProfileState_age) by (assumption || discriminate).
    cbn [phase_handler]. unfold set_age. Safety.exec_safe; reflexivity.
  - rewrite (feed_profile_phase msg b ProfileState_activity) by (assumption || discriminate).
    cbn [phase_handler]. unfold set_activity. Safety.exec_safe; reflexivity.
Qed.

Lemma profile_steps_accept_what_parses_witness :
  let msg := Sample.says 1 "175" in
  let b := Sample.awaiting_height in
  let d := draft_of b msg in
  let moved p d' r :=
    (BotState (users b) (<[key_of msg := FsmCtx (Some p) d']> (storage b))
       (outbox b ++ [(chat msg, r)]), Val tt) in
  (phase_of b msg = Some ProfileState_height ->
     @feed Sample.env msg b =
       match @py_float Sample.env (text msg) with
       | Some h => moved ProfileState_age
           (FsmData (d_weight d) (Some h) (d_age d) (d_activity d)
              (d_food_name d) (d_calories_per_100g d)) AskAge
       | None => (replied b msg BadHeight, Val tt)
       end) /\
  (phase_of b msg = Some ProfileState_age ->
     @feed Sample.env msg b =
       match @py_int Sample.env (text msg) with
       | Some a => moved ProfileState_activity
           (FsmData (d_weight d) (d_height d) (Some a) (d_activity d)
              (d_food_name d) (d_calories_per_100g d)) AskActivity
       | None => (replied b msg BadAge, Val tt)
       end) /\
  (phase_of b msg = Some ProfileState_activity ->
     @feed Sample.env msg b =
       match @py_int Sample.env (text msg) with
       | Some m => moved ProfileState_city
           (FsmData (d_weight d) (d_height d) (d_age d) (Some m)
              (d_food_name d) (d_calories_per_100g d)) AskCity
       | None => (replied b msg BadActivity, Val tt)
       end).
Proof.
  apply (@profile_steps_accept_what_parses Sample.env (Sample.says 1 "175")
           Sample.awaiting_height).
  vm_compute. reflexivity.
Defined.

(** X9.  In the city phase, when the weather service does not answer with
    status 200, the failure message is sent and nothing else changes: the
    session stays in the city phase with its draft, so another city can be
    tried. *)
Theorem city_step_keeps_dialog_on_failure `{Externals} (msg : message) (b : bot) :
  phase_of b msg = Some ProfileState_city ->
  early_command (text msg) = false ->
  w_status (weather_http (text msg)) <> 200 ->
  feed msg b = (replied b msg WeatherFailed, Val tt).
Proof.
  intros Hp Hearly Hstatus.
  rewrite (feed_profile_phase msg b ProfileState_city) by (assumption || discriminate).
  cbn [phase_handler]. apply set_city_weather_unavailable.
  unfold get_weather. destruct (Z.eqb_spec (w_status (weather_http (text msg))) 200);
    [contradiction|reflexivity].
Qed.

Lemma city_step_keeps_dialog_on_failure_witness :
  @feed Sample.env (Sample.says 1 "Atlantis") Sample.before_city
  = (replied Sample.before_city (Sample.says 1 "Atlantis") WeatherFailed, Val tt).
Proof.
  apply (@city_step_keeps_dialog_on_failure Sample.env (Sample.says 1 "Atlantis")
           Sample.before_city).
  - reflexivity.
  - vm_compute. reflexivity.
  - vm_compute. intros [=].
Defined.

Ltac step_phase msg p He :=
  match goal with |- context [feed msg ?s] =>
    let P := fresh in
    assert (P : phase_of s msg = Some p)
      by (unfold phase_of; cbn [key_of chat from_user];
          rewrite Footprint.ctx_of_put; reflexivity);
    rewrite (feed_profile_phase msg s p P
               ltac:(let E := fresh in intros E; discriminate E) He);
    clear P
  end.

(** X10.  A whole profile dialog, started in any state: /set_profile, then
    a weight and a height that [float()] reads, an age and an activity
    that [int()] reads, and a city the weather service knows, with goals
    that can be computed.  The six messages are answered by the five
    questions and the confirmation; the user's entry is replaced by the
    new profile with an empty ledger, whatever it was; the session ends
    idle with an empty draft. *)
Theorem profile_dialog_end_to_end `{Externals} (uid chat_id : Z) (b : bot)
    (t0 t1 t2 t3 t4 t5 : pystr) (w h : Float.float) (a m : Z) (temp wg cg : num) :
  command_filter (lit "start") t0 = false ->
  command_filter (lit "help") t0 = false ->
  command_filter (lit "set_profile") t0 = true ->
  early_command t1 = false -> early_command t2 = false -> early_command t3 = false ->
  early_command t4 = false -> early_command t5 = false ->
  py_float t1 = Some w -> py_float t2 = Some h ->
  py_int t3 = Some a -> py_int t4 = Some m ->
  get_weather t5 = Some temp ->
  Spec.waterGoalMl w m temp = Val wg ->
  Spec.calorieGoalKcal w h a = Val cg ->
  let say := Message uid chat_id in
  feed_all [say t0; say t1; say t2; say t3; say t4; say t5] b =
    BotState (<[uid := User w h a m t5 wg cg 0 (PInt 0) 0]> (users b))
             (<[(chat_id, uid) := fresh_ctx]> (storage b))
             (outbox b ++ [(chat_id, AskWeight); (chat_id, AskHeight); (chat_id, AskAge);
                           (chat_id, AskActivity); (chat_id, AskCity);
                           (chat_id, ProfileConfigured wg temp cg)]).
Proof.
  intros Hs Hh Hsp He1 He2 He3 He4 He5 Hw Hhe Ha Hm Htemp Hwg Hcg say.
  subst say. cbn [feed_all].
  assert (E0 : feed (Message uid chat_id t0) b = cmd_set_profile (Message uid chat_id t0) b).
  { unfold feed, registered, first_match, accepts. cbn [text].
    rewrite Hs, Hh, Hsp. reflexivity. }
  rewrite E0. clear E0. unfold cmd_set_profile. unfold_monad. cbn [key_of chat from_user].
  step_phase (Message uid chat_id t1) ProfileState_weight He1.
  cbn [phase_handler]. unfold set_weight. cbn [text]. unfold_monad.
  rewrite Hw. Safety.exec_safe. cbn [key_of chat from_user]. Safety.exec_safe.
  step_phase (Message uid chat_id t2) ProfileState_height He2.
  cbn [phase_handler]. unfold set_height. cbn [text]. unfold_monad.
  rewrite Hhe. Safety.exec_safe. cbn [key_of chat from_user]. Safety.exec_safe.
  step_phase (Message uid chat_id t3) ProfileState_age He3.
  cbn [phase_handler]. unfold set_age. cbn [text]. unfold_monad.
  rewrite Ha. Safety.exec_safe. cbn [key_of chat from_user]. Safety.exec_safe.
  step_phase (Message uid chat_id t4) ProfileState_activity He4.
  cbn [phase_handler]. unfold set_activity. cbn [text]. unfold_monad.
  rewrite Hm. Safety.exec_safe. cbn [key_of chat from_user]. Safety.exec_safe.
  step_phase (Message uid chat_id t5) ProfileState_city He5.
  cbn [phase_handler].
  match goal with |- context [set_city ?msg ?s] =>
    rewrite (set_city_commits msg s temp w h a m wg cg Htemp)
      by (first [ exact Hwg | exact Hcg
                | unfold draft_of; cbn [key_of chat from_user];
                  rewrite Footprint.ctx_of_put; reflexivity ]) end.
  cbn [fst users storage outbox from_user key_of chat text].
  rewrite insert_insert_eq. rewrite <- !app_assoc. reflexivity.
Qed.

Lemma profile_dialog_end_to_end_witness :
  @feed_all Sample.env [Message 1 1 (lit "/set_profile"); Message 1 1 (lit "70");
            Message 1 1 (lit "175"); Message 1 1 (lit "25"); Message 1 1 (lit "60");
            Message 1 1 (lit "Cairo")] Sample.nobody =
    BotState (<[1 := User Sample.f70 Sample.f175 25 60 (lit "Cairo")
                       (PFloat (Float.of_Z 3600)) (PFloat (Float.of_ratio 166875 100))
                       0 (PInt 0) 0]> (users Sample.nobody))
             (<[(1, 1) := fresh_ctx]> (storage Sample.nobody))
             (outbox Sample.nobody ++ [(1, AskWeight); (1, AskHeight); (1, AskAge);
                           (1, AskActivity); (1, AskCity);
                           (1, ProfileConfigured (PFloat (Float.of_Z 3600)) (PInt 30)
                                 (PFloat (Float.of_ratio 166875 100)))]).
Proof.
  apply (@profile_dialog_end_to_end Sample.env 1 1 Sample.nobody
           (lit "/set_profile") (lit "70") (lit "175") (lit "25") (lit "60") (lit "Cairo")
           Sample.f70 Sample.f175 25 60 (PInt 30)
           (PFloat (Float.of_Z 3600)) (PFloat (Float.of_ratio 166875 100)));
    vm_compute; reflexivity.
Defined.

(** ** The ledger commands of an idle user *)

(** Which handler a message reaches when its sender is not in the
    profile dialog: the three logging commands come first, then the
    quantity handler of the food phase, then /check_progress. *)
Lemma feed_outside_profile `{Externals} (msg : message) (b : bot) :
  phase_of b msg = None \/
    phase_of b msg = Some FoodLoggingState_waiting_for_quantity ->
  early_command (text msg) = false ->
  feed msg b =
    if command_filter (lit "log_water") (text msg) then cmd_log_water msg b
    else if command_filter (lit "log_workout") (text msg) then cmd_log_workout msg b
    else if command_filter (lit "log_food") (text msg) then cmd_log_food msg b
    else match phase_of b msg with
         | Some _ => process_food_quantity msg b
         | None =>
             if command_filter (lit "check_progress") (text msg)
             then cmd_check_progress msg b else (b, Val tt)
         end.
Proof.
  intros Hp Hearly. unfold early_command in Hearly.
  apply orb_false_elim in Hearly as [Hearly Hsp].
  apply orb_false_elim in Hearly as [Hst Hhe].
  unfold feed, registered, first_match, accepts. rewrite Hst, Hhe, Hsp.
  destruct Hp as [Hp|Hp]; rewrite Hp;
    repeat match goal with
    | |- context [if command_filter ?n ?t then _ else _] => destruct (command_filter n t)
    end; reflexivity.
Qed.

(** X11.  Outside the profile dialog, /log_water with an amount that [int()] reads adds the amount to
    the logged water before anything else.  If the remaining quantity can
    be computed, it is reported as max(0, goal - logged); if computing it
    overflows, the addition stays, nothing is sent and [OverflowError]
    escapes.  Nothing else changes. *)
Theorem log_water_adds_then_reports `{Externals} (msg : message) (b : bot)
    (u : user) (tok : pystr) (a : Z) :
  phase_of b msg = None \/
    phase_of b msg = Some FoodLoggingState_waiting_for_quantity ->
  early_command (text msg) = false ->
  command_filter (lit "log_water") (text msg) = true ->
  users b !! from_user msg = Some u ->
  split (text msg) !! 1%nat = Some tok ->
  py_int tok = Some a ->
  let logged := logged_water u + a in
  let out := feed msg b in
  users out.1 = <[from_user msg := with_logged_water logged u]> (users b) /\
  storage out.1 = storage b /\
  match py_sub (water_goal u) (PInt logged) with
  | Val difference =>
      out.2 = Val tt /\
      outbox out.1 = outbox b ++
        [(chat msg, WaterLogged a logged (water_goal u) (py_max0 difference))]
  | Exc _ => out.2 = Exc OverflowError /\ outbox out.1 = outbox b
  end.
Proof.
  intros Hp Hearly Hcmd Hu Htok Ha logged out. subst out logged.
  rewrite (feed_outside_profile msg b Hp Hearly), Hcmd.
  rewrite (cmd_log_water_amount msg b u tok a Hu Htok Ha).
  destruct (py_sub (water_goal u) (PInt (logged_water u + a))) as [d|e] eqn:Hd.
  - repeat split; reflexivity.
  - apply py_sub_exn in Hd as ->. repeat split; reflexivity.
Qed.

Lemma log_water_adds_then_reports_witness :
  let msg := Sample.says 1 "/log_water 500" in
  let b := Sample.with_user_2500 in
  let logged := logged_water Sample.user_2500 + 500 in
  let out := @feed Sample.env msg b in
  users out.1 = <[from_user msg := with_logged_water logged Sample.user_2500]> (users b) /\
  storage out.1 = storage b /\
  match py_sub (water_goal Sample.user_2500) (PInt logged) with
  | Val difference =>
      out.2 = Val tt /\
      outbox out.1 = outbox b ++
        [(chat msg, WaterLogged 500 logged (water_goal Sample.user_2500)
                      (py_max0 difference))]
  | Exc _ => out.2 = Exc OverflowError /\ outbox out.1 = outbox b
  end.
Proof.
  apply (@log_water_adds_then_reports Sample.env (Sample.says 1 "/log_water 500")
           Sample.with_user_2500 Sample.user_2500 (lit "500") 500);
    first [left; reflexivity | vm_compute; reflexivity].
Defined.

(** X12.  /log_water without an amount, or with one [int()] rejects, is
    answered with the usage text and changes nothing. *)
Theorem log_water_rejects_bad_amount `{Externals} (msg : message) (b : bot) (u : user) :
  phase_of b msg = None \/
    phase_of b msg = Some FoodLoggingState_waiting_for_quantity ->
  early_command (text msg) = false ->
  command_filter (lit "log_water") (text msg) = true ->
  users b !! from_user msg = Some u ->
  match split (text msg) !! 1%nat with
  | Some tok => py_int tok = None
  | None => True
  end ->
  feed msg b = (replied b msg WaterUsage, Val tt).
Proof.
  intros Hp Hearly Hcmd Hu Hbad.
  rewrite (feed_outside_profile msg b Hp Hearly), Hcmd.
  apply (cmd_log_water_malformed msg b u Hu Hbad).
Qed.

Lemma log_water_rejects_bad_amount_witness :
  @feed Sample.env (Sample.says 1 "/log_water 1.5") Sample.with_user_2500
  = (replied Sample.with_user_2500 (Sample.says 1 "/log_water 1.5") WaterUsage, Val tt).
Proof.
  apply (@log_water_rejects_bad_amount Sample.env (Sample.says 1 "/log_water 1.5")
           Sample.with_user_2500 Sample.user_2500);
    first [left; reflexivity | vm_compute; reflexivity].
Defined.

Lemma users_after_log_water `{Externals} (msg : message) (b : bot) u tok a :
  users b !! from_user msg = Some u ->
  split (text msg) !! 1%nat = Some tok ->
  py_int tok = Some a ->
  users (cmd_log_water msg b).1 =
    <[from_user msg := with_logged_water (logged_water u + a) u]> (users b).
Proof.
  intros Hu Htok Ha. rewrite (cmd_log_water_amount msg b u tok a Hu Htok Ha).
  destruct (py_sub _ _); reflexivity.
Qed.

(** X13.  Two water amounts logged by the same user add up, in either
    order: after both messages the logged water is the old value plus
    both amounts. *)
Theorem water_amounts_add_up `{Externals} (msg1 msg2 : message) (b : bot)
    (u : user) (tok1 tok2 : pystr) (a1 a2 : Z) :
  from_user msg2 = from_user msg1 ->
  users b !! from_user msg1 = Some u ->
  split (text msg1) !! 1%nat = Some tok1 -> py_int tok1 = Some a1 ->
  split (text msg2) !! 1%nat = Some tok2 -> py_int tok2 = Some a2 ->
  logged_water <$> users (cmd_log_water msg2 (cmd_log_water msg1 b).1).1 !! from_user msg1
    = Some (logged_water u + a1 + a2) /\
  logged_water <$> users (cmd_log_water msg1 (cmd_log_water msg2 b).1).1 !! from_user msg1
    = Some (logged_water u + a1 + a2).
Proof.
  intros Hfrom Hu Ht1 Ha1 Ht2 Ha2.
  assert (Hu2 : users b !! from_user msg2 = Some u) by (rewrite Hfrom; exact Hu).
  split.
  - rewrite (users_after_log_water msg2 _ (with_logged_water (logged_water u + a1) u) tok2 a2);
      [| rewrite (users_after_log_water msg1 b u tok1 a1) by assumption;
         rewrite Hfrom; apply lookup_insert_eq | assumption | assumption].
    rewrite Hfrom, lookup_insert_eq. reflexivity.
  - rewrite (users_after_log_water msg1 _ (with_logged_water (logged_water u + a2) u) tok1 a1);
      [| rewrite (users_after_log_water msg2 b u tok2 a2) by assumption;
         rewrite Hfrom; apply lookup_insert_eq | assumption | assumption].
    rewrite lookup_insert_eq. cbn [fmap option_fmap option_map logged_water with_logged_water].
    f_equal. lia.
Qed.

Lemma water_amounts_add_up_witness :
  let msg1 := Sample.says 1 "/log_water 100" in
  let msg2 := Sample.says 1 "/log_water 200" in
  logged_water <$> users (@cmd_log_water Sample.env msg2
      (@cmd_log_water Sample.env msg1 Sample.with_user_2500).1).1 !! from_user msg1
    = Some (logged_water Sample.user_2500 + 100 + 200) /\
  logged_water <$> users (@cmd_log_water Sample.env msg1
      (@cmd_log_water Sample.env msg2 Sample.with_user_2500).1).1 !! from_user msg1
    = Some (logged_water Sample.user_2500 + 100 + 200).
Proof.
  apply (@water_amounts_add_up Sample.env (Sample.says 1 "/log_water 100")
           (Sample.says 1 "/log_water 200") Sample.with_user_2500 Sample.user_2500
           (lit "100") (lit "200") 100 200);
    vm_compute; reflexivity.
Defined.

(** ** The food dialog *)

Lemma cmd_log_food_found `{Externals} (msg : message) (b : bot) (u : user)
    (first_product : product) (others : list product) :
  users b !! from_user msg = Some u ->
  let food_name := join_space (tail_from_1 (split (text msg))) in
  food_name <> [] ->
  f_status (food_http food_name) = 200 ->
  f_products (food_http food_name) = first_product :: others ->
  let d := draft_of b msg in
  let calories := default (PInt 0) (energy_kcal_100g first_product) in
  cmd_log_food msg b =
    (BotState (users b)
       (<[key_of msg :=
            FsmCtx (Some FoodLoggingState_waiting_for_quantity)
              (FsmData (d_weight d) (d_height d) (d_age d) (d_activity d)
                 (Some food_name) (Some calories))]> (storage b))
       (outbox b ++ [(chat msg, FoodPrompt food_name calories)]),
     Val tt).
Proof.
  intros Hu food_name Hname Hst Hprod d calories. subst d calories.
  unfold cmd_log_food. unfold_monad. step Hu. fold food_name.
  destruct food_name as [|c name] eqn:Efood; [congruence|].
  rewrite Hst, Hprod. rewrite Z.eqb_refl. unfold_monad.
  rewrite Footprint.ctx_of_put. cbn [fsm_state fsm_values].
  rewrite insert_insert_eq. reflexivity.
Qed.

(** X14.  Outside the profile dialog, /log_food from a user with a profile
    starts no dialog when the lookup fails: without a product name the
    usage text is sent, with a status other than 200 the service error,
    with an empty product list the not-found text, and in each case
    nothing else changes. *)
Theorem food_lookup_failure_starts_no_dialog `{Externals}
    (msg : message) (b : bot) (u : user) :
  phase_of b msg = None \/
    phase_of b msg = Some FoodLoggingState_waiting_for_quantity ->
  early_command (text msg) = false ->
  command_filter (lit "log_water") (text msg) = false ->
  command_filter (lit "log_workout") (text msg) = false ->
  command_filter (lit "log_food") (text msg) = true ->
  users b !! from_user msg = Some u ->
  let food_name := join_space (tail_from_1 (split (text msg))) in
  (food_name = [] -> feed msg b = (replied b msg FoodUsage, Val tt)) /\
  (food_name <> [] -> f_status (food_http food_name) <> 200 ->
     feed msg b = (replied b msg FoodApiError, Val tt)) /\
  (food_name <> [] -> f_status (food_http food_name) = 200 ->
   f_products (food_http food_name) = [] ->
     feed msg b = (replied b msg FoodNotFound, Val tt)).
Proof.
  intros Hp Hearly Hw Hk Hf Hu food_name.
  rewrite (feed_outside_profile msg b Hp Hearly), Hw, Hk, Hf.
  unfold cmd_log_food. unfold_monad. step Hu. fold food_name.
  repeat split.
  - intros ->. reflexivity.
  - intros Hname Hst. destruct food_name; [congruence|].
    apply Z.eqb_neq in Hst. rewrite Hst. reflexivity.
  - intros Hname Hst Hprod. destruct food_name; [congruence|].
    rewrite Hst, Hprod, Z.eqb_refl. reflexivity.
Qed.

Lemma food_lookup_failure_starts_no_dialog_witness :
  let msg := Sample.says 1 "/log_food stone" in
  let b := Sample.with_user_2500 in
  let food_name := join_space (tail_from_1 (split (text msg))) in
  (food_name = [] -> @feed Sample.env msg b = (replied b msg FoodUsage, Val tt)) /\
  (food_name <> [] -> f_status (@food_http Sample.env food_name) <> 200 ->
     @feed Sample.env msg b = (replied b msg FoodApiError, Val tt)) /\
  (food_name <> [] -> f_status (@food_http Sample.env food_name) = 200 ->
   f_products (@food_http Sample.env food_name) = [] ->
     @feed Sample.env msg b = (replied b msg FoodNotFound, Val tt)).
Proof.
  apply (@food_lookup_failure_starts_no_dialog Sample.env
           (Sample.says 1 "/log_food stone") Sample.with_user_2500 Sample.user_2500);
    first [left; reflexivity | vm_compute; reflexivity].
Defined.

(** X15.  When the lookup answers with status 200 and a non-empty product
    list, only the first product counts: its energy value (0 when it has
    none) and the product name are stored in the draft, the profile fields
    of the draft are kept, the session enters the food phase, the question
    for the quantity is sent, and the [users] dictionary is untouched. *)
Theorem food_lookup_uses_first_product `{Externals}
    (msg : message) (b : bot) (u : user)
    (first_product : product) (others : list product) :
  phase_of b msg = None \/
    phase_of b msg = Some FoodLoggingState_waiting_for_quantity ->
  early_command (text msg) = false ->
  command_filter (lit "log_water") (text msg) = false ->
  command_filter (lit "log_workout") (text msg) = false ->
  command_filter (lit "log_food") (text msg) = true ->
  users b !! from_user msg = Some u ->
  let food_name := join_space (tail_from_1 (split (text msg))) in
  food_name <> [] ->
  f_status (food_http food_name) = 200 ->
  f_products (food_http food_name) = first_product :: others ->
  let d := draft_of b msg in
  let calories := default (PInt 0) (energy_kcal_100g first_product) in
  feed msg b =
    (BotState (users b)
       (<[key_of msg :=
            FsmCtx (Some FoodLoggingState_waiting_for_quantity)
              (FsmData (d_weight d) (d_height d) (d_age d) (d_activity d)
                 (Some food_name) (Some calories))]> (storage b))
       (outbox b ++ [(chat msg, FoodPrompt food_name calories)]),
     Val tt).
Proof.
  intros Hp Hearly Hw Hk Hf Hu food_name Hname Hst Hprod d calories.
  rewrite (feed_outside_profile msg b Hp Hearly), Hw, Hk, Hf.
  exact (cmd_log_food_found msg b u first_product others Hu Hname Hst Hprod).
Qed.

Lemma food_lookup_uses_first_product_witness :
  let msg := Sample.says 1 "/log_food apple" in
  let b := Sample.with_user_2500 in
  let d := draft_of b msg in
  @feed Sample.env msg b =
    (BotState (users b)
       (<[key_of msg :=
            FsmCtx (Some FoodLoggingState_waiting_for_quantity)
              (FsmData (d_weight d) (d_height d) (d_age d) (d_activity d)
                 (Some (lit "apple")) (Some (PInt 52)))]> (storage b))
       (outbox b ++ [(chat msg, FoodPrompt (lit "apple") (PInt 52))]),
     Val tt).
Proof.
  apply (@food_lookup_uses_first_product Sample.env
           (Sample.says 1 "/log_food apple") Sample.with_user_2500 Sample.user_2500
           (Product (Some (PInt 52))) []);
    first [left; reflexivity | vm_compute; reflexivity
          | let E := fresh in intros E; vm_compute in E; discriminate E].
Defined.

(** X16.  In the food phase, text that is none of /start, /help,
    /set_profile, /log_water, /log_workout, /log_food is taken as the
    quantity.  When [float()] rejects it, the re-prompt is sent and the
    session, the draft and the ledger stay as they were. *)
Theorem bad_quantity_keeps_food_dialog `{Externals} (msg : message) (b : bot) :
  phase_of b msg = Some FoodLoggingState_waiting_for_quantity ->
  early_command (text msg) = false ->
  command_filter (lit "log_water") (text msg) = false ->
  command_filter (lit "log_workout") (text msg) = false ->
  command_filter (lit "log_food") (text msg) = false ->
  py_float (text msg) = None ->
  feed msg b = (replied b msg BadQuantity, Val tt).
Proof.
  intros Hp Hearly Hw Hk Hf Hg.
  rewrite (feed_food_phase msg b Hp Hearly Hw Hk Hf).
  unfold process_food_quantity. unfold_monad. step Hg. reflexivity.
Qed.

Lemma bad_quantity_keeps_food_dialog_witness :
  @feed Sample.env (Sample.says 1 "a lot") Sample.asked_apple
  = (replied Sample.asked_apple (Sample.says 1 "a lot") BadQuantity, Val tt).
Proof.
  apply (@bad_quantity_keeps_food_dialog Sample.env (Sample.says 1 "a lot")
           Sample.asked_apple);
    vm_compute; reflexivity.
Defined.

(** X17.  The food dialog from end to end.  A user with a profile who is
    not in the profile dialog sends /log_food with a product the service
    knows, then a quantity [float()] accepts: when the arithmetic is
    defined, [(calories / 100) * grams] is added to the logged calories,
    the FSM entry is cleared, the two replies are sent in order and the
    rest of the user's entry is unchanged. *)
Theorem food_dialog_end_to_end `{Externals} (uid chat_id : Z) (b : bot)
    (t1 t2 : pystr) (u : user) (first_product : product) (others : list product)
    (g : Float.float) (q total sum : num) :
  let ask := Message uid chat_id t1 in
  let quantity := Message uid chat_id t2 in
  phase_of b ask = None \/
    phase_of b ask = Some FoodLoggingState_waiting_for_quantity ->
  early_command t1 = false ->
  command_filter (lit "log_water") t1 = false ->
  command_filter (lit "log_workout") t1 = false ->
  command_filter (lit "log_food") t1 = true ->
  early_command t2 = false ->
  command_filter (lit "log_water") t2 = false ->
  command_filter (lit "log_workout") t2 = false ->
  command_filter (lit "log_food") t2 = false ->
  users b !! uid = Some u ->
  let food_name := join_space (tail_from_1 (split t1)) in
  food_name <> [] ->
  f_status (food_http food_name) = 200 ->
  f_products (food_http food_name) = first_product :: others ->
  let calories := default (PInt 0) (energy_kcal_100g first_product) in
  py_float t2 = Some g ->
  py_truediv calories (PInt 100) = Val q ->
  py_mul q (PFloat g) = Val total ->
  py_add (logged_calories u) total = Val sum ->
  feed_all [ask; quantity] b =
    BotState (<[uid := with_logged_calories sum u]> (users b))
             (<[(chat_id, uid) := fresh_ctx]> (storage b))
             (outbox b ++ [(chat_id, FoodPrompt food_name calories);
                           (chat_id, FoodLogged food_name total g)]).
Proof.
  intros ask quantity Hp He1 Hw1 Hk1 Hf1 He2 Hw2 Hk2 Hf2 Hu food_name Hname Hst Hprod
    calories Hg Hq Htotal Hsum.
  cbn [feed_all].
  rewrite (feed_outside_profile ask b Hp He1). cbn [text ask]. rewrite Hw1, Hk1, Hf1.
  rewrite (cmd_log_food_found ask b u first_product others Hu Hname Hst Hprod).
  cbn [fst]. fold food_name calories.
  match goal with |- context [feed quantity ?s] =>
    assert (Hp2 : phase_of s quantity = Some FoodLoggingState_waiting_for_quantity)
      by (unfold phase_of; cbn [key_of chat from_user ask quantity];
          rewrite Footprint.ctx_of_put; reflexivity);
    rewrite (feed_food_phase quantity s Hp2 He2 Hw2 Hk2 Hf2);
    rewrite (food_quantity_logged quantity s g food_name calories u q total sum Hg)
      by (first [ exact Hu | exact Hq | exact Htotal | exact Hsum
                | unfold draft_of; cbn [key_of chat from_user ask quantity];
                  rewrite Footprint.ctx_of_put; reflexivity ])
  end.
  cbn [fst users storage outbox from_user key_of chat ask quantity].
  rewrite insert_insert_eq, <- app_assoc. reflexivity.
Qed.

Lemma food_dialog_end_to_end_witness :
  @feed_all Sample.env [Message 1 1 (lit "/log_food apple"); Message 1 1 (lit "150")]
    Sample.with_user_2500 =
    BotState (<[1 := with_logged_calories (PFloat (Float.of_Z 78)) Sample.user_2500]>
                (users Sample.with_user_2500))
             (<[(1, 1) := fresh_ctx]> (storage Sample.with_user_2500))
             (outbox Sample.with_user_2500 ++
                [(1, FoodPrompt (lit "apple") (PInt 52));
                 (1, FoodLogged (lit "apple") (PFloat (Float.of_Z 78)) (Float.of_Z 150))]).
Proof.
  apply (@food_dialog_end_to_end Sample.env 1 1 Sample.with_user_2500
           (lit "/log_food apple") (lit "150") Sample.user_2500
           (Product (Some (PInt 52))) [] (Float.of_Z 150)
           (PFloat (Float.of_ratio 52 100)) (PFloat (Float.of_Z 78))
           (PFloat (Float.of_Z 78)));
    first [left; reflexivity | vm_compute; reflexivity
          | let E := fresh in intros E; vm_compute in E; discriminate E].
Defined.

(** ** Workouts and the progress report *)

(** X18.  Outside the profile dialog, /log_workout from a user with a
    profile changes nothing when its arguments are unusable: with fewer
    than two words after the command the usage text is sent, and with a
    duration word [int()] rejects the duration re-prompt is sent. *)
Theorem workout_rejects_bad_input `{Externals} (msg : message) (b : bot) (u : user) :
  phase_of b msg = None \/
    phase_of b msg = Some FoodLoggingState_waiting_for_quantity ->
  early_command (text msg) = false ->
  command_filter (lit "log_water") (text msg) = false ->
  command_filter (lit "log_workout") (text msg) = true ->
  users b !! from_user msg = Some u ->
  ((length (split (text msg)) < 3)%nat ->
     feed msg b = (replied b msg WorkoutUsage, Val tt)) /\
  (forall duration_word,
     split (text msg) !! 2%nat = Some duration_word ->
     py_int duration_word = None ->
     feed msg b = (replied b msg BadDuration, Val tt)).
Proof.
  intros Hp Hearly Hw Hk Hu.
  rewrite (feed_outside_profile msg b Hp Hearly), Hw, Hk.
  unfold cmd_log_workout. unfold_monad. step Hu. unfold tail_from_1.
  destruct (split (text msg)) as [|command [|t [|dw more]]] eqn:Hsplit; split;
    cbn [drop length lookup list_lookup];
    try (intros _; reflexivity);
    try (intros ? [=]);
    try (intros Hlen; cbn in Hlen; lia).
  intros Hint. subst. rewrite bool_decide_eq_false_2 by (cbn; lia).
  unfold_monad. cbn [lookup list_lookup]. unfold_monad.
  rewrite Hint.
  unfold_monad. LedgerSteps.decide_caught. reflexivity.
Qed.

Lemma workout_rejects_bad_input_witness :
  let msg := Sample.says 1 "/log_workout run soon" in
  let b := Sample.with_user_2500 in
  ((length (split (text msg)) < 3)%nat ->
     @feed Sample.env msg b = (replied b msg WorkoutUsage, Val tt)) /\
  (forall duration_word,
     split (text msg) !! 2%nat = Some duration_word ->
     @py_int Sample.env duration_word = None ->
     @feed Sample.env msg b = (replied b msg BadDuration, Val tt)).
Proof.
  apply (@workout_rejects_bad_input Sample.env (Sample.says 1 "/log_workout run soon")
           Sample.with_user_2500 Sample.user_2500);
    first [left; reflexivity | vm_compute; reflexivity].
Defined.

(** X19.  /check_progress from an idle user with a profile never writes:
    the [users] dictionary and the FSM storage are unchanged.  The report
    carries max(0, goal - logged water) and logged - burned calories; if
    either subtraction overflows, nothing is sent and [OverflowError]
    escapes. *)
Theorem check_progress_only_reads `{Externals} (msg : message) (b : bot) (u : user) :
  phase_of b msg = None ->
  any_command (text msg) = true ->
  early_command (text msg) = false ->
  command_filter (lit "log_water") (text msg) = false ->
  command_filter (lit "log_workout") (text msg) = false ->
  command_filter (lit "log_food") (text msg) = false ->
  users b !! from_user msg = Some u ->
  let out := feed msg b in
  users out.1 = users b /\ storage out.1 = storage b /\
  match py_sub (water_goal u) (PInt (logged_water u)),
        py_sub (logged_calories u) (PInt (burned_calories u)) with
  | Val difference, Val balance =>
      out.2 = Val tt /\
      outbox out.1 = outbox b ++
        [(chat msg, Progress (logged_water u) (water_goal u) (py_max0 difference)
                      (logged_calories u) (calorie_goal u) (burned_calories u) balance)]
  | _, _ => out.2 = Exc OverflowError /\ outbox out.1 = outbox b
  end.
Proof.
  intros Hp Hany Hearly Hw Hk Hf Hu out. subst out.
  unfold any_command in Hany. rewrite Hearly, Hw, Hk, Hf in Hany.
  cbn [orb] in Hany.
  rewrite (feed_outside_profile msg b (or_introl Hp) Hearly), Hw, Hk, Hf, Hp, Hany.
  unfold cmd_check_progress. unfold_monad. step Hu.
  destruct (py_sub (water_goal u) (PInt (logged_water u))) as [d|e] eqn:Hd.
  - unfold_monad.
    destruct (py_sub (logged_calories u) (PInt (burned_calories u))) as [bal|e] eqn:Hb.
    + unfold_monad. repeat split; reflexivity.
    + unfold_monad. apply py_sub_exn in Hb as ->. repeat split; reflexivity.
  - unfold_monad. apply py_sub_exn in Hd as ->. repeat split; reflexivity.
Qed.

Lemma check_progress_only_reads_witness :
  let msg := Sample.says 1 "/check_progress" in
  let b := Sample.with_user_2500 in
  let u := Sample.user_2500 in
  let out := @feed Sample.env msg b in
  users out.1 = users b /\ storage out.1 = storage b /\
  match py_sub (water_goal u) (PInt (logged_water u)),
        py_sub (logged_calories u) (PInt (burned_calories u)) with
  | Val difference, Val balance =>
      out.2 = Val tt /\
      outbox out.1 = outbox b ++
        [(chat msg, Progress (logged_water u) (water_goal u) (py_max0 difference)
                      (logged_calories u) (calorie_goal u) (burned_calories u) balance)]
  | _, _ => out.2 = Exc OverflowError /\ outbox out.1 = outbox b
  end.
Proof.
  apply (@check_progress_only_reads Sample.env (Sample.says 1 "/check_progress")
           Sample.with_user_2500 Sample.user_2500);
    vm_compute; reflexivity.
Defined.

(** ** The remaining amount of water *)

Lemma py_max0_nonneg (x : num) : py_ge (py_max0 x) (PInt 0) = true.
Proof.
  unfold py_max0, py_gt, py_ge.
  destruct (py_cmp x (PInt 0)) as [[]|] eqn:E; try rewrite E; reflexivity.
Qed.

Module Remaining.

Ltac sent Hout :=
  cbn [fst outbox] in Hout;
  first
  [ apply app_inv_head in Hout;
    let E := fresh in
    injection Hout as _ E; subst
  | exfalso; apply (f_equal (@length _)) in Hout;
    rewrite length_app in Hout; cbn [length] in Hout; lia ].

Ltac leaf :=
  let Hout := fresh "Hout" in
  let Hrem := fresh "Hrem" in
  intros Hout Hrem; sent Hout; cbn [remaining_of] in Hrem;
  first [ discriminate Hrem
        | injection Hrem as <-; apply py_max0_nonneg ].

Tactic Notation "run" reference(h) :=
  intros msg b c r rem; unfold h; Safety.exec_safe; leaf.

Section Handlers.
Context `{Externals}.

Lemma cmd_start_shows : shows_nonneg cmd_start.
Proof. run cmd_start. Qed.

Lemma cmd_help_shows : shows_nonneg cmd_help.
Proof. run cmd_help. Qed.

Lemma cmd_set_profile_shows : shows_nonneg cmd_set_profile.
Proof. run cmd_set_profile. Qed.

Lemma set_weight_shows : shows_nonneg set_weight.
Proof. run set_weight. Qed.

Lemma set_height_shows : shows_nonneg set_height.
Proof. run set_height. Qed.

Lemma set_age_shows : shows_nonneg set_age.
Proof. run set_age. Qed.

Lemma set_activity_shows : shows_nonneg set_activity.
Proof. run set_activity. Qed.

Lemma set_city_shows : shows_nonneg set_city.
Proof.
  intros msg b c r rem. unfold set_city, water_goal_expr, calorie_goal_expr.
  Safety.exec_safe; leaf.
Qed.

Lemma cmd_log_water_shows : shows_nonneg cmd_log_water.
Proof. run cmd_log_water. Qed.

Lemma cmd_log_workout_shows : shows_nonneg cmd_log_workout.
Proof. run cmd_log_workout. Qed.

Lemma cmd_log_food_shows : shows_nonneg cmd_log_food.
Proof. run cmd_log_food. Qed.

Lemma process_food_quantity_shows : shows_nonneg process_food_quantity.
Proof. run process_food_quantity. Qed.

Lemma cmd_check_progress_shows : shows_nonneg cmd_check_progress.
Proof. run cmd_check_progress. Qed.

Lemma phase_handler_shows (p : phase) : shows_nonneg (phase_handler p).
Proof.
  destruct p; cbn [phase_handler];
    auto using set_weight_shows, set_height_shows, set_age_shows, set_activity_shows,
      set_city_shows, process_food_quantity_shows.
Qed.

End Handlers.
End Remaining.

(** X20.  Whatever the message and the state, a remaining amount of water
    that the bot displays (in the answer to /log_water or in the progress
    report) compares as greater than or equal to zero: it is never
    negative and never NaN, also when the goal itself is NaN or the
    logged amount exceeds the goal. *)
Theorem displayed_remaining_is_never_negative `{Externals}
    (msg : message) (b : bot) (c : Z) (r : reply) (remaining : num) :
  outbox (feed msg b).1 = outbox b ++ [(c, r)] ->
  remaining_of r = Some remaining ->
  py_ge remaining (PInt 0) = true.
Proof.
  destruct (Footprint.feed_dispatch msg b) as [[_ ->] | (h & _ & -> & Hh)].
  { cbn [fst]. intros Hout. exfalso. apply (f_equal (@length _)) in Hout.
    rewrite length_app in Hout. cbn [length] in Hout. lia. }
  revert msg b c r remaining Hh. intros msg b c r remaining Hh.
  assert (Hs : shows_nonneg h).
  { destruct Hh as [->|[->|[->|[(p & Hp & ->)|[->|[->|[->| ->]]]]]]];
      auto using Remaining.cmd_start_shows, Remaining.cmd_help_shows,
        Remaining.cmd_set_profile_shows, Remaining.phase_handler_shows,
        Remaining.cmd_log_water_shows, Remaining.cmd_log_workout_shows,
        Remaining.cmd_log_food_shows, Remaining.cmd_check_progress_shows. }
  apply Hs.
Qed.

Lemma displayed_remaining_is_never_negative_witness :
  py_ge (PInt 0) (PInt 0) = true.
Proof.
  apply (@displayed_remaining_is_never_negative Sample.env
           (Sample.says 1 "/log_water 3000") Sample.with_user_2500 1
           (WaterLogged 3000 3000 (PFloat (Float.of_Z 2500)) (PInt 0)) (PInt 0));
    vm_compute; reflexivity.
Defined.

(** ** The product name sent to the food service *)

Lemma split_aux_tokens (s cur : pystr) :
  Forall (fun c => isspace c = false) cur ->
  Forall token (split_aux cur s).
Proof.
  revert cur. induction s as [|c s IH]; intros cur Hcur; cbn [split_aux].
  - destruct cur as [|c0 cur']; [constructor|].
    constructor; [|constructor]. split.
    + cbn [rev]. intros E. apply app_eq_nil in E as [_ E]. discriminate E.
    + apply Forall_rev, Hcur.
  - destruct (isspace c) eqn:Hc.
    + destruct cur as [|c0 cur'].
      * apply IH. constructor.
      * constructor; [|apply IH; constructor]. split.
        -- cbn [rev]. intros E. apply app_eq_nil in E as [_ E]. discriminate E.
        -- apply Forall_rev, Hcur.
    + apply IH. constructor; assumption.
Qed.

Lemma split_aux_app (x rest cur : pystr) :
  Forall (fun c => isspace c = false) x ->
  split_aux cur (x ++ rest) = split_aux (rev x ++ cur) rest.
Proof.
  revert cur. induction x as [|c x IH]; intros cur Hx; [reflexivity|].
  apply Forall_cons_1 in Hx as [Hc Hx].
  cbn [app split_aux rev]. rewrite Hc, (IH _ Hx), <- app_assoc. reflexivity.
Qed.

Lemma split_join (l : list pystr) :
  Forall token l -> split (join_space l) = l.
Proof.
  unfold split. induction l as [|x l IH]; intros Hl; [reflexivity|].
  apply Forall_cons_1 in Hl as [[Hne Hx] Hl].
  assert (Hrev : exists c y, rev x ++ [] = c :: y /\ rev (c :: y) = x).
  { rewrite app_nil_r. destruct (rev x) as [|c y] eqn:E.
    - apply (f_equal (@rev _)) in E. rewrite rev_involutive in E. contradiction.
    - exists c, y. split; [reflexivity|]. rewrite <- E. apply rev_involutive. }
  destruct Hrev as (c & y & E & Hback).
  destruct l as [|x' l'].
  - cbn [join_space]. rewrite <- (app_nil_r x) at 1.
    rewrite (split_aux_app x [] [] Hx), E. cbn [split_aux]. rewrite Hback. reflexivity.
  - change (join_space (x :: x' :: l')) with (x ++ 32%N :: join_space (x' :: l')).
    rewrite (split_aux_app x _ [] Hx), E.
    change (split_aux (c :: y) (32%N :: join_space (x' :: l')))
      with (rev (c :: y) :: split_aux [] (join_space (x' :: l'))).
    rewrite Hback, (IH Hl). reflexivity.
Qed.

(** X21.  The product name /log_food sends to the service is the words
    after the command joined by single spaces, however they were spaced in
    the message: splitting the name gives those words back, and the name
    is empty, which is when the usage text is sent, exactly when no word
    follows the command. *)
Theorem food_name_is_the_arguments (s : pystr) :
  let arguments := tail_from_1 (split s) in
  let food_name := join_space arguments in
  split food_name = arguments /\ (food_name = [] <-> arguments = []).
Proof.
  intros arguments food_name.
  assert (Htok : Forall token arguments).
  { apply Forall_drop. apply split_aux_tokens. constructor. }
  split; [apply split_join, Htok|]. split.
  - intros E. subst food_name. destruct arguments as [|x l]; [reflexivity|].
    apply Forall_cons_1 in Htok as [[Hne _] _].
    destruct x as [|c x]; [contradiction|].
    destruct l; discriminate E.
  - intros E. subst food_name. rewrite E. reflexivity.
Qed.
